(** * LinkedIn article poster: a shallow embedding of [app.py] and
      [linkedin_poster_core.py], and the properties of its helpers and
      of its two button handlers.

    Conventions of the embedding.
    - A Python [str] is a list of Unicode code points ([pystr]); [len] is
      the number of code points, as in Python.
    - Python values whose shape the code inspects at run time
      ([isinstance], [hasattr], [in], truthiness) are the tagged union
      [pyval].
    - A call that may raise returns an [outcome]; the exceptions of the
      model are instances of [Exception] (what [except Exception]
      catches).  Signals that are only [BaseException]
      (KeyboardInterrupt, SystemExit) are outside the model.
    - The handlers run in the monad [prog]: a state transformer over
      [world] (Streamlit session state, files on disk, trace of external
      calls) that may raise.  What the outside answers (HTTP responses,
      the generation service, the optional backend module) is the
      record [env]. *)

From Stdlib Require Import ZArith NArith List Lia Ascii String Bool DecimalString.
From stdpp Require Import base list gmap.
From Equations Require Import Equations.
Import ListNotations.
Set Warnings "-register-all".
Open Scope Z_scope.

(* ================================================================= *)
(** ** Python strings *)

Definition pychar := N.
Definition pystr := list pychar.

(** A string literal of the source (Latin-1 characters only). *)
Definition py (s : string) : pystr := map N_of_ascii (list_ascii_of_string s).

(** The one-character string "\n". *)
Definition nl : pystr := [10%N].

(** [len(x)] *)
Definition len {A} (l : list A) : Z := Z.of_nat (length l).

(** The characters [str.strip], [str.rstrip] remove by default: those for
    which [str.isspace] holds (U+0009..000D, U+001C..0020, U+0085,
    U+00A0, U+1680, U+2000..200A, U+2028, U+2029, U+202F, U+205F,
    U+3000). *)
Definition is_space (c : pychar) : bool :=
  ((9 <=? c) && (c <=? 13) || (28 <=? c) && (c <=? 32)
   || (c =? 133) || (c =? 160) || (c =? 5760)
   || (8192 <=? c) && (c <=? 8202)
   || (c =? 8232) || (c =? 8233) || (c =? 8239) || (c =? 8287)
   || (c =? 12288))%N.

(** [s.lstrip()] *)
Fixpoint lstrip (s : pystr) : pystr :=
  match s with
  | [] => []
  | c :: t => if is_space c then lstrip t else s
  end.

(** [s.rstrip()] *)
Definition rstrip (s : pystr) : pystr := rev (lstrip (rev s)).

(** [s.strip()] *)
Definition strip (s : pystr) : pystr := rstrip (lstrip s).

(** [s[:k]]: a negative stop counts from the end, and the bounds are
    clipped to the string. *)
Definition slice_to {A} (k : Z) (s : list A) : list A :=
  if k <? 0 then take (Z.to_nat (len s + k)) s else take (Z.to_nat k) s.

(** [s.split(sep)] for a one-character separator. *)
Fixpoint split_on (sep : pychar) (s : pystr) : list pystr :=
  match s with
  | [] => [[]]
  | c :: t =>
      if (c =? sep)%N then [] :: split_on sep t
      else match split_on sep t with
           | p :: ps => (c :: p) :: ps
           | [] => [[c]]
           end
  end.

(** Truthiness of a string: [bool(s)]. *)
Definition str_truthy (s : pystr) : bool :=
  match s with [] => false | _ :: _ => true end.

(** [a or b] on strings. *)
Definition str_or (a b : pystr) : pystr := if str_truthy a then a else b.

(* ================================================================= *)
(** ** Exceptions and results *)

Inductive exn_class :=
| TypeError | ValueError | RuntimeError | AttributeError | IndexError
| HTTPError | OtherException.

(** An exception instance: its class, [str(e)], and for an HTTP error the
    text of the attached response ([e.response.text]), when there is
    one. *)
Record exn := mk_exn {
  exn_cls : exn_class;
  exn_str : pystr;
  exn_response_text : option pystr }.

Definition exception (c : exn_class) (msg : string) : exn :=
  mk_exn c (py msg) None.

Definition is_TypeError (e : exn) : bool :=
  match exn_cls e with TypeError => true | _ => false end.
Definition is_AttributeError (e : exn) : bool :=
  match exn_cls e with AttributeError => true | _ => false end.
Definition is_HTTPError (e : exn) : bool :=
  match exn_cls e with HTTPError => true | _ => false end.

Inductive outcome (A : Type) : Type :=
| Return (a : A)
| Raise (e : exn).
Arguments Return {A} a.
Arguments Raise {A} e.

#[global] Instance outcome_ret : MRet outcome := fun A a => Return a.
#[global] Instance outcome_bind : MBind outcome := fun A B f m =>
  match m with
  | Return a => f a
  | Raise e => Raise e
  end.

(* ================================================================= *)
(** ** Python values *)

(** A dictionary is kept as an association list: Python dictionaries are
    ordered by insertion and the code iterates over containers.  Only
    string keys are looked up by the code.  An object is known by its
    attributes; reading one may raise (a property). *)
Inductive pyval :=
| VNone
| VBool (b : bool)
| VInt (z : Z)
| VStr (s : pystr)
| VList (l : list pyval)
| VTuple (l : list pyval)
| VDict (d : list (pystr * pyval))
| VObj (attrs : list (pystr * outcome pyval)).

Definition pydict := list (pystr * pyval).

Definition pystr_eqb (a b : pystr) : bool := bool_decide (a = b).

Fixpoint assoc {V} (k : pystr) (d : list (pystr * V)) : option V :=
  match d with
  | [] => None
  | (k', v) :: rest => if pystr_eqb k k' then Some v else assoc k rest
  end.

(** [d.get(k)] *)
Definition dict_get (d : pydict) (k : pystr) : pyval :=
  match assoc k d with Some v => v | None => VNone end.

(** [bool(v)]; an object without [__bool__] or [__len__] is true. *)
Definition truthy (v : pyval) : bool :=
  match v with
  | VNone => false
  | VBool b => b
  | VInt z => negb (z =? 0)
  | VStr s => str_truthy s
  | VList l | VTuple l => match l with [] => false | _ => true end
  | VDict d => match d with [] => false | _ => true end
  | VObj _ => true
  end.

(** [a or b] *)
Definition py_or (a b : pyval) : pyval := if truthy a then a else b.

(** [type(v).__name__]; the class of an object is not part of the
    model, and "object" stands for its name. *)
Definition type_name (v : pyval) : string :=
  match v with
  | VNone => "NoneType"
  | VBool _ => "bool"
  | VInt _ => "int"
  | VStr _ => "str"
  | VList _ => "list"
  | VTuple _ => "tuple"
  | VDict _ => "dict"
  | VObj _ => "object"
  end.

(** The [AttributeError] of a value without attribute [name]. *)
Definition no_attribute (v : pyval) (name : pystr) : exn :=
  mk_exn AttributeError
    (py "'" ++ py (type_name v) ++ py "' object has no attribute '" ++ name
     ++ py "'")
    None.

(** [getattr(v, name)].  The built-in types have none of the attribute
    names the code asks for ("text", "candidates", "content", "output"),
    so only objects answer. *)
Definition getattr (v : pyval) (name : pystr) : outcome pyval :=
  match v with
  | VObj attrs =>
      match assoc name attrs with
      | Some r => r
      | None => Raise (no_attribute v name)
      end
  | _ => Raise (no_attribute v name)
  end.

(** [hasattr(v, name)]: false on [AttributeError], any other exception of
    the attribute goes through. *)
Definition hasattr (v : pyval) (name : pystr) : outcome bool :=
  match getattr v name with
  | Return _ => Return true
  | Raise e => if is_AttributeError e then Return false else Raise e
  end.

(** [isinstance(v, (list, tuple)) and v]: the items, when there are some. *)
Definition nonempty_seq (v : pyval) : option (pyval * list pyval) :=
  match v with
  | VList (x :: l) | VTuple (x :: l) => Some (x, l)
  | _ => None
  end.

(** [isinstance(v, str) and v.strip()], giving [v.strip()]. *)
Definition stripped_text (v : pyval) : option pystr :=
  match v with
  | VStr s => if str_truthy (strip s) then Some (strip s) else None
  | _ => None
  end.

(* ================================================================= *)
(** ** [extract_text_from_gemini_response] (app.py, 147-175) *)

(** [for k in keys: if k in d and isinstance(d[k], str) and d[k].strip():
    return d[k].strip()] *)
Fixpoint probe_keys (keys : list pystr) (d : pydict) : option pystr :=
  match keys with
  | [] => None
  | k :: rest =>
      match assoc k d with
      | Some v =>
          match stripped_text v with
          | Some s => Some s
          | None => probe_keys rest d
          end
      | None => probe_keys rest d
      end
  end.

(** [for attr in names: if hasattr(first, attr): val = getattr(first, attr);
    if isinstance(val, str) and val.strip(): return val.strip()] *)
Fixpoint probe_attrs (names : list pystr) (first : pyval) : outcome (option pystr) :=
  match names with
  | [] => Return None
  | a :: rest =>
      h ← hasattr first a;
      if h : bool then
        val ← getattr first a;
        match stripped_text val with
        | Some s => Return (Some s)
        | None => probe_attrs rest first
        end
      else probe_attrs rest first
  end.

(** Line 155: [resp.get("candidates") or resp.get("outputs") or
    resp.get("choices")]. *)
Definition candidates_of (d : pydict) : pyval :=
  py_or (py_or (dict_get d (py "candidates")) (dict_get d (py "outputs")))
        (dict_get d (py "choices")).

(** Lines 149-150. *)
Definition extract_text_attr (resp : pyval) : outcome (option pystr) :=
  h ← hasattr resp (py "text");
  if h : bool then t ← getattr resp (py "text"); Return (stripped_text t)
  else Return None.

(** Lines 151-163, the [isinstance(resp, dict)] block. *)
Definition extract_from_dict (resp : pyval) : option pystr :=
  match resp with
  | VDict d =>
      match probe_keys [py "text"; py "content"] d with
      | Some s => Some s
      | None =>
          match nonempty_seq (candidates_of d) with
          | Some (first, _) =>
              match (match first with
                     | VDict fd => probe_keys [py "output"; py "content"; py "text"] fd
                     | _ => None
                     end) with
              | Some s => Some s
              | None => stripped_text first
              end
          | None => None
          end
      end
  | _ => None
  end.

(** Lines 164-172. *)
Definition extract_from_candidates_attr (resp : pyval) : outcome (option pystr) :=
  h ← hasattr resp (py "candidates");
  if h : bool then
    c ← getattr resp (py "candidates");
    match nonempty_seq c with
    | Some (first, _) => probe_attrs [py "content"; py "output"; py "text"] first
    | None => Return None
    end
  else Return None.

(** The body of the [try]. *)
Definition extract_body (resp : pyval) : outcome (option pystr) :=
  r1 ← extract_text_attr resp;
  match r1 with
  | Some s => Return (Some s)
  | None =>
      match extract_from_dict resp with
      | Some s => Return (Some s)
      | None => extract_from_candidates_attr resp
      end
  end.

(** [try: ... except Exception: return None] *)
Definition extract_text_from_gemini_response (resp : pyval) : outcome (option pystr) :=
  match extract_body resp with
  | Return r => Return r
  | Raise _ => Return None
  end.

(* ================================================================= *)
(** ** [safe_truncate] (app.py, 204-207) *)

Definition MAX_LINKEDIN_COMMENTARY_LENGTH : Z := 3000.

Definition safe_truncate (text : pystr) (max_len : Z) : pystr :=
  if len text <=? max_len then text
  else rstrip (slice_to (max_len - 3) text) ++ py "...".

(** The whitespace characters of Python, one by one: the control
    characters U+0009 to U+000D and U+001C to U+001F, the space, U+0085,
    and the Unicode space separators. *)
Definition unicode_whitespace : list pychar :=
  [ 9; 10; 11; 12; 13; 28; 29; 30; 31; 32; 133; 160; 5760;
    8192; 8193; 8194; 8195; 8196; 8197; 8198; 8199; 8200; 8201; 8202;
    8232; 8233; 8239; 8287; 12288 ]%N.

(** The truncation rule in the words of the specification, as a relation
    between a text and its truncation.  It mentions neither [rstrip] nor
    [is_space]: [kept] is [s] with its trailing whitespace stripped when
    [s] is [kept] followed by whitespace only and [kept] does not end in
    whitespace. *)
Definition trailing_whitespace_stripped (s kept : pystr) : Prop :=
  (exists ws, s = kept ++ ws /\ Forall (fun c => In c unicode_whitespace) ws)
  /\ (forall c, last kept = Some c -> ~ In c unicode_whitespace).

(** Within the limit the text is kept; beyond it the first [3000 - 3]
    units are kept, trailing whitespace is stripped and the
    three-character marker is appended. *)
Definition truncation_rule (text result : pystr) : Prop :=
  (len text <= 3000 /\ result = text)
  \/ (3000 < len text
      /\ exists kept,
           trailing_whitespace_stripped (take 2997%nat text) kept
           /\ result = kept ++ py "...").

(* ================================================================= *)
(** ** The world the handlers act on *)

(** [st.session_state], after the set-up of lines 116-123 (all four keys
    are present when a handler runs). *)
Record session_state := mk_session {
  generated_article : pystr;
  logs : list pystr;
  gemini_key : pystr;
  linkedin_key : pystr }.

(** The widget values of one script run (lines 72-95). *)
Record widgets := mk_widgets {
  ui_prompt : pystr;
  ui_model : pystr;
  ui_org_id_override : pystr;
  ui_gemini_key : pystr;
  ui_linkedin_key : pystr;
  ui_save_path : pystr;
  ui_dry_run : bool }.

Definition header_set := list (pystr * pystr).

(** Calls to the outside (services, files, widgets), in the order they
    are made.  [EvSleep k] is [time.sleep(1.0 * k)]; [EvPreview] and
    [EvSuccess] are the calls to the preview area and to [st.success]. *)
Inductive event :=
| EvConfigure (api_key : pystr)
| EvGenerate (model_name prompt_text : pystr) (attempt : Z)
| EvSleep (seconds : Z)
| EvGet (url : pystr) (headers : header_set) (timeout : Z)
| EvPost (url : pystr) (headers : header_set) (payload : pyval) (timeout : Z)
| EvBackendGenerate (prompt model : pystr) (gemini_api_key : option pystr)
| EvBackendPost (article_text : pystr) (org_id : option pystr)
    (linkedin_api_key : option pystr)
| EvOpenWrite (path : pystr)
| EvPreview (text : pystr)
| EvSuccess (msg : pystr).

Record world := mk_world {
  session : session_state;
  files : gmap pystr pystr;
  trace : list event }.

(** What [requests] hands back. [resp_json] is the body as [resp.json()]
    parses it, a value made of dictionaries, lists, strings, numbers,
    booleans and [None]; [resp_json = None] stands for a body that
    [resp.json()] rejects with [ValueError]; [resp_error] is the message
    of the [HTTPError] that [raise_for_status] builds. *)
Record http_response := mk_response {
  status_code : Z;
  resp_text : pystr;
  resp_json : option pyval;
  resp_headers : header_set;
  resp_error : pystr }.

(** The entry points of an optional backend module, in the two forms the
    handlers call them: with the key as a named argument, and without. *)
Record generate_entry := mk_generate_entry {
  generate_keyed : pystr -> pystr -> pystr -> outcome pystr;
  generate_plain : pystr -> pystr -> outcome pystr }.

Record post_entry := mk_post_entry {
  post_keyed : pystr -> option pystr -> pystr -> outcome pyval;
  post_plain : pystr -> option pystr -> outcome pyval }.

(** What [with open(path, "w", encoding="utf-8") as fh: fh.write(content)]
    does to the file.  [open] with mode "w" truncates the file (or
    creates it) before anything is written, so a failure after the file
    was opened loses the old content: what is then left in the file
    (nothing, or a part of the content) is [left_behind]. *)
Inductive write_result :=
| Written
| NotOpened (e : exn)
| Interrupted (e : exn) (left_behind : pystr).

(** Everything outside the program. [backend_generate_article] and
    [backend_post_to_linkedin] are the attributes of the imported
    [linkedin_poster_core], when it has them; [genai_generate model prompt
    k] is what the generation service does on the k-th call (building the
    model and calling its [generate_content], or else [generate]);
    [open_write path content] is what opening and writing the file
    does; [json_dumps v] is the text [json.dumps] gives for a value it
    accepts. *)
Record env := mk_env {
  BACKEND_MODULE : bool;
  backend_generate_article : option generate_entry;
  backend_post_to_linkedin : option post_entry;
  GENAI_AVAILABLE : bool;
  genai_generate : pystr -> pystr -> Z -> outcome pyval;
  requests_get : pystr -> header_set -> outcome http_response;
  requests_post : pystr -> header_set -> pyval -> outcome http_response;
  open_write : pystr -> pystr -> write_result;
  json_dumps : pyval -> pystr }.

(** State and exceptions: a raise keeps the state reached so far. *)
Definition prog (A : Type) : Type := world -> outcome A * world.

#[global] Instance prog_ret : MRet prog := fun A a w => (Return a, w).
#[global] Instance prog_bind : MBind prog := fun A B f m w =>
  match m w with
  | (Return a, w') => f a w'
  | (Raise e, w') => (Raise e, w')
  end.

Definition raise {A} (e : exn) : prog A := fun w => (Raise e, w).

Definition lift {A} (r : outcome A) : prog A := fun w => (r, w).

(** [try: m except Exception as e: h e] *)
Definition try_except {A} (m : prog A) (h : exn -> prog A) : prog A := fun w =>
  match m w with
  | (Return a, w') => (Return a, w')
  | (Raise e, w') => h e w'
  end.

(** [try: m except TypeError: h] *)
Definition except_TypeError {A} (m : prog A) (h : prog A) : prog A :=
  try_except m (fun e => if is_TypeError e then h else raise e).

Definition emit (ev : event) : prog unit := fun w =>
  (Return tt, mk_world (session w) (files w) (trace w ++ [ev])).

Definition get_session : prog session_state := fun w => (Return (session w), w).

Definition put_session (s : session_state) : prog unit := fun w =>
  (Return tt, mk_world s (files w) (trace w)).

(** [append_log] (lines 125-127); the log area shows the last hundred
    lines of [logs]. *)
Definition append_log (msg : pystr) : prog unit :=
  s ← get_session;
  put_session (mk_session (generated_article s) (logs s ++ [msg])
                          (gemini_key s) (linkedin_key s)).

Definition set_generated_article (a : pystr) : prog unit :=
  s ← get_session;
  put_session (mk_session a (logs s) (gemini_key s) (linkedin_key s)).

Definition set_gemini_key (k : pystr) : prog unit :=
  s ← get_session;
  put_session (mk_session (generated_article s) (logs s) k (linkedin_key s)).

Definition set_linkedin_key (k : pystr) : prog unit :=
  s ← get_session;
  put_session (mk_session (generated_article s) (logs s) (gemini_key s) k).

Definition store_file (path content : pystr) : prog unit := fun w =>
  (Return tt, mk_world (session w) (<[path := content]> (files w)) (trace w)).

(** [with open(path, "w", encoding="utf-8") as fh: fh.write(content)] *)
Definition write_file (open_w : pystr -> pystr -> write_result)
    (path content : pystr) : prog unit :=
  emit (EvOpenWrite path);;
  match open_w path content with
  | Written => store_file path content
  | NotOpened e => raise e
  | Interrupted e left_behind => store_file path left_behind;; raise e
  end.

(** Whether [json.dumps] accepts a value: [None], booleans, integers,
    strings, and lists, tuples and dictionaries (with string keys) of
    such values.  Any other object is rejected. *)
Fixpoint json_serialisable (v : pyval) : bool :=
  match v with
  | VNone | VBool _ | VInt _ | VStr _ => true
  | VList l | VTuple l => forallb json_serialisable l
  | VDict d => forallb (fun kv => json_serialisable (snd kv)) d
  | VObj _ => false
  end.

(** [json.dumps(v)] on a value of any kind: a value that is not
    serialisable raises a [TypeError] (whose message names the type of
    the offending object). *)
Definition try_json_dumps (dumps : pyval -> pystr) (v : pyval) : outcome pystr :=
  if json_serialisable v then Return (dumps v)
  else Raise (exception TypeError "Object of type object is not JSON serializable").

(* ================================================================= *)
(** ** Constants (app.py, 41-45 and 130-137) *)

Definition LINKEDIN_API_BASE : pystr := py "https://api.linkedin.com/v2".
Definition ORGS_ENDPOINT : pystr :=
  LINKEDIN_API_BASE ++ py "/organizationalEntityAcls?q=roleAssignee&state=APPROVED".
Definition UGC_POSTS_ENDPOINT : pystr := LINKEDIN_API_BASE ++ py "/ugcPosts".
Definition DEFAULT_MODEL : pystr := py "gemini-pro-latest".

(** The value of [textwrap.dedent(...).strip()] on the literal of lines
    131-136: three lines of text, the second one empty. *)
Definition MOCK_ARTICLE : pystr :=
  py "Introduction" ++ nl ++ nl ++
  py "Cloud-native technologies are transforming how enterprises design, deploy, and operate software..." ++ nl ++
  py "(This is a placeholder article used when Gemini is not available.)".

(** [f"# Prompt\n{prompt}\n\n" + MOCK_ARTICLE] (lines 279 and 282). *)
Definition mock_generation (prompt : pystr) : pystr :=
  (py "# Prompt" ++ nl ++ prompt ++ nl ++ nl) ++ MOCK_ARTICLE.

(* ================================================================= *)
(** ** linkedin_poster_core.py *)

Module linkedin_poster_core.

Definition generate_article (prompt model : pystr)
    (gemini_api_key : option pystr) : pystr :=
  py "# Prompt" ++ nl ++ prompt ++ nl ++ nl ++
  py "Generated article placeholder. Replace with a real generator.".

Definition post_to_linkedin (article_text : pystr) (org_id : option pystr)
    (linkedin_api_key : option pystr) : pyval :=
  VDict [ (py "status", VStr (py "mocked"));
          (py "org_id", match org_id with Some o => VStr o | None => VNone end);
          (py "length", VInt (len article_text)) ].

(** The module as the application sees it once imported. *)
Definition generate_entry_point : generate_entry :=
  mk_generate_entry
    (fun prompt model key => Return (generate_article prompt model (Some key)))
    (fun prompt model => Return (generate_article prompt model None)).

Definition post_entry_point : post_entry :=
  mk_post_entry
    (fun article org key => Return (post_to_linkedin article org (Some key)))
    (fun article org => Return (post_to_linkedin article org None)).

End linkedin_poster_core.

(* ================================================================= *)
(** ** Helpers on JSON-shaped values *)

(** [v.get(k)] for a value that came out of [resp.json()]: only a
    dictionary has the method. *)
Definition method_get (v : pyval) (k : pystr) : outcome pyval :=
  match v with
  | VDict d => Return (dict_get d k)
  | _ => Raise (no_attribute v (py "get"))
  end.

(** [data.get("elements", [])] *)
Definition get_elements (data : pyval) : outcome pyval :=
  match data with
  | VDict d =>
      Return (match assoc (py "elements") d with Some v => v | None => VList [] end)
  | _ => Raise (no_attribute data (py "get"))
  end.

(** What [for el in v] goes through: the items of a list or tuple, the
    keys of a dictionary, the characters of a string; anything else is
    not iterable. *)
Definition iterate (v : pyval) : outcome (list pyval) :=
  match v with
  | VList l | VTuple l => Return l
  | VDict d => Return (map (fun kv => VStr (fst kv)) d)
  | VStr s => Return (map (fun c => VStr [c]) s)
  | _ => Raise (mk_exn TypeError
                  (py "'" ++ py (type_name v) ++ py "' object is not iterable")
                  None)
  end.

(** [org_urn.split(":")[-1]] *)
Definition last_segment (org_urn : pyval) : outcome pystr :=
  match org_urn with
  | VStr s =>
      match last (split_on 58%N s) with
      | Some p => Return p
      | None => Raise (exception IndexError "list index out of range")
      end
  | _ => Raise (no_attribute org_urn (py "split"))
  end.

(** The loop of lines 215-220. *)
Fixpoint scan_elements (elements : list pyval) : outcome (option pystr) :=
  match elements with
  | [] => Return None
  | el :: rest =>
      a ← method_get el (py "organizationalTarget");
      org_urn ← (if truthy a then Return a
                 else method_get el (py "organizationalTarget~"));
      if truthy org_urn then
        p ← last_segment org_urn; Return (Some p)
      else scan_elements rest
  end.

(** [resp.raise_for_status()] *)
Definition raise_for_status (resp : http_response) : outcome unit :=
  if (400 <=? status_code resp) && (status_code resp <? 600)
  then Raise (mk_exn HTTPError (resp_error resp) (Some (resp_text resp)))
  else Return tt.

(** [resp.json()] *)
Definition response_json (resp : http_response) : outcome pyval :=
  match resp_json resp with
  | Some v => Return v
  | None => Raise (exception ValueError "Expecting value")
  end.

(** The part of [get_linkedin_org_id] after the request (lines 212-220). *)
Definition org_id_of_response (resp : http_response) : outcome (option pystr) :=
  raise_for_status resp;;
  data ← response_json resp;
  elements ← get_elements data;
  els ← iterate elements;
  scan_elements els.

(** [build_ugc_payload] (lines 224-237) *)
Definition build_ugc_payload (org_id text : pystr) : pyval :=
  let truncated := safe_truncate text MAX_LINKEDIN_COMMENTARY_LENGTH in
  VDict [
    (py "author", VStr (py "urn:li:organization:" ++ org_id));
    (py "lifecycleState", VStr (py "PUBLISHED"));
    (py "specificContent", VDict [
       (py "com.linkedin.ugc.ShareContent", VDict [
          (py "shareCommentary", VDict [(py "text", VStr truncated)]);
          (py "shareMediaCategory", VStr (py "NONE")) ]) ]);
    (py "visibility", VDict [
       (py "com.linkedin.ugc.MemberNetworkVisibility", VStr (py "PUBLIC")) ]) ].

Section Application.

Variable E : env.

(** [get_linkedin_org_id] (lines 209-222); the [except] clause re-raises. *)
Definition get_linkedin_org_id (headers : header_set) : prog (option pystr) :=
  emit (EvGet ORGS_ENDPOINT headers 10);;
  resp ← lift (requests_get E ORGS_ENDPOINT headers);
  lift (org_id_of_response resp).

(** [post_to_linkedin_api] (lines 239-250) *)
Definition post_to_linkedin_api (payload : pyval) (bearer_token : pystr)
    (timeout : Z) : prog pyval :=
  let headers :=
    [ (py "Authorization", py "Bearer " ++ bearer_token);
      (py "X-Restli-Protocol-Version", py "2.0.0");
      (py "Content-Type", py "application/json") ] in
  emit (EvPost UGC_POSTS_ENDPOINT headers payload timeout);;
  resp ← lift (requests_post E UGC_POSTS_ENDPOINT headers payload);
  lift (raise_for_status resp);;
  match resp_json resp with
  | Some v => mret v
  | None =>
      mret (VDict [ (py "status_code", VInt (status_code resp));
                    (py "headers",
                     VDict (map (fun kv => (fst kv, VStr (snd kv))) (resp_headers resp))) ])
  end.

(** [configure_gemini_session] (lines 141-145) *)
Definition configure_gemini_session (api_key : pystr) : prog unit :=
  if negb (GENAI_AVAILABLE E)
  then raise (exception RuntimeError
         "google.generativeai is not installed. Install it or use mock generation.")
  else emit (EvConfigure api_key).

(** One pass through the [try] of lines 186-195. *)
Definition attempt_generation (prompt_text model_name : pystr) (attempt : Z)
    : prog pystr :=
  emit (EvGenerate model_name prompt_text attempt);;
  resp ← lift (genai_generate E model_name prompt_text attempt);
  out ← lift (extract_text_from_gemini_response resp);
  match out with
  | Some s =>
      if str_truthy s then mret s
      else raise (exception ValueError "Could not extract text from Gemini response.")
  | None => raise (exception ValueError "Could not extract text from Gemini response.")
  end.

(** The [while] of lines 184-202, entered with the current value of
    [attempt]. *)
Equations? retry_loop (prompt_text model_name : pystr) (max_retries attempt : Z)
    : prog pystr by wf (Z.to_nat (max_retries + 1 - attempt)) lt :=
  retry_loop prompt_text model_name max_retries attempt with
      decide (attempt <= max_retries) => {
    | left _ =>
        try_except (attempt_generation prompt_text model_name (attempt + 1))
          (fun exc =>
             if attempt + 1 >? max_retries then raise exc
             else (emit (EvSleep (attempt + 1));;
                   retry_loop prompt_text model_name max_retries (attempt + 1)))
    | right _ => raise (exception RuntimeError "Unexpected generation failure.") }.
Proof. lia. Qed.

(** [generate_article_with_gemini] (lines 177-202) *)
Definition generate_article_with_gemini (prompt_text model_name : pystr)
    (api_key : option pystr) (max_retries : Z) : prog pystr :=
  if negb (GENAI_AVAILABLE E)
  then raise (exception RuntimeError "Gemini client not installed.")
  else
    match api_key with
    | Some k => if str_truthy k then configure_gemini_session k else mret tt
    | None => mret tt
    end;;
    retry_loop prompt_text model_name max_retries 0.

End Application.

(* ================================================================= *)
(** ** The button handlers (app.py, 254-346) *)

Section Handlers.

Variable E : env.
Variable ui : widgets.

(** Lines 262-269: the generation entry point of the backend module. *)
Definition generate_with_backend (entry : generate_entry) : prog pystr :=
  append_log (py "[info] Using external backend module for generation.");;
  s ← get_session;
  article_text ←
    except_TypeError
      (emit (EvBackendGenerate (ui_prompt ui) (ui_model ui) (Some (gemini_key s)));;
       lift (generate_keyed entry (ui_prompt ui) (ui_model ui) (gemini_key s)))
      (emit (EvBackendGenerate (ui_prompt ui) (ui_model ui) None);;
       lift (generate_plain entry (ui_prompt ui) (ui_model ui)));
  append_log (py "[info] Generation completed using backend module.");;
  mret article_text.

(** Lines 272-282: the generation client, or the placeholder. *)
Definition generate_without_backend : prog pystr :=
  s ← get_session;
  if GENAI_AVAILABLE E && str_truthy (gemini_key s) then
    append_log (py "[info] Generating via Gemini (remote).");;
    try_except
      (article_text ←
         generate_article_with_gemini E (ui_prompt ui) (ui_model ui)
           (Some (gemini_key s)) 2;
       append_log (py "[info] Gemini generation succeeded.");;
       mret article_text)
      (fun e =>
         append_log (py "[warn] Gemini generation failed: " ++ exn_str e
                     ++ py ". Falling back to mock.");;
         mret (mock_generation (ui_prompt ui)))
  else
    append_log (py "[info] Using local mock generation (no Gemini client or key).");;
    mret (mock_generation (ui_prompt ui)).

(** Lines 286-292. *)
Definition save_article (article_text : pystr) : prog unit :=
  if str_truthy (ui_save_path ui) then
    try_except
      (write_file (open_write E) (ui_save_path ui) article_text;;
       append_log (py "[success] Saved generated article to " ++ ui_save_path ui))
      (fun e => append_log (py "[error] Could not save file: " ++ exn_str e))
  else mret tt.

(** The body of [if generate_btn:] (lines 255-294). *)
Definition generate_handler : prog unit :=
  append_log (py "[info] Generation started...");;
  s ← get_session;
  set_gemini_key (str_or (ui_gemini_key ui) (gemini_key s));;
  set_linkedin_key (str_or (ui_linkedin_key ui) (linkedin_key s));;
  try_except
    (article_text ←
       match BACKEND_MODULE E, backend_generate_article E with
       | true, Some entry => generate_with_backend entry
       | _, _ => generate_without_backend
       end;
     set_generated_article article_text;;
     emit (EvPreview (slice_to 3000 article_text));;
     save_article article_text)
    (fun e => append_log (py "[error] Generation failed: " ++ exn_str e)).

(** Lines 309-316: the publish entry point of the backend module.  Its
    answer is whatever the module returns, so [json.dumps] may reject
    it (line 315); the success line of line 314 is logged by then. *)
Definition publish_with_backend (entry : post_entry) (article_to_post : pystr)
    : prog unit :=
  append_log (py "[info] Using external backend module for posting.");;
  s ← get_session;
  let org_id := if str_truthy (ui_org_id_override ui)
                then Some (ui_org_id_override ui) else None in
  response ←
    except_TypeError
      (emit (EvBackendPost article_to_post org_id (Some (linkedin_key s)));;
       lift (post_keyed entry article_to_post org_id (linkedin_key s)))
      (emit (EvBackendPost article_to_post org_id None);;
       lift (post_plain entry article_to_post org_id));
  append_log (py "[success] Published using backend module. Response (truncated):");;
  dumped ← lift (try_json_dumps (json_dumps E) response);
  append_log (slice_to 1000 dumped);;
  emit (EvSuccess (py "Published to LinkedIn (backend module).")).

(** Lines 320-329: the organization id, typed in or looked up. *)
Definition resolve_org_id (headers : header_set) : prog pystr :=
  if str_truthy (ui_org_id_override ui) then mret (ui_org_id_override ui)
  else
    try_except
      (r ← get_linkedin_org_id E headers;
       match r with
       | Some org_id =>
           if str_truthy org_id then
             append_log (py "[info] Auto-detected org id: " ++ org_id);;
             mret org_id
           else raise (exception RuntimeError "No organization found for token.")
       | None => raise (exception RuntimeError "No organization found for token.")
       end)
      (fun e =>
         append_log (py "[error] Could not auto-detect org id: " ++ exn_str e);;
         raise e).

(** Lines 319-341: the application's own posting path.  The values
    given to [json.dumps] here are serialisable by construction: the
    payload is built from strings, and the result of
    [post_to_linkedin_api] is a parsed JSON body or the dictionary of
    status code and headers; so lines 334 and 340 do not raise. *)
Definition publish_directly (article_to_post : pystr) : prog unit :=
  s ← get_session;
  let headers :=
    [ (py "Authorization", py "Bearer " ++ linkedin_key s);
      (py "X-Restli-Protocol-Version", py "2.0.0") ] in
  org_id ← resolve_org_id headers;
  let payload := build_ugc_payload org_id article_to_post in
  if ui_dry_run ui then
    append_log (py "[dry-run] Dry run enabled. Payload preview (truncated):");;
    append_log (slice_to 1200 (json_dumps E payload));;
    emit (EvSuccess (py "Dry-run: payload prepared (not posted)"))
  else
    append_log (py "[info] Sending post to LinkedIn API.");;
    s' ← get_session;
    resp ← post_to_linkedin_api E payload (linkedin_key s') 15;
    append_log (py "[success] Posted to LinkedIn. Response (truncated):");;
    append_log (slice_to 1000 (json_dumps E resp));;
    emit (EvSuccess (py "Published to LinkedIn.")).

(** Lines 342-346: the two [except] clauses of the publish handler. *)
Definition report_publish_error (e : exn) : prog unit :=
  if is_HTTPError e then
    append_log (py "[http-error] " ++ exn_str e ++ py " -- "
                ++ default [] (exn_response_text e))
  else append_log (py "[error] Publishing failed: " ++ exn_str e).

(** The body of [if post_btn:] (lines 297-346). *)
Definition publish_handler : prog unit :=
  append_log (py "[info] Publishing started...");;
  s ← get_session;
  let article_to_post := generated_article s in
  if negb (str_truthy article_to_post) then
    append_log (py "[warn] No generated article found. Generate first.")
  else
    set_linkedin_key (str_or (ui_linkedin_key ui) (linkedin_key s));;
    s ← get_session;
    if negb (str_truthy (linkedin_key s)) then
      append_log (py "[error] LinkedIn API key missing. Provide token in API Keys field.")
    else
      try_except
        (match BACKEND_MODULE E, backend_post_to_linkedin E with
         | true, Some entry => publish_with_backend entry article_to_post
         | _, _ => publish_directly article_to_post
         end)
        report_publish_error.

End Handlers.

(** Line 105: the publish button is disabled while dry run is ticked or
    no platform key is typed in. *)
Definition publish_disabled (ui : widgets) : bool :=
  ui_dry_run ui || negb (str_truthy (ui_linkedin_key ui)).

(** One run of the script after a click.  A disabled button does not
    report a click, and the handlers run in the order of the file. *)
Definition run_script (E : env) (ui : widgets)
    (generate_clicked publish_clicked : bool) : prog unit :=
  let generate_btn := generate_clicked in
  let post_btn := publish_clicked && negb (publish_disabled ui) in
  (if generate_btn then generate_handler E ui else mret tt);;
  (if post_btn then publish_handler E ui else mret tt).

(* ================================================================= *)
(** ** Vocabulary of the statements *)

(** [s] ends with [suffix]. *)
Definition ends_with (s suffix : pystr) : Prop := exists p, s = p ++ suffix.

(** [v] is a string that is not blank, and [s] is that string trimmed. *)
Definition holds_text (v : pyval) (s : pystr) : Prop :=
  exists raw, v = VStr raw /\ strip raw = s /\ s <> [].

(** A text has nothing left to trim. *)
Definition trimmed (s : pystr) : Prop := strip s = s.

(** The dictionary [d] has, under key [k], a text that trims to [s]. *)
Definition key_text (d : pydict) (k : string) (s : pystr) : Prop :=
  exists v, assoc (py k) d = Some v /\ holds_text v s.


(** Attribute [name] of [v] reads as a text that trims to [s]. *)
Definition attr_text (v : pyval) (name : string) (s : pystr) : Prop :=
  exists val, getattr v (py name) = Return val /\ holds_text val s.


(** The four shapes of a response that carry a text, read generously:
    a text attribute; a mapping with a text under "text" or "content";
    a mapping with a non-empty list under "candidates", "outputs" or
    "choices" whose first element is a text or a mapping with a text
    under "output", "content" or "text"; a "candidates" attribute with
    a non-empty list whose first element has a text attribute
    "content", "output" or "text". *)
Definition has_text_attribute (resp : pyval) : Prop :=
  exists s, attr_text resp "text" s.

Definition has_keyed_text (resp : pyval) : Prop :=
  exists d k s,
    resp = VDict d /\ In k ["text"; "content"]%string /\ key_text d k s.

Definition has_listed_text (resp : pyval) : Prop :=
  exists d k first rest,
    resp = VDict d
    /\ In k ["candidates"; "outputs"; "choices"]%string
    /\ nonempty_seq (dict_get d (py k)) = Some (first, rest)
    /\ ((exists fd k' s,
           first = VDict fd
           /\ In k' ["output"; "content"; "text"]%string
           /\ key_text fd k' s)
        \/ exists s, holds_text first s).

Definition has_candidate_attribute_text (resp : pyval) : Prop :=
  exists c first rest a s,
    getattr resp (py "candidates") = Return c
    /\ nonempty_seq c = Some (first, rest)
    /\ In a ["content"; "output"; "text"]%string
    /\ attr_text first a s.

(** A response of a recognized shape; any other is unrecognized. *)
Definition recognized_shape (resp : pyval) : Prop :=
  has_text_attribute resp \/ has_keyed_text resp
  \/ has_listed_text resp \/ has_candidate_attribute_text resp.

(** The mapping [d] holds a non-empty list (or tuple) with first element
    [first] under one of "candidates", "outputs", "choices", whatever
    the other two keys hold. *)
Definition lists_candidates (d : pydict) (first : pyval) (rest : list pyval)
    : Prop :=
  exists k,
    In k ["candidates"; "outputs"; "choices"]%string
    /\ nonempty_seq (dict_get d (py k)) = Some (first, rest).



(** [sep.join(parts)] for a one-character separator. *)
Fixpoint join (sep : pychar) (parts : list pystr) : pystr :=
  match parts with
  | [] => []
  | [p] => p
  | p :: ps => p ++ sep :: join sep ps
  end.

(** [p] is what follows the last colon of [s] (all of [s] when it has no
    colon). *)
Definition after_last_colon (s p : pystr) : Prop :=
  ~ In 58%N p /\ (s = p \/ exists q, s = q ++ [58%N] ++ p).

(** The reference an element of the role-assignment answer exposes,
    under either spelling of the key. *)
Definition org_target (el : pydict) : pyval :=
  py_or (dict_get el (py "organizationalTarget"))
        (dict_get el (py "organizationalTarget~")).

(** The world [w] after the external calls [evs] were made. *)
Definition record_events (w : world) (evs : list event) : world :=
  mk_world (session w) (files w) (trace w ++ evs).

(** Attempt number [k] of the generation service fails with error [e]:
    the call raises [e], or it answers and no text can be extracted from
    the answer, which the client turns into a [ValueError]. *)
Definition attempt_fails_with (E : env) (prompt model : pystr) (k : Z) (e : exn)
    : Prop :=
  genai_generate E model prompt k = Raise e
  \/ exists resp,
       genai_generate E model prompt k = Return resp
       /\ extract_text_from_gemini_response resp = Return None
       /\ e = exception ValueError "Could not extract text from Gemini response.".

(** Attempt number [k] succeeds with the extracted text [t]. *)
Definition attempt_succeeds (E : env) (prompt model : pystr) (k : Z) (t : pystr)
    : Prop :=
  exists resp,
    genai_generate E model prompt k = Return resp
    /\ extract_text_from_gemini_response resp = Return (Some t).

(** The calls of [n] failed attempts in a row, made after [start]
    attempts: attempt [k] is followed by a sleep of [k] seconds. *)
Fixpoint retry_events (model prompt : pystr) (start : Z) (n : nat) : list event :=
  match n with
  | O => []
  | S n' =>
      EvGenerate model prompt (start + 1) :: EvSleep (start + 1)
      :: retry_events model prompt (start + 1) n'
  end.

(** The configuration call made before the first attempt. *)
Definition configure_events (api_key : option pystr) : list event :=
  match api_key with
  | Some k => if str_truthy k then [EvConfigure k] else []
  | None => []
  end.

(** Number of calls to the generation service in a trace. *)
Fixpoint count_attempts (evs : list event) : Z :=
  match evs with
  | [] => 0
  | EvGenerate _ _ _ :: rest => 1 + count_attempts rest
  | _ :: rest => count_attempts rest
  end.

(** The sleeps of a trace, in order. *)
Fixpoint sleeps_of (evs : list event) : list Z :=
  match evs with
  | [] => []
  | EvSleep t :: rest => t :: sleeps_of rest
  | _ :: rest => sleeps_of rest
  end.

(** What a trace may contain for the publish handler run with widgets
    [ui] and platform key [k]: a POST to the content-creation endpoint
    only with dry run off, and then with [k] as bearer token. *)
Definition live_post_guarded (ui : widgets) (k : pystr) (ev : event) : Prop :=
  match ev with
  | EvPost url hs _ _ =>
      ui_dry_run ui = false
      /\ url = UGC_POSTS_ENDPOINT
      /\ assoc (py "Authorization") hs = Some (py "Bearer " ++ k)
  | _ => True
  end.

(** The world [w] was reached from [w0] with the platform key untouched
    and through guarded calls only. *)
Definition guard_inv (ui : widgets) (w0 w : world) : Prop :=
  linkedin_key (session w) = linkedin_key (session w0)
  /\ exists evs,
       trace w = trace w0 ++ evs
       /\ Forall (live_post_guarded ui (linkedin_key (session w0))) evs.

(** The program [m] keeps the property [I] of the world, whether it
    returns or raises. *)
Definition preserves (I : world -> Prop) {A} (m : prog A) : Prop :=
  forall w, I w -> I (m w).2.

(** The organization id the publish handler works with, for platform key
    [k]: the one typed in, or else the one the resolver finds. *)
Definition resolved_org (E : env) (ui : widgets) (k org_id : pystr) : Prop :=
  (ui_org_id_override ui <> [] /\ org_id = ui_org_id_override ui)
  \/ (ui_org_id_override ui = []
      /\ org_id <> []
      /\ exists resp,
           requests_get E ORGS_ENDPOINT
             [ (py "Authorization", py "Bearer " ++ k);
               (py "X-Restli-Protocol-Version", py "2.0.0") ] = Return resp
           /\ org_id_of_response resp = Return (Some org_id)).

(** The two lines the dry-run branch appends to the log for a payload. *)
Definition dry_run_lines (E : env) (payload : pyval) : list pystr :=
  [ py "[dry-run] Dry run enabled. Payload preview (truncated):";
    slice_to 1200 (json_dumps E payload) ].

(* ================================================================= *)
(** ** Concrete inputs *)

(** A plain rendering of [json.dumps] for the runs below: strings are
    quoted, with the quote, the backslash and the newline escaped;
    integers are printed in decimal; items are separated by ", " and keys
    from values by ": ". *)
Definition escape_char (c : pychar) : pystr :=
  if (c =? 34)%N then [92%N; 34%N]
  else if (c =? 92)%N then [92%N; 92%N]
  else if (c =? 10)%N then [92%N; 110%N]
  else [c].

Definition json_string (s : pystr) : pystr :=
  [34%N] ++ flat_map escape_char s ++ [34%N].

Fixpoint intercalate (sep : pystr) (parts : list pystr) : pystr :=
  match parts with
  | [] => []
  | [p] => p
  | p :: ps => p ++ sep ++ intercalate sep ps
  end.

Fixpoint sample_dumps (v : pyval) : pystr :=
  match v with
  | VNone => py "null"
  | VBool true => py "true"
  | VBool false => py "false"
  | VInt z => py (NilEmpty.string_of_int (Z.to_int z))
  | VStr s => json_string s
  | VList l | VTuple l =>
      py "[" ++ intercalate (py ", ") (map sample_dumps l) ++ py "]"
  | VDict d =>
      py "{"
      ++ intercalate (py ", ")
           (map (fun kv => json_string (fst kv) ++ py ": " ++ sample_dumps (snd kv)) d)
      ++ py "}"
  | VObj _ => py "null"
  end.

(** 3001 characters with a space at index 2996: 2996 times "a", one
    space, four times "b". *)
Definition text_with_space_at_cut : pystr :=
  repeat 97%N 2996 ++ [32%N] ++ repeat 98%N 4.

(** 3001 times "a". *)
Definition text_of_letters : pystr := repeat 97%N 3001.



(** An object whose [text] attribute raises when it is read. *)
Definition response_with_failing_text : pyval :=
  VObj [ (py "text", Raise (exception ValueError "the response has no parts")) ].



(** [{"error": "quota exceeded"}]: a mapping of no recognized shape. *)
Definition error_mapping : pydict :=
  [ (py "error", VStr (py "quota exceeded")) ].



(** An outside world in which nothing is installed and every call fails. *)
Definition bare_env : env :=
  mk_env false None None false
    (fun _ _ _ => Raise (exception OtherException "service unreachable"))
    (fun _ _ => Raise (exception OtherException "connection refused"))
    (fun _ _ _ => Raise (exception OtherException "connection refused"))
    (fun _ _ => NotOpened (exception OtherException "read-only file system"))
    sample_dumps.

(** [bare_env] where the role-assignment query is answered by [resp]. *)
Definition env_answering (resp : http_response) : env :=
  mk_env false None None false
    (genai_generate bare_env) (fun _ _ => Return resp)
    (requests_post bare_env) (open_write bare_env) (json_dumps bare_env).

(** A 200 answer whose body is
    [{"elements": [{"role": "ADMINISTRATOR"},
                   {"organizationalTarget": "urn:li:organization:12345"}]}]. *)
Definition element_without_target : pydict :=
  [ (py "role", VStr (py "ADMINISTRATOR")) ].
Definition element_with_target : pydict :=
  [ (py "organizationalTarget", VStr (py "urn:li:organization:12345")) ].
Definition acl_body : pydict :=
  [ (py "elements", VList [VDict element_without_target; VDict element_with_target]) ].
Definition acl_response : http_response :=
  mk_response 200 [] (Some (VDict acl_body)) [] [].

Definition bearer_headers (token : pystr) : header_set :=
  [ (py "Authorization", py "Bearer " ++ token);
    (py "X-Restli-Protocol-Version", py "2.0.0") ].

Definition empty_session : session_state := mk_session [] [] [] [].
Definition fresh_world : world := mk_world empty_session ∅ [].

(** A generation service that fails twice and then answers with an
    object whose [text] attribute is " Hello ". *)
Definition env_flaky : env :=
  mk_env false None None true
    (fun _ _ k =>
       if k <? 3 then Raise (exception OtherException "service unreachable")
       else Return (VObj [(py "text", Return (VStr (py " Hello ")))]))
    (requests_get bare_env) (requests_post bare_env)
    (open_write bare_env) (json_dumps bare_env).

(** A generation service that is installed and never answers. *)
Definition env_down : env :=
  mk_env false None None true
    (genai_generate bare_env)
    (requests_get bare_env) (requests_post bare_env)
    (open_write bare_env) (json_dumps bare_env).

(** The repository as shipped: [linkedin_poster_core.py] is importable,
    the generation client library is not installed. *)
Definition env_shipped : env :=
  mk_env true (Some linkedin_poster_core.generate_entry_point)
    (Some linkedin_poster_core.post_entry_point) false
    (genai_generate bare_env)
    (requests_get bare_env) (requests_post bare_env)
    (open_write bare_env) (json_dumps bare_env).

(** Prompt "X", no key typed in, no save path, dry run ticked. *)
Definition ui_prompt_X : widgets :=
  mk_widgets (py "X") DEFAULT_MODEL [] [] [] [] true.

(** A backend module whose generation entry point raises a
    [RuntimeError] however it is called. *)
Definition failing_entry : generate_entry :=
  mk_generate_entry
    (fun _ _ _ => Raise (exception RuntimeError "quota exceeded"))
    (fun _ _ => Raise (exception RuntimeError "quota exceeded")).

(** [bare_env] on a full disk: the file is opened, and so truncated, and
    the write fails with nothing written. *)
Definition env_disk_full : env :=
  mk_env false None None false
    (genai_generate bare_env)
    (requests_get bare_env) (requests_post bare_env)
    (fun _ _ => Interrupted (exception OtherException "No space left on device") [])
    (json_dumps bare_env).

Definition env_failing_backend : env :=
  mk_env true (Some failing_entry) None false
    (genai_generate bare_env)
    (requests_get bare_env) (requests_post bare_env)
    (fun _ _ => Written) (json_dumps bare_env).

(** A backend module whose generation entry point accepts the key and
    fails on it inside its body, as in
    [def generate_article(prompt, model, gemini_api_key=None):
         if gemini_api_key: budget = 1 + gemini_api_key
         return "Article about " + prompt]:
    called with a key it raises a [TypeError] that is no signature
    mismatch, called without it returns a text. *)
Definition body_fault_entry : generate_entry :=
  mk_generate_entry
    (fun prompt _ key =>
       if str_truthy key
       then Raise (exception TypeError
                     "unsupported operand type(s) for +: 'int' and 'str'")
       else Return (py "Article about " ++ prompt))
    (fun prompt _ => Return (py "Article about " ++ prompt)).

Definition env_body_fault : env :=
  mk_env true (Some body_fault_entry) None false
    (genai_generate bare_env)
    (requests_get bare_env) (requests_post bare_env)
    (fun _ _ => Written) (json_dumps bare_env).

(** Prompt "X", the generation key "key" typed in, save path
    "article.txt". *)
Definition ui_saving_with_key : widgets :=
  mk_widgets (py "X") DEFAULT_MODEL [] (py "key") [] (py "article.txt") true.

(** A session that already holds an article, saved earlier. *)
Definition session_with_article : session_state :=
  mk_session (py "Hello world") [] [] [].
Definition world_with_article : world :=
  mk_world session_with_article (<[py "article.txt" := py "Hello world"]> ∅) [].

(** Prompt "X", save path "article.txt". *)
Definition ui_saving : widgets :=
  mk_widgets (py "X") DEFAULT_MODEL [] [] [] (py "article.txt") true.

(** A token typed in, no organization id typed in, dry run ticked. *)
Definition ui_dry_run_token : widgets :=
  mk_widgets (py "X") DEFAULT_MODEL [] [] (py "token") [] true.

(** The same widgets with dry run unticked. *)
Definition ui_live_token : widgets :=
  mk_widgets (py "X") DEFAULT_MODEL [] [] (py "token") [] false.

(** An outside world without backend module in which the role-assignment
    query is answered by [acl_response] and the content-creation
    endpoint answers 201 with [{"id": "urn:li:share:1"}]. *)
Definition created_response : http_response :=
  mk_response 201 [] (Some (VDict [(py "id", VStr (py "urn:li:share:1"))])) [] [].

Definition env_live : env :=
  mk_env false None None false
    (genai_generate bare_env) (fun _ _ => Return acl_response)
    (fun _ _ _ => Return created_response)
    (open_write bare_env) (json_dumps bare_env).

(** The POST that [post_to_linkedin_api] issues for the article "Hello
    world", organization 12345 and token "token". *)
Definition expected_post : event :=
  EvPost UGC_POSTS_ENDPOINT
    [ (py "Authorization", py "Bearer token");
      (py "X-Restli-Protocol-Version", py "2.0.0");
      (py "Content-Type", py "application/json") ]
    (build_ugc_payload (py "12345") (py "Hello world")) 15.

(** A backend module written by the user, whose generation entry point
    returns an article of its own. *)
Definition own_entry : generate_entry :=
  mk_generate_entry
    (fun _ _ _ => Return (py "Quarterly results are in."))
    (fun _ _ => Return (py "Quarterly results are in.")).

Definition env_own_backend : env :=
  mk_env true (Some own_entry) None false
    (genai_generate bare_env)
    (requests_get bare_env) (requests_post bare_env)
    (open_write bare_env) (json_dumps bare_env).

(* ================================================================= *)
(** ** Further vocabulary and inputs *)

(** [v[k]] for a dictionary [v]; [VNone] stands for a missing key. *)
Definition subscript (v : pyval) (k : string) : pyval :=
  match v with
  | VDict d => dict_get d (py k)
  | _ => VNone
  end.

(** [l[-k:]]: the last [k] items, all of them when there are fewer. *)
Definition slice_last {A} (k : nat) (l : list A) : list A :=
  drop (length l - k) l.

(** Line 127: the lines shown in the log area,
    [st.session_state.logs[-100:]], and the text made of them,
    ["\n".join(...)]. *)
Definition log_area_lines (s : session_state) : list pystr :=
  slice_last 100 (logs s).

Definition log_area_value (s : session_state) : pystr :=
  intercalate nl (log_area_lines s).

(** "abcdef" *)
Definition six_letters : pystr := py "abcdef".

(** The commentary text of a post payload:
    [payload["specificContent"]["com.linkedin.ugc.ShareContent"]
     ["shareCommentary"]["text"]]. *)
Definition commentary_text (payload : pyval) : pyval :=
  subscript
    (subscript
       (subscript (subscript payload "specificContent")
                  "com.linkedin.ugc.ShareContent")
       "shareCommentary")
    "text".

(** The status of a response is an HTTP error status. *)
Definition error_status (resp : http_response) : Prop :=
  400 <= status_code resp < 600.

(** The headers [post_to_linkedin_api] sends for a bearer token. *)
Definition post_headers (bearer_token : pystr) : header_set :=
  [ (py "Authorization", py "Bearer " ++ bearer_token);
    (py "X-Restli-Protocol-Version", py "2.0.0");
    (py "Content-Type", py "application/json") ].

(** What [post_to_linkedin_api] returns for an answer that is not an
    error and whose body is not JSON. *)
Definition status_and_headers (resp : http_response) : pyval :=
  VDict [ (py "status_code", VInt (status_code resp));
          (py "headers",
           VDict (map (fun kv => (fst kv, VStr (snd kv))) (resp_headers resp))) ].

(** The error [raise_for_status] raises for a response. *)
Definition http_error_of (resp : http_response) : exn :=
  mk_exn HTTPError (resp_error resp) (Some (resp_text resp)).

(** A 403 answer with a diagnostic body. *)
Definition forbidden_response : http_response :=
  mk_response 403 (py "Not enough permissions to access: ugcPosts.CREATE")
    None [] (py "403 Client Error: Forbidden for url: https://api.linkedin.com/v2/ugcPosts").

(** A 201 answer with an empty body and one header. *)
Definition created_without_body : http_response :=
  mk_response 201 [] None [(py "x-restli-id", py "urn:li:share:1")] [].

(** A 200 answer whose only element carries the expanded organization
    under "organizationalTarget~" and no "organizationalTarget". *)
Definition element_with_expansion : pydict :=
  [ (py "organizationalTarget~", VDict [(py "localizedName", VStr (py "Acme"))]) ].
Definition expansion_body : pydict :=
  [ (py "elements", VList [VDict element_with_expansion]) ].
Definition expansion_response : http_response :=
  mk_response 200 [] (Some (VDict expansion_body)) [] [].

(** A 200 answer whose "elements" is [null]. *)
Definition null_elements_body : pydict := [ (py "elements", VNone) ].
Definition null_elements_response : http_response :=
  mk_response 200 [] (Some (VDict null_elements_body)) [] [].

(** [bare_env] where the content-creation endpoint answers [resp]. *)
Definition env_posting (resp : http_response) : env :=
  mk_env false None None false
    (genai_generate bare_env) (requests_get bare_env)
    (fun _ _ _ => Return resp) (open_write bare_env) (json_dumps bare_env).

(** The outside calls of the generation client and of the backend's
    generation entry point. *)
Definition generation_event (ev : event) : Prop :=
  match ev with
  | EvConfigure _ | EvGenerate _ _ _ | EvSleep _ | EvBackendGenerate _ _ _ => True
  | _ => False
  end.

(** The outside calls of the publish handler. *)
Definition publish_event (ev : event) : Prop :=
  match ev with
  | EvGet _ _ _ | EvPost _ _ _ _ | EvBackendPost _ _ _ | EvSuccess _ => True
  | _ => False
  end.

(** The outside calls of the generate handler: those of generation, the
    preview and the opening of the save file. *)
Definition generate_handler_event (ev : event) : Prop :=
  match ev with
  | EvPreview _ | EvOpenWrite _ => True
  | _ => generation_event ev
  end.

(** The world [w] was reached from [w0] by appending to the log and
    making outside calls of the kind [allowed], and in no other way:
    the files, the article and both keys are those of [w0]. *)
Definition handler_frame (allowed : event -> Prop) (w0 w : world) : Prop :=
  files w = files w0
  /\ generated_article (session w) = generated_article (session w0)
  /\ gemini_key (session w) = gemini_key (session w0)
  /\ linkedin_key (session w) = linkedin_key (session w0)
  /\ (exists new, logs (session w) = logs (session w0) ++ new)
  /\ exists evs, trace w = trace w0 ++ evs /\ Forall allowed evs.

(** The session [s] with one more log line. *)
Definition with_log (s : session_state) (msg : pystr) : session_state :=
  mk_session (generated_article s) (logs s ++ [msg]) (gemini_key s)
             (linkedin_key s).

(** The session [s] holding the article [a]. *)
Definition with_article (s : session_state) (a : pystr) : session_state :=
  mk_session a (logs s) (gemini_key s) (linkedin_key s).

(** The world in which the generate handler starts its [try]: the
    start line is logged and the keys typed in are stored. *)
Definition generation_started (ui : widgets) (w : world) : world :=
  mk_world
    (mk_session (generated_article (session w))
       (logs (session w) ++ [py "[info] Generation started..."])
       (str_or (ui_gemini_key ui) (gemini_key (session w)))
       (str_or (ui_linkedin_key ui) (linkedin_key (session w))))
    (files w) (trace w).

(** The part of the generate handler that obtains the article text
    (lines 262-282). *)
Definition obtain_article (E : env) (ui : widgets) : prog pystr :=
  match BACKEND_MODULE E, backend_generate_article E with
  | true, Some entry => generate_with_backend ui entry
  | _, _ => generate_without_backend E ui
  end.

(** How the generate handler ends, from the world [w2] in which the
    article text was obtained or the attempt failed: with the failure
    logged; or with the article [a] stored and previewed and, when a
    save path is given, the file written, or the failure to write
    logged with the file untouched (it could not be opened) or holding
    what the interrupted write left behind. *)
Definition generate_handler_end (E : env) (ui : widgets) (w2 w' : world) : Prop :=
  (exists e,
     w' = mk_world
            (with_log (session w2) (py "[error] Generation failed: " ++ exn_str e))
            (files w2) (trace w2))
  \/ exists a,
       (ui_save_path ui = []
        /\ w' = mk_world (with_article (session w2) a) (files w2)
                  (trace w2 ++ [EvPreview (slice_to 3000 a)]))
       \/ (ui_save_path ui <> []
           /\ open_write E (ui_save_path ui) a = Written
           /\ w' = mk_world
                     (with_log (with_article (session w2) a)
                        (py "[success] Saved generated article to "
                         ++ ui_save_path ui))
                     (<[ui_save_path ui := a]> (files w2))
                     (trace w2 ++ [EvPreview (slice_to 3000 a)]
                      ++ [EvOpenWrite (ui_save_path ui)]))
       \/ (ui_save_path ui <> []
           /\ exists e,
                open_write E (ui_save_path ui) a = NotOpened e
                /\ w' = mk_world
                          (with_log (with_article (session w2) a)
                             (py "[error] Could not save file: " ++ exn_str e))
                          (files w2)
                          (trace w2 ++ [EvPreview (slice_to 3000 a)]
                           ++ [EvOpenWrite (ui_save_path ui)]))
       \/ (ui_save_path ui <> []
           /\ exists e left_behind,
                open_write E (ui_save_path ui) a = Interrupted e left_behind
                /\ w' = mk_world
                          (with_log (with_article (session w2) a)
                             (py "[error] Could not save file: " ++ exn_str e))
                          (<[ui_save_path ui := left_behind]> (files w2))
                          (trace w2 ++ [EvPreview (slice_to 3000 a)]
                           ++ [EvOpenWrite (ui_save_path ui)])).

(** A 200 answer that lists no organization. *)
Definition empty_acl_response : http_response :=
  mk_response 200 [] (Some (VDict [(py "elements", VList [])])) [] [].

(** A backend module whose generation entry point does not accept the
    key as a named argument. *)
Definition positional_entry : generate_entry :=
  mk_generate_entry
    (fun _ _ _ =>
       Raise (exception TypeError "unexpected keyword argument 'gemini_api_key'"))
    (fun prompt _ => Return (py "Article about " ++ prompt)).

Definition env_positional_backend : env :=
  mk_env true (Some positional_entry) None false
    (genai_generate bare_env)
    (requests_get bare_env) (requests_post bare_env)
    (open_write bare_env) (json_dumps bare_env).

(** A generation key typed in, nothing else. *)
Definition ui_with_gemini_key : widgets :=
  mk_widgets (py "X") DEFAULT_MODEL [] (py "key") [] [] true.

(** An organization id and a token typed in, dry run off. *)
Definition ui_live_org : widgets :=
  mk_widgets (py "X") DEFAULT_MODEL (py "12345") [] (py "token") [] false.

(** The same with dry run ticked. *)
Definition ui_dry_org : widgets :=
  mk_widgets (py "X") DEFAULT_MODEL (py "12345") [] (py "token") [] true.

(** The widgets [ui] with the dry-run box set to [b]. *)
Definition with_dry_run (ui : widgets) (b : bool) : widgets :=
  mk_widgets (ui_prompt ui) (ui_model ui) (ui_org_id_override ui)
    (ui_gemini_key ui) (ui_linkedin_key ui) (ui_save_path ui) b.

(** What the role-assignment query gives for the platform key [k]: the
    answer of the request run through lines 212-220. *)
Definition resolver_answer (E : env) (k : pystr) : outcome (option pystr) :=
  match requests_get E ORGS_ENDPOINT (bearer_headers k) with
  | Return resp => org_id_of_response resp
  | Raise e => Raise e
  end.

(** The look-up of the organization fails with [e]: the resolver raises
    [e], or it finds no organization (absence, or an empty id) and the
    handler raises its own error. *)
Definition resolution_fails_with (r : outcome (option pystr)) (e : exn) : Prop :=
  r = Raise e
  \/ ((r = Return None \/ r = Return (Some []))
      /\ e = exception RuntimeError "No organization found for token.").

(** The line the publish handler logs for an exception (lines 342-346). *)
Definition publish_error_line (e : exn) : pystr :=
  if is_HTTPError e
  then py "[http-error] " ++ exn_str e ++ py " -- "
       ++ default [] (exn_response_text e)
  else py "[error] Publishing failed: " ++ exn_str e.

(** The world of the publish handler once both checks are passed, with
    the lines [lines] logged after the start line and the calls [evs]
    made. *)
Definition published (ui : widgets) (w : world) (lines : list pystr)
    (evs : list event) : world :=
  mk_world
    (mk_session (generated_article (session w))
       (logs (session w) ++ py "[info] Publishing started..." :: lines)
       (gemini_key (session w))
       (str_or (ui_linkedin_key ui) (linkedin_key (session w))))
    (files w) (trace w ++ evs).

(** What a call of the publish handler may carry when the session holds
    [article]: a POST goes to the content-creation endpoint with a
    timeout of 15 and a payload built from that article; the backend
    module's publish entry point is given that article. *)
Definition carries_article (article : pystr) (ev : event) : Prop :=
  match ev with
  | EvPost url hs payload timeout =>
      url = UGC_POSTS_ENDPOINT /\ timeout = 15
      /\ (exists token, hs = post_headers token)
      /\ exists org_id, payload = build_ugc_payload org_id article
  | EvBackendPost a _ _ => a = article
  | _ => True
  end.

(** The calls made since [w0] all carry [article]. *)
Definition calls_carry (article : pystr) (w0 w : world) : Prop :=
  exists evs, trace w = trace w0 ++ evs /\ Forall (carries_article article) evs.

(** The organization argument the publish handler passes to the backend
    module: [org_id_override or None]. *)
Definition org_argument (ui : widgets) : option pystr :=
  if str_truthy (ui_org_id_override ui) then Some (ui_org_id_override ui)
  else None.

(** A backend module whose publish entry point does not accept the key
    as a named argument. *)
Definition positional_post_entry : post_entry :=
  mk_post_entry
    (fun _ _ _ =>
       Raise (exception TypeError "unexpected keyword argument 'linkedin_api_key'"))
    (fun article org => Return (linkedin_poster_core.post_to_linkedin article org None)).

Definition env_positional_post : env :=
  mk_env true None (Some positional_post_entry) false
    (genai_generate bare_env)
    (requests_get bare_env) (requests_post bare_env)
    (open_write bare_env) (json_dumps bare_env).

(** A backend module whose publish entry point returns an object that
    is not made of dictionaries, lists and strings (the response object
    of its HTTP library, say). *)
Definition object_post_entry : post_entry :=
  mk_post_entry
    (fun _ _ _ => Return (VObj [(py "status_code", Return (VInt 201))]))
    (fun _ _ => Return (VObj [(py "status_code", Return (VInt 201))])).

Definition env_object_post : env :=
  mk_env true None (Some object_post_entry) false
    (genai_generate bare_env)
    (requests_get bare_env) (requests_post bare_env)
    (open_write bare_env) (json_dumps bare_env).

(** A log of 150 lines, "line" each. *)
Definition long_log_world : world :=
  mk_world (mk_session [] (repeat (py "line") 150) [] []) ∅ [].

(* ================================================================= *)
(** * Properties *)

(** ** Stripping *)

Lemma lstrip_suffix (s : pystr) :
  exists ws, s = ws ++ lstrip s /\ forallb is_space ws = true.
Proof.
  induction s as [|c t IH]; simpl.
  - exists []. split; reflexivity.
  - destruct (is_space c) eqn:Hc.
    + destruct IH as (ws & Heq & Hws). exists (c :: ws). simpl.
      rewrite Hc, Hws. split; [f_equal; exact Heq | reflexivity].
    + exists []. split; reflexivity.
Qed.

Lemma lstrip_head (s : pystr) (c : pychar) (t : pystr) :
  lstrip s = c :: t -> is_space c = false.
Proof.
  induction s as [|a u IH]; simpl; [discriminate|].
  destruct (is_space a) eqn:Ha; [exact IH|].
  intros H. injection H as -> _. exact Ha.
Qed.

Lemma lstrip_fixed (s : pystr) :
  match s with [] => True | c :: _ => is_space c = false end -> lstrip s = s.
Proof. destruct s as [|c t]; simpl; [reflexivity|]. intros ->. reflexivity. Qed.

Lemma lstrip_idem (s : pystr) : lstrip (lstrip s) = lstrip s.
Proof.
  apply lstrip_fixed. destruct (lstrip s) as [|c t] eqn:H; [exact I|].
  exact (lstrip_head _ _ _ H).
Qed.

Lemma rstrip_prefix (s : pystr) : exists ws, s = rstrip s ++ ws.
Proof.
  destruct (lstrip_suffix (rev s)) as (ws & Heq & _).
  exists (rev ws). unfold rstrip.
  rewrite <- rev_app_distr, <- Heq, rev_involutive. reflexivity.
Qed.

Lemma rstrip_length (s : pystr) : (length (rstrip s) <= length s)%nat.
Proof.
  destruct (rstrip_prefix s) as (ws & Heq).
  rewrite Heq at 2. rewrite length_app. lia.
Qed.

Lemma rstrip_snoc_kept (s : pystr) (c : pychar) :
  is_space c = false -> rstrip (s ++ [c]) = s ++ [c].
Proof.
  intros Hc. unfold rstrip. rewrite rev_app_distr. simpl. rewrite Hc.
  simpl. rewrite rev_involutive. reflexivity.
Qed.

Lemma rstrip_snoc_dropped (s : pystr) (c : pychar) :
  is_space c = true -> rstrip (s ++ [c]) = rstrip s.
Proof.
  intros Hc. unfold rstrip. rewrite rev_app_distr. simpl. rewrite Hc.
  reflexivity.
Qed.

Lemma rstrip_idem (s : pystr) : rstrip (rstrip s) = rstrip s.
Proof.
  unfold rstrip. rewrite rev_involutive, lstrip_idem. reflexivity.
Qed.

Lemma rstrip_keeps_head (s : pystr) :
  match s with [] => True | c :: _ => is_space c = false end ->
  match rstrip s with [] => True | c :: _ => is_space c = false end.
Proof.
  intros Hs. destruct (rstrip_prefix s) as (ws & Heq).
  destruct (rstrip s) as [|c t]; [exact I|].
  rewrite Heq in Hs. exact Hs.
Qed.

Lemma strip_idem (s : pystr) : strip (strip s) = strip s.
Proof.
  unfold strip at 1.
  assert (Hl : lstrip (strip s) = strip s).
  { apply lstrip_fixed. unfold strip. apply rstrip_keeps_head.
    destruct (lstrip s) as [|c t] eqn:H; [exact I|].
    exact (lstrip_head _ _ _ H). }
  rewrite Hl. unfold strip. apply rstrip_idem.
Qed.

Lemma str_truthy_nonempty (s : pystr) : str_truthy s = true <-> s <> [].
Proof. destruct s; simpl; split; congruence. Qed.

(** ** Truncation *)

Lemma slice_to_2997 (text : pystr) :
  slice_to (MAX_LINKEDIN_COMMENTARY_LENGTH - 3) text = take 2997%nat text.
Proof. reflexivity. Qed.

Lemma take_snoc_lookup {A} (n : nat) (l : list A) :
  (n < length l)%nat ->
  exists c, l !! n = Some c /\ take (S n) l = take n l ++ [c].
Proof.
  intros Hn. destruct (lookup_lt_is_Some_2 l n Hn) as [c Hc].
  exists c. split; [exact Hc|]. apply take_S_r. exact Hc.
Qed.

Lemma safe_truncate_within (text : pystr) :
  len text <= MAX_LINKEDIN_COMMENTARY_LENGTH ->
  safe_truncate text MAX_LINKEDIN_COMMENTARY_LENGTH = text.
Proof.
  intros H. unfold safe_truncate.
  destruct (Z.leb_spec (len text) MAX_LINKEDIN_COMMENTARY_LENGTH); [reflexivity|lia].
Qed.

Lemma safe_truncate_beyond (text : pystr) :
  MAX_LINKEDIN_COMMENTARY_LENGTH < len text ->
  safe_truncate text MAX_LINKEDIN_COMMENTARY_LENGTH
  = rstrip (take 2997%nat text) ++ py "...".
Proof.
  intros H. unfold safe_truncate.
  destruct (Z.leb_spec (len text) MAX_LINKEDIN_COMMENTARY_LENGTH); [lia|].
  rewrite slice_to_2997. reflexivity.
Qed.

(** [is_space] holds of the whitespace characters and of no other. *)
Lemma is_space_whitespace (c : pychar) :
  is_space c = true <-> In c unicode_whitespace.
Proof.
  split.
  - unfold is_space.
    rewrite !orb_true_iff, !andb_true_iff, !N.leb_le, !N.eqb_eq.
    intros H.
    assert (Hc : (c = 9 \/ c = 10 \/ c = 11 \/ c = 12 \/ c = 13 \/ c = 28
                  \/ c = 29 \/ c = 30 \/ c = 31 \/ c = 32 \/ c = 133
                  \/ c = 160 \/ c = 5760 \/ c = 8192 \/ c = 8193 \/ c = 8194
                  \/ c = 8195 \/ c = 8196 \/ c = 8197 \/ c = 8198 \/ c = 8199
                  \/ c = 8200 \/ c = 8201 \/ c = 8202 \/ c = 8232 \/ c = 8233
                  \/ c = 8239 \/ c = 8287 \/ c = 12288)%N) by lia.
    unfold unicode_whitespace.
    repeat (destruct Hc as [-> | Hc];
            [repeat first [left; reflexivity | right]|]).
    subst c. repeat first [left; reflexivity | right].
  - unfold unicode_whitespace. intros Hin.
    repeat (destruct Hin as [<- | Hin]; [reflexivity|]).
    destruct Hin.
Qed.

(** What [rstrip] keeps is the string with its trailing whitespace
    stripped: the rest is whitespace only, and the kept part does not
    end in whitespace. *)
Lemma rstrip_strips (s : pystr) : trailing_whitespace_stripped s (rstrip s).
Proof.
  unfold trailing_whitespace_stripped, rstrip.
  destruct (lstrip_suffix (rev s)) as (ws & Heq & Hws). split.
  - exists (rev ws). split.
    + rewrite <- rev_app_distr, <- Heq, rev_involutive. reflexivity.
    + apply List.Forall_forall. intros c Hc. apply in_rev in Hc.
      apply is_space_whitespace.
      exact (proj1 (forallb_forall _ _) Hws c Hc).
  - intros c Hlast Hin.
    destruct (lstrip (rev s)) as [|a t] eqn:Hl; [discriminate Hlast|].
    cbn [rev] in Hlast. rewrite last_snoc in Hlast. injection Hlast as <-.
    apply is_space_whitespace in Hin.
    rewrite (lstrip_head _ _ _ Hl) in Hin. discriminate Hin.
Qed.

(** Stripping trailing whitespace has one result only. *)
Lemma stripped_is_rstrip (s kept : pystr) :
  trailing_whitespace_stripped s kept -> kept = rstrip s.
Proof.
  intros [(ws & -> & Hws) Hlast].
  induction ws as [|c ws IH] using rev_ind.
  - rewrite app_nil_r.
    destruct kept as [|a t] using rev_ind; [reflexivity|].
    symmetry. apply rstrip_snoc_kept.
    destruct (is_space a) eqn:Ha; [|reflexivity].
    exfalso. apply (Hlast a); [apply last_snoc|].
    apply is_space_whitespace. exact Ha.
  - apply Forall_app in Hws. destruct Hws as [Hws Hc].
    rewrite app_assoc, rstrip_snoc_dropped.
    + exact (IH Hws).
    + apply is_space_whitespace. inversion Hc; assumption.
Qed.

(** C3.  [safe_truncate] at the platform limit is the truncation rule of
    the specification, and the rule has no other result: on texts of at
    most 3000 units it is the identity; on longer texts the result is
    the part of the first 2997 units that is left when their trailing
    whitespace is stripped (what is dropped is whitespace only, what is
    kept does not end in whitespace), followed by the three-character
    marker.  The result never exceeds 3000 units. *)
Theorem safe_truncate_refines_rule (text : pystr) :
  (forall result,
     truncation_rule text result
     <-> result = safe_truncate text MAX_LINKEDIN_COMMENTARY_LENGTH)
  /\ len (safe_truncate text MAX_LINKEDIN_COMMENTARY_LENGTH) <= 3000.
Proof.
  destruct (Z.le_gt_cases (len text) 3000) as [Hle|Hgt].
  - rewrite (safe_truncate_within text Hle). split; [|exact Hle].
    intros result. unfold truncation_rule. split.
    + intros [[_ H] | [H _]]; [exact H|lia].
    + intros ->. left. split; [exact Hle|reflexivity].
  - assert (Hz : MAX_LINKEDIN_COMMENTARY_LENGTH < len text) by exact Hgt.
    rewrite (safe_truncate_beyond text Hz). split.
    + intros result. unfold truncation_rule. split.
      * intros [[H _] | (_ & kept & Hkept & ->)]; [lia|].
        rewrite (stripped_is_rstrip _ _ Hkept). reflexivity.
      * intros ->. right. split; [exact Hgt|].
        exists (rstrip (take 2997%nat text)).
        split; [apply rstrip_strips|reflexivity].
    + unfold len. rewrite length_app.
      pose proof (rstrip_length (take 2997%nat text)) as Hr.
      rewrite length_take in Hr.
      change (length (py "...")) with 3%nat. lia.
Qed.

(** C2, as the code has it.  For every text longer than 3000 units the
    result ends with the marker "..." and has at most 3000 units; it has
    exactly 3000 units if and only if the unit at index 2996, the last
    one kept, is not whitespace. *)
Theorem safe_truncate_long_text (text : pystr) :
  3000 < len text ->
  ends_with (safe_truncate text MAX_LINKEDIN_COMMENTARY_LENGTH) (py "...")
  /\ len (safe_truncate text MAX_LINKEDIN_COMMENTARY_LENGTH) <= 3000
  /\ (len (safe_truncate text MAX_LINKEDIN_COMMENTARY_LENGTH) = 3000
      <-> exists c, text !! 2996%nat = Some c /\ is_space c = false).
Proof.
  intros Hlong.
  rewrite (safe_truncate_beyond text Hlong).
  split; [eexists; reflexivity|].
  assert (Hn : (2996 < length text)%nat) by (unfold len in Hlong; lia).
  destruct (take_snoc_lookup 2996 text Hn) as (c & Hc & Htake).
  assert (Hlen : length (take 2996%nat text) = 2996%nat).
  { rewrite length_take. lia. }
  rewrite Htake. unfold len. rewrite length_app.
  change (length (py "...")) with 3%nat.
  destruct (is_space c) eqn:Hsp.
  - rewrite (rstrip_snoc_dropped _ _ Hsp).
    pose proof (rstrip_length (take 2996%nat text)) as Hr.
    split; [lia|]. split.
    + intros Heq. lia.
    + intros (c' & Hc' & Hns).
      pose proof (eq_trans (eq_sym Hc) Hc') as Hcc. injection Hcc as <-.
      congruence.
  - rewrite (rstrip_snoc_kept _ _ Hsp), length_app, Hlen. simpl length.
    split; [lia|]. split.
    + intros _. exists c. split; [exact Hc|exact Hsp].
    + intros _. lia.
Qed.

Lemma safe_truncate_long_text_witness :
  3000 < len text_of_letters
  /\ len (safe_truncate text_of_letters MAX_LINKEDIN_COMMENTARY_LENGTH) = 3000.
Proof.
  assert (H : 3000 < len text_of_letters) by (vm_compute; reflexivity).
  split; [exact H|].
  destruct (safe_truncate_long_text text_of_letters H) as (_ & _ & Hiff).
  apply Hiff. exists 97%N. split; vm_compute; reflexivity.
Defined.

(** C2 as stated fails: this text has 3001 units, and its truncation has
    2999, because the space at index 2996 is stripped before the marker
    is appended. *)
Lemma safe_truncate_not_exactly_limit :
  len text_with_space_at_cut = 3001
  /\ len (safe_truncate text_with_space_at_cut MAX_LINKEDIN_COMMENTARY_LENGTH) = 2999
  /\ ~ (3000 < len text_with_space_at_cut ->
        len (safe_truncate text_with_space_at_cut MAX_LINKEDIN_COMMENTARY_LENGTH) = 3000
        /\ ends_with (safe_truncate text_with_space_at_cut MAX_LINKEDIN_COMMENTARY_LENGTH)
                     (py "...")).
Proof.
  assert (H1 : len text_with_space_at_cut = 3001) by (vm_compute; reflexivity).
  assert (H2 : len (safe_truncate text_with_space_at_cut
                      MAX_LINKEDIN_COMMENTARY_LENGTH) = 2999)
    by (vm_compute; reflexivity).
  split; [exact H1|]. split; [exact H2|].
  intros H. destruct H as [H3 _]; [lia|]. rewrite H2 in H3. discriminate.
Qed.

(** ** The response extractor *)

Lemma stripped_text_sound (v : pyval) (s : pystr) :
  stripped_text v = Some s -> holds_text v s /\ trimmed s.
Proof.
  destruct v as [| | |raw| | | |]; simpl; try discriminate.
  destruct (str_truthy (strip raw)) eqn:Ht; [|discriminate].
  intros H. injection H as <-. apply str_truthy_nonempty in Ht.
  split; [exists raw; auto | apply strip_idem].
Qed.


Lemma probe_keys_sound (keys : list pystr) (d : pydict) (s : pystr) :
  probe_keys keys d = Some s -> s <> [] /\ trimmed s.
Proof.
  induction keys as [|k rest IH]; simpl; [discriminate|].
  destruct (assoc k d) as [v|]; [|exact IH].
  destruct (stripped_text v) as [s'|] eqn:Hv; [|exact IH].
  intros H. injection H as ->.
  destruct (stripped_text_sound _ _ Hv) as [(raw & _ & _ & Hne) Htr]. auto.
Qed.

Lemma probe_attrs_sound (names : list pystr) (first : pyval) (s : pystr) :
  probe_attrs names first = Return (Some s) -> s <> [] /\ trimmed s.
Proof.
  induction names as [|a rest IH]; simpl; [discriminate|].
  destruct (hasattr first a) as [[|]|e]; simpl; [|exact IH|discriminate].
  destruct (getattr first a) as [val|e]; simpl; [|discriminate].
  destruct (stripped_text val) as [s'|] eqn:Hv; [|exact IH].
  intros H. injection H as ->.
  destruct (stripped_text_sound _ _ Hv) as [(raw & _ & _ & Hne) Htr]. auto.
Qed.

Lemma extract_from_dict_sound (resp : pyval) (s : pystr) :
  extract_from_dict resp = Some s -> s <> [] /\ trimmed s.
Proof.
  unfold extract_from_dict.
  destruct resp as [| | | | | |d|]; try discriminate.
  destruct (probe_keys [py "text"; py "content"] d) as [s1|] eqn:H1.
  { intros H. injection H as ->. exact (probe_keys_sound _ _ _ H1). }
  destruct (nonempty_seq (candidates_of d)) as [[first rest]|]; [|discriminate].
  destruct (match first with
            | VDict fd => probe_keys [py "output"; py "content"; py "text"] fd
            | _ => None
            end) as [s2|] eqn:H2.
  - intros H. injection H as ->.
    destruct first; try discriminate. exact (probe_keys_sound _ _ _ H2).
  - intros H. destruct (stripped_text_sound _ _ H) as [(raw & _ & _ & Hne) Htr].
    auto.
Qed.

Lemma extract_body_sound (resp : pyval) (s : pystr) :
  extract_body resp = Return (Some s) -> s <> [] /\ trimmed s.
Proof.
  unfold extract_body, extract_text_attr.
  destruct (hasattr resp (py "text")) as [[|]|e]; cbn [mbind outcome_bind]; [| |discriminate].
  - destruct (getattr resp (py "text")) as [t|e]; cbn [mbind outcome_bind]; [|discriminate].
    destruct (stripped_text t) as [s1|] eqn:H1.
    + intros H. injection H as ->.
      destruct (stripped_text_sound _ _ H1) as [(raw & _ & _ & Hne) Htr]. auto.
    + destruct (extract_from_dict resp) as [s2|] eqn:H2.
      * intros H. injection H as ->. exact (extract_from_dict_sound _ _ H2).
      * unfold extract_from_candidates_attr.
        destruct (hasattr resp (py "candidates")) as [[|]|e]; cbn [mbind outcome_bind];
          try discriminate.
        destruct (getattr resp (py "candidates")) as [c|e]; cbn [mbind outcome_bind];
          [|discriminate].
        destruct (nonempty_seq c) as [[first rest]|]; [|discriminate].
        apply probe_attrs_sound.
  - destruct (extract_from_dict resp) as [s2|] eqn:H2.
    + intros H. injection H as ->. exact (extract_from_dict_sound _ _ H2).
    + unfold extract_from_candidates_attr.
      destruct (hasattr resp (py "candidates")) as [[|]|e]; cbn [mbind outcome_bind];
        try discriminate.
      destruct (getattr resp (py "candidates")) as [c|e]; cbn [mbind outcome_bind];
        [|discriminate].
      destruct (nonempty_seq c) as [[first rest]|]; [|discriminate].
      apply probe_attrs_sound.
Qed.

Lemma extract_returns (resp : pyval) :
  exists r, extract_text_from_gemini_response resp = Return r
            /\ match r with
               | Some s => extract_body resp = Return (Some s)
               | None => True
               end.
Proof.
  unfold extract_text_from_gemini_response.
  destruct (extract_body resp) as [[s|]|e].
  - exists (Some s). auto.
  - exists None. auto.
  - exists None. auto.
Qed.

Lemma extract_some_sound (resp : pyval) (s : pystr) :
  extract_text_from_gemini_response resp = Return (Some s) ->
  s <> [] /\ trimmed s.
Proof.
  intros H. destruct (extract_returns resp) as (r & Hr & Hb).
  rewrite Hr in H. injection H as ->. exact (extract_body_sound _ _ Hb).
Qed.

(** *** A text comes from a recognized shape only *)

Lemma probe_keys_found (keys : list string) (d : pydict) (s : pystr) :
  probe_keys (map py keys) d = Some s ->
  exists k, In k keys /\ key_text d k s.
Proof.
  induction keys as [|k rest IH]; cbn [map probe_keys]; [discriminate|].
  destruct (assoc (py k) d) as [v|] eqn:Hk.
  - destruct (stripped_text v) as [s'|] eqn:Hv.
    + intros H. injection H as ->. exists k. split; [left; reflexivity|].
      exists v. split; [exact Hk|exact (proj1 (stripped_text_sound _ _ Hv))].
    + intros H. destruct (IH H) as (k' & Hin & Ht).
      exists k'. split; [right; exact Hin|exact Ht].
  - intros H. destruct (IH H) as (k' & Hin & Ht).
    exists k'. split; [right; exact Hin|exact Ht].
Qed.

Lemma probe_attrs_found (names : list string) (first : pyval) (s : pystr) :
  probe_attrs (map py names) first = Return (Some s) ->
  exists a, In a names /\ attr_text first a s.
Proof.
  induction names as [|a rest IH]; cbn [map probe_attrs]; [discriminate|].
  assert (Hrest : probe_attrs (map py rest) first = Return (Some s) ->
                  exists a', In a' (a :: rest) /\ attr_text first a' s).
  { intros H. destruct (IH H) as (a' & Hin & Ht).
    exists a'. split; [right; exact Hin|exact Ht]. }
  destruct (hasattr first (py a)) as [[|]|e]; cbn [mbind outcome_bind];
    [|exact Hrest|discriminate].
  destruct (getattr first (py a)) as [val|e] eqn:Hg; cbn [mbind outcome_bind];
    [|discriminate].
  destruct (stripped_text val) as [s'|] eqn:Hv; [|exact Hrest].
  intros H. injection H as ->. exists a. split; [left; reflexivity|].
  exists val. split; [exact Hg|exact (proj1 (stripped_text_sound _ _ Hv))].
Qed.

Lemma candidates_of_listed (d : pydict) (first : pyval) (rest : list pyval) :
  nonempty_seq (candidates_of d) = Some (first, rest) ->
  lists_candidates d first rest.
Proof.
  unfold candidates_of, py_or, lists_candidates.
  destruct (truthy (dict_get d (py "candidates"))) eqn:Hc; cbv iota.
  - rewrite Hc. intros H.
    exists "candidates"%string. split; [left; reflexivity|exact H].
  - destruct (truthy (dict_get d (py "outputs"))); intros H.
    + exists "outputs"%string. split; [right; left; reflexivity|exact H].
    + exists "choices"%string. split; [right; right; left; reflexivity|exact H].
Qed.

Lemma extract_from_dict_recognized (resp : pyval) (s : pystr) :
  extract_from_dict resp = Some s ->
  has_keyed_text resp \/ has_listed_text resp.
Proof.
  unfold extract_from_dict.
  destruct resp as [| | | | | |d|]; try discriminate.
  destruct (probe_keys [py "text"; py "content"] d) as [s1|] eqn:H1.
  { intros H. injection H as ->. left.
    destruct (probe_keys_found ["text"; "content"]%string d s H1)
      as (k & Hin & Ht).
    exists d, k, s. auto. }
  destruct (nonempty_seq (candidates_of d)) as [[first rest]|] eqn:Hseq;
    [|discriminate].
  destruct (candidates_of_listed _ _ _ Hseq) as (k & Hin & Hk).
  destruct (match first with
            | VDict fd => probe_keys [py "output"; py "content"; py "text"] fd
            | _ => None
            end) as [s2|] eqn:H2.
  - intros H. injection H as ->. right.
    destruct first as [| | | | | |fd|]; try discriminate.
    destruct (probe_keys_found ["output"; "content"; "text"]%string fd s H2)
      as (k' & Hin' & Ht).
    exists d, k, (VDict fd), rest.
    split; [reflexivity|]. split; [exact Hin|]. split; [exact Hk|].
    left. exists fd, k', s. auto.
  - intros H. right. exists d, k, first, rest.
    split; [reflexivity|]. split; [exact Hin|]. split; [exact Hk|].
    right. exists s. exact (proj1 (stripped_text_sound _ _ H)).
Qed.

Lemma extract_after_text_recognized (resp : pyval) (s : pystr) :
  match extract_from_dict resp with
  | Some s' => Return (Some s')
  | None => extract_from_candidates_attr resp
  end = Return (Some s) ->
  recognized_shape resp.
Proof.
  destruct (extract_from_dict resp) as [s2|] eqn:H2.
  - intros H. injection H as ->.
    destruct (extract_from_dict_recognized _ _ H2) as [Hk | Hl].
    + right. left. exact Hk.
    + right. right. left. exact Hl.
  - unfold extract_from_candidates_attr.
    destruct (hasattr resp (py "candidates")) as [[|]|e];
      cbn [mbind outcome_bind]; try discriminate.
    destruct (getattr resp (py "candidates")) as [c|e] eqn:Hg;
      cbn [mbind outcome_bind]; [|discriminate].
    destruct (nonempty_seq c) as [[first rest]|] eqn:Hseq; [|discriminate].
    intros H.
    destruct (probe_attrs_found ["content"; "output"; "text"]%string first s H)
      as (a & Hin & Ht).
    right. right. right. exists c, first, rest, a, s. auto.
Qed.

Lemma extract_body_recognized (resp : pyval) (s : pystr) :
  extract_body resp = Return (Some s) -> recognized_shape resp.
Proof.
  unfold extract_body, extract_text_attr.
  destruct (hasattr resp (py "text")) as [[|]|e]; cbn [mbind outcome_bind];
    [| |discriminate].
  - destruct (getattr resp (py "text")) as [t|e] eqn:Hg;
      cbn [mbind outcome_bind]; [|discriminate].
    destruct (stripped_text t) as [s1|] eqn:H1.
    + intros H. injection H as ->. left. exists s, t.
      split; [exact Hg|exact (proj1 (stripped_text_sound _ _ H1))].
    + apply extract_after_text_recognized.
  - apply extract_after_text_recognized.
Qed.

(** C5.  On every response value the extractor returns, and what it
    returns is either absence or a text that is non-empty and trimmed;
    a fault raised while the response is probed is turned into absence.
    On every response of an unrecognized shape (none of the four shapes
    that carry a text), and so on the empty mapping, it returns
    absence. *)
Theorem extractor_never_raises :
  (forall resp : pyval,
     exists r, extract_text_from_gemini_response resp = Return r
               /\ match r with
                  | Some s => s <> [] /\ trimmed s
                  | None => True
                  end)
  /\ (forall resp e, extract_body resp = Raise e ->
        extract_text_from_gemini_response resp = Return None)
  /\ (forall resp, ~ recognized_shape resp ->
        extract_text_from_gemini_response resp = Return None)
  /\ extract_text_from_gemini_response (VDict []) = Return None.
Proof.
  split; [|split; [|split]].
  - intros resp. destruct (extract_returns resp) as (r & Hr & Hb).
    exists r. split; [exact Hr|].
    destruct r as [s|]; [exact (extract_body_sound _ _ Hb)|exact I].
  - intros resp e H. unfold extract_text_from_gemini_response. rewrite H.
    reflexivity.
  - intros resp Hnot. destruct (extract_returns resp) as (r & Hr & Hb).
    destruct r as [s|]; [|exact Hr].
    exfalso. apply Hnot. exact (extract_body_recognized _ _ Hb).
  - reflexivity.
Qed.

Lemma extractor_never_raises_witness :
  extract_body response_with_failing_text
  = Raise (exception ValueError "the response has no parts")
  /\ extract_text_from_gemini_response response_with_failing_text = Return None
  /\ extract_text_from_gemini_response (VDict error_mapping) = Return None.
Proof.
  destruct extractor_never_raises as (_ & Hfault & Hshape & _).
  split; [reflexivity|]. split.
  - apply (Hfault response_with_failing_text
             (exception ValueError "the response has no parts")).
    reflexivity.
  - apply (Hshape (VDict error_mapping)).
    intros [(s & val & Hg & _)
           | [(d & k & s & Heq & Hin & v & Hk & _)
             | [(d & k & first & rest & Heq & Hin & Hseq & _)
               | (c & first & rest & a & s & Hg & _)]]].
    + discriminate Hg.
    + injection Heq as <-.
      destruct Hin as [<- | [<- | []]]; vm_compute in Hk; discriminate Hk.
    + injection Heq as <-.
      destruct Hin as [<- | [<- | [<- | []]]]; vm_compute in Hseq;
        discriminate Hseq.
    + discriminate Hg.
Defined.

(** *** The order of the probes *)









Lemma dict_has_no_attribute (d : pydict) (name : pystr) :
  hasattr (VDict d) name = Return false.
Proof. reflexivity. Qed.







(** ** The organization resolver *)

Lemma split_on_nonempty (sep : pychar) (s : pystr) : split_on sep s <> [].
Proof.
  induction s as [|c t IH]; simpl; [discriminate|].
  destruct (c =? sep)%N; [discriminate|].
  destruct (split_on sep t); discriminate.
Qed.

Lemma join_split_on (sep : pychar) (s : pystr) : join sep (split_on sep s) = s.
Proof.
  induction s as [|c t IH]; simpl; [reflexivity|].
  destruct (N.eqb_spec c sep) as [->|Hne].
  - pose proof (split_on_nonempty sep t) as Hn.
    destruct (split_on sep t) as [|p ps]; [contradiction|].
    simpl in *. rewrite IH. reflexivity.
  - pose proof (split_on_nonempty sep t) as Hn.
    destruct (split_on sep t) as [|p ps]; [contradiction|].
    destruct ps as [|p' ps']; simpl in *; rewrite <- IH; reflexivity.
Qed.

Lemma split_on_parts_free (sep : pychar) (s : pystr) :
  Forall (fun p => ~ In sep p) (split_on sep s).
Proof.
  induction s as [|c t IH]; simpl.
  - constructor; [intros []|constructor].
  - destruct (N.eqb_spec c sep) as [->|Hne].
    + constructor; [intros []|exact IH].
    + destruct (split_on sep t) as [|p ps].
      * constructor; [|constructor]. intros [H|[]]. congruence.
      * inversion IH as [|? ? Hp Hps]; subst. constructor; [|exact Hps].
        intros [H|H]; [congruence|exact (Hp H)].
Qed.

Lemma join_snoc (sep : pychar) (init : list pystr) (p : pystr) :
  join sep (init ++ [p]) = p
  \/ exists q, join sep (init ++ [p]) = q ++ [sep] ++ p.
Proof.
  induction init as [|a init IH]; [left; reflexivity|].
  right. simpl.
  destruct (init ++ [p]) as [|b l] eqn:Hl.
  { destruct init; discriminate. }
  destruct IH as [IH | (q & IH)].
  - exists a. rewrite IH. reflexivity.
  - exists (a ++ sep :: q). rewrite IH, <- app_assoc. reflexivity.
Qed.

Lemma last_segment_of_text (s : pystr) :
  exists p, last_segment (VStr s) = Return p /\ after_last_colon s p.
Proof.
  unfold last_segment.
  pose proof (join_split_on 58%N s) as Hj.
  pose proof (split_on_parts_free 58%N s) as Hf.
  pose proof (split_on_nonempty 58%N s) as Hn.
  destruct (split_on 58%N s) as [|a l] using rev_ind; [contradiction|].
  clear IHl. rewrite last_snoc. exists a. split; [reflexivity|].
  split.
  - apply Forall_app in Hf. destruct Hf as [_ Hf]. inversion Hf; assumption.
  - rewrite <- Hj. destruct (join_snoc 58%N l a) as [H | (q & H)].
    + left. exact H.
    + right. exists q. exact H.
Qed.

Lemma scan_element_target (el : pydict) (rest : list pyval) :
  scan_elements (VDict el :: rest)
  = if truthy (org_target el)
    then p ← last_segment (org_target el); Return (Some p)
    else scan_elements rest.
Proof.
  cbn [scan_elements method_get mbind outcome_bind].
  unfold org_target, py_or.
  destruct (truthy (dict_get el (py "organizationalTarget"))) eqn:Ha;
    cbn [mbind outcome_bind]; [rewrite Ha|]; reflexivity.
Qed.

Lemma scan_skips (skipped : list pydict) (rest : list pyval) :
  Forall (fun el => truthy (org_target el) = false) skipped ->
  scan_elements (map VDict skipped ++ rest) = scan_elements rest.
Proof.
  induction 1 as [|el l Hel _ IH]; [reflexivity|].
  cbn [map app]. rewrite scan_element_target, Hel. exact IH.
Qed.

Lemma org_id_of_successful_response (resp : http_response) (d : pydict)
    (els : list pyval) :
  200 <= status_code resp < 300 ->
  resp_json resp = Some (VDict d) ->
  assoc (py "elements") d = Some (VList els)
  \/ (assoc (py "elements") d = None /\ els = []) ->
  org_id_of_response resp = scan_elements els.
Proof.
  intros Hst Hj Hel. unfold org_id_of_response, raise_for_status.
  destruct (Z.leb_spec 400 (status_code resp)); [lia|].
  cbn [andb mbind outcome_bind]. unfold response_json. rewrite Hj.
  cbn [mbind outcome_bind get_elements].
  destruct Hel as [-> | [-> ->]]; reflexivity.
Qed.

(** C8.  For a successful answer (status 2xx, a JSON object whose
    "elements", when present, is a list of objects) the resolver issues
    one GET and scans the elements in order: at the first element whose
    "organizationalTarget" (or else "organizationalTarget~") value is
    true, a string, it returns what follows the last colon of that
    string; when no element has a true value there, and in particular
    when the list is empty or missing, it returns absence and does not
    raise. *)
Theorem resolver_first_target (E : env) (headers : header_set) (w : world)
    (resp : http_response) (d : pydict) (els : list pyval) :
  requests_get E ORGS_ENDPOINT headers = Return resp ->
  200 <= status_code resp < 300 ->
  resp_json resp = Some (VDict d) ->
  assoc (py "elements") d = Some (VList els)
  \/ (assoc (py "elements") d = None /\ els = []) ->
  (get_linkedin_org_id E headers w).2
  = mk_world (session w) (files w) (trace w ++ [EvGet ORGS_ENDPOINT headers 10])
  /\ (forall skipped el rest s,
        els = map VDict skipped ++ VDict el :: rest ->
        Forall (fun e => truthy (org_target e) = false) skipped ->
        org_target el = VStr s -> s <> [] ->
        exists p, (get_linkedin_org_id E headers w).1 = Return (Some p)
                  /\ after_last_colon s p)
  /\ (forall dicts,
        els = map VDict dicts ->
        Forall (fun e => truthy (org_target e) = false) dicts ->
        (get_linkedin_org_id E headers w).1 = Return None).
Proof.
  intros Hget Hst Hj Hel.
  pose proof (org_id_of_successful_response resp d els Hst Hj Hel) as Hscan.
  assert (Hrun : get_linkedin_org_id E headers w
                 = (scan_elements els,
                    mk_world (session w) (files w)
                             (trace w ++ [EvGet ORGS_ENDPOINT headers 10]))).
  { unfold get_linkedin_org_id, mbind, prog_bind, emit, lift.
    rewrite Hget, Hscan. reflexivity. }
  rewrite Hrun. cbn [fst snd]. split; [reflexivity|]. split.
  - intros skipped el rest s -> Hskip Htarget Hne.
    rewrite (scan_skips _ _ Hskip), scan_element_target, Htarget.
    apply str_truthy_nonempty in Hne. cbn [truthy]. rewrite Hne.
    destruct (last_segment_of_text s) as (p & Hp & Hafter).
    exists p. rewrite Hp. split; [reflexivity|exact Hafter].
  - intros dicts -> Hall.
    rewrite <- (app_nil_r (map VDict dicts)), (scan_skips _ _ Hall).
    reflexivity.
Qed.

Lemma resolver_first_target_witness :
  exists p,
    (get_linkedin_org_id (env_answering acl_response)
       (bearer_headers (py "token")) fresh_world).1 = Return (Some p)
    /\ after_last_colon (py "urn:li:organization:12345") p.
Proof.
  destruct (resolver_first_target (env_answering acl_response)
              (bearer_headers (py "token")) fresh_world acl_response acl_body
              [VDict element_without_target; VDict element_with_target])
    as (_ & Hfirst & _).
  - reflexivity.
  - simpl. lia.
  - reflexivity.
  - left. reflexivity.
  - apply (Hfirst [element_without_target] element_with_target []
             (py "urn:li:organization:12345")).
    + reflexivity.
    + constructor; [reflexivity|constructor].
    + reflexivity.
    + discriminate.
Defined.

(** ** The generation client *)

Lemma attempt_generation_fails (E : env) (prompt model : pystr) (k : Z)
    (e : exn) (w : world) :
  attempt_fails_with E prompt model k e ->
  attempt_generation E prompt model k w
  = (Raise e, record_events w [EvGenerate model prompt k]).
Proof.
  unfold attempt_generation, mbind, prog_bind, emit, lift, record_events.
  intros [H | (resp & H & Hx & ->)]; rewrite H; [reflexivity|].
  rewrite Hx. reflexivity.
Qed.

Lemma attempt_generation_succeeds (E : env) (prompt model : pystr) (k : Z)
    (t : pystr) (w : world) :
  attempt_succeeds E prompt model k t ->
  attempt_generation E prompt model k w
  = (Return t, record_events w [EvGenerate model prompt k]).
Proof.
  unfold attempt_generation, mbind, prog_bind, emit, lift, record_events.
  intros (resp & H & Hx). rewrite H, Hx.
  destruct (extract_some_sound _ _ Hx) as [Hne _].
  apply str_truthy_nonempty in Hne. rewrite Hne. reflexivity.
Qed.

Lemma retry_loop_step (E : env) (prompt model : pystr) (max_retries attempt : Z) :
  attempt <= max_retries ->
  retry_loop E prompt model max_retries attempt
  = try_except (attempt_generation E prompt model (attempt + 1))
      (fun exc =>
         if attempt + 1 >? max_retries then raise exc
         else (emit (EvSleep (attempt + 1));;
               retry_loop E prompt model max_retries (attempt + 1))).
Proof.
  intros H. rewrite retry_loop_equation_1.
  destruct (decide (attempt <= max_retries)) as [Hle|Hgt]; [|contradiction].
  rewrite retry_loop_clause_1_equation_1. reflexivity.
Qed.

Lemma record_events_app (w : world) (evs evs' : list event) :
  record_events (record_events w evs) evs' = record_events w (evs ++ evs').
Proof. unfold record_events. simpl. rewrite <- app_assoc. reflexivity. Qed.

Lemma retry_loop_succeeds (E : env) (prompt model : pystr) (max_retries : Z)
    (t : pystr) (n : nat) :
  forall (attempt : Z) (w : world),
    attempt + Z.of_nat n <= max_retries ->
    (forall k, attempt < k <= attempt + Z.of_nat n ->
               exists e, attempt_fails_with E prompt model k e) ->
    attempt_succeeds E prompt model (attempt + Z.of_nat n + 1) t ->
    retry_loop E prompt model max_retries attempt w
    = (Return t,
       record_events w (retry_events model prompt attempt n
                        ++ [EvGenerate model prompt (attempt + Z.of_nat n + 1)])).
Proof.
  induction n as [|n IH]; intros attempt w Hle Hfail Hok.
  - rewrite retry_loop_step by lia. unfold try_except.
    replace (attempt + Z.of_nat 0 + 1) with (attempt + 1) in * by lia.
    rewrite (attempt_generation_succeeds _ _ _ _ _ _ Hok). reflexivity.
  - rewrite retry_loop_step by lia. unfold try_except.
    destruct (Hfail (attempt + 1)) as [e He]; [lia|].
    rewrite (attempt_generation_fails _ _ _ _ _ _ He).
    destruct (Z.gtb_spec (attempt + 1) max_retries) as [Hgt|_]; [lia|].
    unfold mbind, prog_bind, emit.
    rewrite (IH (attempt + 1)).
    + unfold record_events. cbn [session files trace retry_events].
      repeat rewrite <- app_assoc. cbn [app].
      replace (attempt + 1 + Z.of_nat n + 1) with (attempt + Z.of_nat (S n) + 1)
        by lia.
      reflexivity.
    + lia.
    + intros k Hk. apply Hfail. lia.
    + replace (attempt + 1 + Z.of_nat n + 1) with (attempt + Z.of_nat (S n) + 1)
        by lia.
      exact Hok.
Qed.

Lemma retry_loop_exhausts (E : env) (prompt model : pystr) (max_retries : Z)
    (e : exn) (n : nat) :
  forall (attempt : Z) (w : world),
    attempt + Z.of_nat n = max_retries ->
    (forall k, attempt < k <= max_retries ->
               exists e', attempt_fails_with E prompt model k e') ->
    attempt_fails_with E prompt model (max_retries + 1) e ->
    retry_loop E prompt model max_retries attempt w
    = (Raise e,
       record_events w (retry_events model prompt attempt n
                        ++ [EvGenerate model prompt (max_retries + 1)])).
Proof.
  induction n as [|n IH]; intros attempt w Heq Hfail Hlast.
  - rewrite retry_loop_step by lia. unfold try_except.
    replace (attempt + 1) with (max_retries + 1) by lia.
    rewrite (attempt_generation_fails _ _ _ _ _ _ Hlast).
    destruct (Z.gtb_spec (max_retries + 1) max_retries) as [_|Hle]; [|lia].
    reflexivity.
  - rewrite retry_loop_step by lia. unfold try_except.
    destruct (Hfail (attempt + 1)) as [e' He']; [lia|].
    rewrite (attempt_generation_fails _ _ _ _ _ _ He').
    destruct (Z.gtb_spec (attempt + 1) max_retries) as [Hgt|_]; [lia|].
    unfold mbind, prog_bind, emit.
    rewrite (IH (attempt + 1)).
    + unfold record_events. cbn [session files trace retry_events].
      repeat rewrite <- app_assoc. reflexivity.
    + lia.
    + intros k Hk. apply Hfail. lia.
    + exact Hlast.
Qed.

Lemma count_attempts_app (evs evs' : list event) :
  count_attempts (evs ++ evs') = count_attempts evs + count_attempts evs'.
Proof.
  induction evs as [|ev evs IH]; [reflexivity|].
  destruct ev; simpl; rewrite ?IH; lia.
Qed.

Lemma count_attempts_retries (model prompt : pystr) (n : nat) :
  forall start, count_attempts (retry_events model prompt start n) = Z.of_nat n.
Proof.
  induction n as [|n IH]; intros start; [reflexivity|].
  cbn [retry_events count_attempts]. rewrite IH. lia.
Qed.

Lemma count_attempts_configure (api_key : option pystr) :
  count_attempts (configure_events api_key) = 0.
Proof. destruct api_key as [k|]; [destruct k|]; reflexivity. Qed.

Lemma sleeps_of_app (evs evs' : list event) :
  sleeps_of (evs ++ evs') = sleeps_of evs ++ sleeps_of evs'.
Proof.
  induction evs as [|ev evs IH]; [reflexivity|].
  destruct ev; simpl; rewrite ?IH; reflexivity.
Qed.

Lemma sleeps_of_retries (model prompt : pystr) (n : nat) :
  forall start,
    sleeps_of (retry_events model prompt start n)
    = map (fun i => start + Z.of_nat i) (seq 1 n).
Proof.
  induction n as [|n IH]; intros start; [reflexivity|].
  cbn [retry_events sleeps_of]. rewrite IH.
  change (seq 1 (S n)) with (1%nat :: seq 2 n). cbn [map].
  f_equal.
  rewrite <- (List.seq_shift n 1), List.map_map. apply List.map_ext.
  intros i. lia.
Qed.

Lemma sleeps_of_configure (api_key : option pystr) :
  sleeps_of (configure_events api_key) = [].
Proof. destruct api_key as [k|]; [destruct k|]; reflexivity. Qed.

Lemma generate_article_with_gemini_loop (E : env) (prompt model : pystr)
    (api_key : option pystr) (max_retries : Z) (w : world) :
  GENAI_AVAILABLE E = true ->
  generate_article_with_gemini E prompt model api_key max_retries w
  = retry_loop E prompt model max_retries 0
      (record_events w (configure_events api_key)).
Proof.
  intros Hav. unfold generate_article_with_gemini, configure_gemini_session.
  rewrite Hav. cbn [negb]. unfold mbind, prog_bind, record_events.
  destruct api_key as [k|]; [destruct (str_truthy k) eqn:Hk|];
    cbn [configure_events]; rewrite ?Hk;
    unfold emit, mret, prog_ret; cbn [session files trace];
    rewrite ?app_nil_r; destruct w; reflexivity.
Qed.

(** C4.  With the client library present and a retry budget
    [max_retries >= 0]: (1) if the first [N <= max_retries] attempts fail
    and attempt [N + 1] succeeds, the client returns the text extracted
    on that attempt, having slept [k] seconds after each failed attempt
    [k]; (2) if every attempt fails, where an answer from which no text
    is extracted counts as a failure, the client raises the error of
    attempt [max_retries + 1] after exactly [max_retries + 1] attempts,
    having slept [k] seconds after each attempt [k <= max_retries] and
    not after the last. *)
Theorem generation_retry_budget (E : env) (prompt model : pystr)
    (api_key : option pystr) (max_retries : Z) (w : world) :
  GENAI_AVAILABLE E = true ->
  0 <= max_retries ->
  (forall (N : nat) (t : pystr),
     Z.of_nat N <= max_retries ->
     (forall k, 1 <= k <= Z.of_nat N ->
                exists e, attempt_fails_with E prompt model k e) ->
     attempt_succeeds E prompt model (Z.of_nat N + 1) t ->
     exists evs,
       generate_article_with_gemini E prompt model api_key max_retries w
       = (Return t, record_events w evs)
       /\ evs = configure_events api_key ++ retry_events model prompt 0 N
                ++ [EvGenerate model prompt (Z.of_nat N + 1)]
       /\ count_attempts evs = Z.of_nat N + 1
       /\ sleeps_of evs = map Z.of_nat (seq 1 N))
  /\ ((forall k, 1 <= k <= max_retries + 1 ->
                 exists e, attempt_fails_with E prompt model k e) ->
      exists e evs,
        attempt_fails_with E prompt model (max_retries + 1) e
        /\ generate_article_with_gemini E prompt model api_key max_retries w
           = (Raise e, record_events w evs)
        /\ evs = configure_events api_key
                 ++ retry_events model prompt 0 (Z.to_nat max_retries)
                 ++ [EvGenerate model prompt (max_retries + 1)]
        /\ count_attempts evs = max_retries + 1
        /\ sleeps_of evs = map Z.of_nat (seq 1 (Z.to_nat max_retries))).
Proof.
  intros Hav Hmr. split.
  - intros N t HN Hfail Hok. eexists. split; [|split; [reflexivity|]].
    + rewrite (generate_article_with_gemini_loop _ _ _ _ _ _ Hav).
      rewrite (retry_loop_succeeds E prompt model max_retries t N 0).
      * rewrite record_events_app. reflexivity.
      * lia.
      * intros k Hk. apply Hfail. lia.
      * exact Hok.
    + split.
      * rewrite !count_attempts_app, count_attempts_configure,
          count_attempts_retries. cbn [count_attempts]. lia.
      * rewrite !sleeps_of_app, sleeps_of_configure, sleeps_of_retries.
        cbn [sleeps_of app]. rewrite app_nil_r. reflexivity.
  - intros Hfail.
    destruct (Hfail (max_retries + 1)) as [e He]; [lia|].
    exists e. eexists. split; [exact He|]. split; [|split; [reflexivity|]].
    + rewrite (generate_article_with_gemini_loop _ _ _ _ _ _ Hav).
      rewrite (retry_loop_exhausts E prompt model max_retries e
                 (Z.to_nat max_retries) 0).
      * rewrite record_events_app. reflexivity.
      * lia.
      * intros k Hk. apply Hfail. lia.
      * exact He.
    + split.
      * rewrite !count_attempts_app, count_attempts_configure,
          count_attempts_retries. cbn [count_attempts]. lia.
      * rewrite !sleeps_of_app, sleeps_of_configure, sleeps_of_retries.
        cbn [sleeps_of app]. rewrite app_nil_r. reflexivity.
Qed.

Lemma generation_retry_budget_witness :
  (exists evs,
     generate_article_with_gemini env_flaky (py "X") DEFAULT_MODEL
       (Some (py "key")) 2 fresh_world
     = (Return (py "Hello"), record_events fresh_world evs)
     /\ count_attempts evs = 3
     /\ sleeps_of evs = [1; 2])
  /\ (exists e evs,
        generate_article_with_gemini env_down (py "X") DEFAULT_MODEL
          (Some (py "key")) 2 fresh_world
        = (Raise e, record_events fresh_world evs)
        /\ count_attempts evs = 3
        /\ sleeps_of evs = [1; 2]).
Proof.
  split.
  - destruct (generation_retry_budget env_flaky (py "X") DEFAULT_MODEL
                (Some (py "key")) 2 fresh_world eq_refl) as [Hok _]; [lia|].
    destruct (Hok 2%nat (py "Hello")) as (evs & Hrun & _ & Hcount & Hsleep).
    + simpl. lia.
    + intros k Hk. eexists. left. simpl.
      destruct (Z.ltb_spec k 3) as [_|Hge]; [reflexivity|simpl in Hk; lia].
    + eexists. split; reflexivity.
    + exists evs. auto.
  - destruct (generation_retry_budget env_down (py "X") DEFAULT_MODEL
                (Some (py "key")) 2 fresh_world eq_refl) as [_ Hall]; [lia|].
    destruct Hall as (e & evs & _ & Hrun & _ & Hcount & Hsleep).
    + intros k Hk. eexists. left. reflexivity.
    + exists e, evs. auto.
Defined.

(** ** The handlers *)

Ltac simp_world :=
  cbn [session files trace generated_article logs gemini_key linkedin_key
       fst snd negb andb str_truthy str_or].

Ltac run_prog :=
  unfold generate_handler, publish_handler, generate_with_backend,
    generate_without_backend, save_article, publish_with_backend,
    publish_directly, resolve_org_id, report_publish_error, write_file,
    store_file, append_log, set_generated_article, set_gemini_key,
    set_linkedin_key, put_session, get_session, except_TypeError, try_except,
    emit, lift, raise, mbind, mret, prog_bind, prog_ret;
  simp_world.

Lemma publish_handler_no_article (E : env) (ui : widgets) (w : world) :
  generated_article (session w) = [] ->
  publish_handler E ui w
  = (Return tt,
     mk_world
       (mk_session [] (logs (session w)
                       ++ [py "[info] Publishing started..."]
                       ++ [py "[warn] No generated article found. Generate first."])
          (gemini_key (session w)) (linkedin_key (session w)))
       (files w) (trace w)).
Proof.
  destruct w as [[article lg gk lk] fs tr]. simp_world.
  intros ->. run_prog. rewrite <- app_assoc. reflexivity.
Qed.

Lemma publish_handler_no_key (E : env) (ui : widgets) (w : world) :
  generated_article (session w) <> [] ->
  str_or (ui_linkedin_key ui) (linkedin_key (session w)) = [] ->
  publish_handler E ui w
  = (Return tt,
     mk_world
       (mk_session (generated_article (session w))
          (logs (session w)
           ++ [py "[info] Publishing started..."]
           ++ [py "[error] LinkedIn API key missing. Provide token in API Keys field."])
          (gemini_key (session w)) [])
       (files w) (trace w)).
Proof.
  destruct w as [[article lg gk lk] fs tr]. simp_world.
  intros Hart Hkey. destruct article as [|c t]; [contradiction|].
  run_prog. rewrite Hkey. simp_world. rewrite <- app_assoc. reflexivity.
Qed.

(** C7.  Without a generated article in the session the publish handler
    appends its refusal line to the log and does nothing else: no
    backend entry point, no resolver, no request.  With an article but
    an empty platform key (none typed in, none held in the session) it
    appends the missing-key error line and does nothing else. *)
Theorem publish_refusals (E : env) (ui : widgets) (w : world) :
  (generated_article (session w) = [] ->
   publish_handler E ui w
   = (Return tt,
      mk_world
        (mk_session [] (logs (session w)
                        ++ [py "[info] Publishing started..."]
                        ++ [py "[warn] No generated article found. Generate first."])
           (gemini_key (session w)) (linkedin_key (session w)))
        (files w) (trace w)))
  /\ (generated_article (session w) <> [] ->
      ui_linkedin_key ui = [] -> linkedin_key (session w) = [] ->
      publish_handler E ui w
      = (Return tt,
         mk_world
           (mk_session (generated_article (session w))
              (logs (session w)
               ++ [py "[info] Publishing started..."]
               ++ [py "[error] LinkedIn API key missing. Provide token in API Keys field."])
              (gemini_key (session w)) [])
           (files w) (trace w))).
Proof.
  split.
  - apply publish_handler_no_article.
  - intros Hart Hui Hlk. apply publish_handler_no_key; [exact Hart|].
    rewrite Hui, Hlk. reflexivity.
Qed.

Lemma publish_refusals_witness :
  trace (publish_handler env_shipped ui_prompt_X fresh_world).2 = []
  /\ trace (publish_handler env_shipped ui_prompt_X world_with_article).2 = [].
Proof.
  destruct (publish_refusals env_shipped ui_prompt_X fresh_world) as [H1 _].
  destruct (publish_refusals env_shipped ui_prompt_X world_with_article)
    as [_ H2].
  split.
  - rewrite (H1 eq_refl). reflexivity.
  - rewrite H2; [reflexivity|discriminate|reflexivity|reflexivity].
Defined.

(** C10, as the code has it.  When the backend module has a generation
    entry point and its call with the key as a named argument raises an
    exception that is not a [TypeError] (every [TypeError], whatever
    raised it, is answered with a second call without the key), the
    generate handler catches it: it returns
    normally, the log gains the error line built from the exception, the
    only outside call made is that one backend call (no file is opened),
    and the article held in the session and the files on disk are what
    they were. *)
Theorem backend_failure_keeps_article (E : env) (ui : widgets) (w : world)
    (entry : generate_entry) (e : exn) :
  BACKEND_MODULE E = true ->
  backend_generate_article E = Some entry ->
  generate_keyed entry (ui_prompt ui) (ui_model ui)
    (str_or (ui_gemini_key ui) (gemini_key (session w))) = Raise e ->
  is_TypeError e = false ->
  generate_handler E ui w
  = (Return tt,
     mk_world
       (mk_session
          (generated_article (session w))
          (logs (session w)
           ++ [py "[info] Generation started..."]
           ++ [py "[info] Using external backend module for generation."]
           ++ [py "[error] Generation failed: " ++ exn_str e])
          (str_or (ui_gemini_key ui) (gemini_key (session w)))
          (str_or (ui_linkedin_key ui) (linkedin_key (session w))))
       (files w)
       (trace w ++ [EvBackendGenerate (ui_prompt ui) (ui_model ui)
                      (Some (str_or (ui_gemini_key ui) (gemini_key (session w))))])).
Proof.
  intros Hmod Hentry Hcall Hcls.
  destruct w as [[article lg gk lk] fs tr]. simp_world.
  cbn [session gemini_key] in Hcall.
  run_prog. rewrite Hmod, Hentry. run_prog. rewrite Hcall, Hcls.
  simp_world. rewrite <- !app_assoc. reflexivity.
Qed.

Lemma backend_failure_keeps_article_witness :
  generated_article (session (generate_handler env_failing_backend ui_saving
                                world_with_article).2) = py "Hello world"
  /\ files (generate_handler env_failing_backend ui_saving world_with_article).2
     = files world_with_article.
Proof.
  rewrite (backend_failure_keeps_article env_failing_backend ui_saving
             world_with_article failing_entry
             (exception RuntimeError "quota exceeded")
             eq_refl eq_refl eq_refl eq_refl).
  split; reflexivity.
Defined.

(** C10 as stated fails.  A [TypeError] that is not a signature
    mismatch, raised inside an entry point that accepts the key, is
    answered like one: the entry point is called again without the key,
    and the text of that call replaces the article held in the session
    and the content of the save file. *)
Lemma backend_type_error_overwrites_article :
  generate_keyed body_fault_entry (py "X") DEFAULT_MODEL (py "key")
  = Raise (exception TypeError "unsupported operand type(s) for +: 'int' and 'str'")
  /\ generated_article (session world_with_article) = py "Hello world"
  /\ files world_with_article !! py "article.txt" = Some (py "Hello world")
  /\ generated_article
       (session (generate_handler env_body_fault ui_saving_with_key
                   world_with_article).2)
     = py "Article about X"
  /\ files (generate_handler env_body_fault ui_saving_with_key
              world_with_article).2 !! py "article.txt"
     = Some (py "Article about X")
  /\ ~ (generated_article
         (session (generate_handler env_body_fault ui_saving_with_key
                     world_with_article).2)
       = generated_article (session world_with_article)
       /\ files (generate_handler env_body_fault ui_saving_with_key
                   world_with_article).2
          = files world_with_article).
Proof.
  split; [reflexivity|]. split; [reflexivity|].
  split; [vm_compute; reflexivity|].
  split; [vm_compute; reflexivity|].
  split; [vm_compute; reflexivity|].
  intros [H _]. vm_compute in H. discriminate H.
Qed.

Lemma generate_handler_mock (E : env) (ui : widgets) (w : world) :
  GENAI_AVAILABLE E = false ->
  BACKEND_MODULE E = false \/ backend_generate_article E = None ->
  generated_article (session (generate_handler E ui w).2)
  = mock_generation (ui_prompt ui).
Proof.
  intros Hgen Hback.
  destruct w as [[article lg gk lk] fs tr].
  assert (Hbranch :
    match BACKEND_MODULE E, backend_generate_article E with
    | true, Some entry => generate_with_backend ui entry
    | _, _ => generate_without_backend E ui
    end = generate_without_backend E ui).
  { destruct Hback as [-> | ->]; [reflexivity|].
    destruct (BACKEND_MODULE E); reflexivity. }
  unfold generate_handler. rewrite Hbranch. run_prog. rewrite Hgen. simp_world.
  destruct (ui_save_path ui) as [|c path]; simp_world; [reflexivity|].
  destruct (open_write E (c :: path) (mock_generation (ui_prompt ui)));
    reflexivity.
Qed.

Lemma generate_handler_backend (E : env) (ui : widgets) (w : world)
    (entry : generate_entry) (article : pystr) :
  BACKEND_MODULE E = true ->
  backend_generate_article E = Some entry ->
  generate_keyed entry (ui_prompt ui) (ui_model ui)
    (str_or (ui_gemini_key ui) (gemini_key (session w))) = Return article ->
  generated_article (session (generate_handler E ui w).2) = article.
Proof.
  intros Hmod Hentry Hcall.
  destruct w as [[art lg gk lk] fs tr]. cbn [session gemini_key] in Hcall.
  run_prog. rewrite Hmod, Hentry. run_prog. rewrite Hcall. simp_world.
  destruct (ui_save_path ui) as [|c path]; simp_world; [reflexivity|].
  match goal with
  | |- context [open_write E ?p ?a] => destruct (open_write E p a)
  end; reflexivity.
Qed.

(** C9, as the code has it.  With the generation client library
    unavailable: when no backend module with a generation entry point
    is registered, the generated article is ["# Prompt\n" ++ prompt ++
    "\n\n"] followed by the fixed placeholder article, for every
    prompt; when a backend module with a generation entry point is
    registered, the handler asks it first and the generated article is
    what that entry point returns, which for the module of the
    repository is ["# Prompt\n" ++ prompt ++ "\n\n"] followed by the
    placeholder sentence of that module. *)
Theorem generated_text_without_client (E : env) (ui : widgets) (w : world) :
  GENAI_AVAILABLE E = false ->
  (BACKEND_MODULE E = false \/ backend_generate_article E = None ->
   generated_article (session (generate_handler E ui w).2)
   = py "# Prompt" ++ nl ++ ui_prompt ui ++ nl ++ nl ++ MOCK_ARTICLE)
  /\ (forall entry article,
        BACKEND_MODULE E = true ->
        backend_generate_article E = Some entry ->
        generate_keyed entry (ui_prompt ui) (ui_model ui)
          (str_or (ui_gemini_key ui) (gemini_key (session w))) = Return article ->
        generated_article (session (generate_handler E ui w).2) = article)
  /\ (BACKEND_MODULE E = true ->
      backend_generate_article E = Some linkedin_poster_core.generate_entry_point ->
      generated_article (session (generate_handler E ui w).2)
      = py "# Prompt" ++ nl ++ ui_prompt ui ++ nl ++ nl
        ++ py "Generated article placeholder. Replace with a real generator.").
Proof.
  intros Hgen. split; [|split].
  - intros Hback. rewrite (generate_handler_mock E ui w Hgen Hback).
    unfold mock_generation. rewrite <- !app_assoc. reflexivity.
  - intros entry article. apply generate_handler_backend.
  - intros Hmod Hentry.
    apply (generate_handler_backend E ui w _ _ Hmod Hentry). reflexivity.
Qed.

Lemma generated_text_without_client_witness :
  generated_article (session (generate_handler bare_env ui_prompt_X fresh_world).2)
  = py "# Prompt" ++ nl ++ py "X" ++ nl ++ nl ++ MOCK_ARTICLE.
Proof.
  destruct (generated_text_without_client bare_env ui_prompt_X fresh_world eq_refl)
    as [Hmock _].
  apply Hmock. left. reflexivity.
Defined.

(** C9 as stated fails.  In the repository as shipped, with prompt "X",
    no generation key and no client library, the backend module is found
    and asked first, and the generated article is its placeholder, not
    the fixed placeholder article of the application.  With a backend
    module of the user's own the generated article is that module's
    text and does not begin with the prompt header at all. *)
Lemma generated_text_uses_backend_module :
  ui_gemini_key ui_prompt_X = []
  /\ gemini_key (session fresh_world) = []
  /\ GENAI_AVAILABLE env_shipped = false
  /\ GENAI_AVAILABLE env_own_backend = false
  /\ generated_article (session (generate_handler env_shipped ui_prompt_X
                                   fresh_world).2)
     = py "# Prompt" ++ nl ++ py "X" ++ nl ++ nl
       ++ py "Generated article placeholder. Replace with a real generator."
  /\ generated_article (session (generate_handler env_shipped ui_prompt_X
                                   fresh_world).2)
     <> py "# Prompt" ++ nl ++ py "X" ++ nl ++ nl ++ MOCK_ARTICLE
  /\ generated_article (session (generate_handler env_own_backend ui_prompt_X
                                   fresh_world).2)
     = py "Quarterly results are in."
  /\ generated_article (session (generate_handler env_own_backend ui_prompt_X
                                   fresh_world).2)
     <> py "# Prompt" ++ nl ++ py "X" ++ nl ++ nl ++ MOCK_ARTICLE.
Proof.
  split; [reflexivity|]. split; [reflexivity|].
  split; [reflexivity|]. split; [reflexivity|].
  split; [vm_compute; reflexivity|].
  split; [vm_compute; discriminate|].
  split; [vm_compute; reflexivity|].
  vm_compute. discriminate.
Qed.

(** *** Invariants through the monad *)

Section Preservation.

Variable Inv : world -> Prop.

Lemma preserves_ret {A} (a : A) : preserves Inv (mret a).
Proof. intros w Hw. exact Hw. Qed.

Lemma preserves_raise {A} (e : exn) : preserves Inv (@raise A e).
Proof. intros w Hw. exact Hw. Qed.

Lemma preserves_lift {A} (r : outcome A) : preserves Inv (lift r).
Proof. intros w Hw. exact Hw. Qed.

Lemma preserves_bind {A B} (m : prog A) (f : A -> prog B) :
  preserves Inv m -> (forall a, preserves Inv (f a)) -> preserves Inv (m ≫= f).
Proof.
  intros Hm Hf w Hw. unfold mbind, prog_bind.
  specialize (Hm w Hw). destruct (m w) as [[a|e] w']; cbn [snd] in *.
  - exact (Hf a w' Hm).
  - exact Hm.
Qed.

Lemma preserves_get_session {B} (f : session_state -> prog B) :
  (forall w, Inv w -> Inv (f (session w) w).2) -> preserves Inv (get_session ≫= f).
Proof. intros Hf w Hw. exact (Hf w Hw). Qed.

Lemma preserves_with_session {B} (f : session_state -> prog B) :
  (forall s, preserves Inv (f s)) -> preserves Inv (get_session ≫= f).
Proof. intros Hf w Hw. exact (Hf (session w) w Hw). Qed.

Lemma preserves_try_except {A} (m : prog A) (h : exn -> prog A) :
  preserves Inv m -> (forall e, preserves Inv (h e)) -> preserves Inv (try_except m h).
Proof.
  intros Hm Hh w Hw. unfold try_except.
  specialize (Hm w Hw). destruct (m w) as [[a|e] w']; cbn [snd] in *.
  - exact Hm.
  - exact (Hh e w' Hm).
Qed.

Lemma preserves_except_TypeError {A} (m h : prog A) :
  preserves Inv m -> preserves Inv h -> preserves Inv (except_TypeError m h).
Proof.
  intros Hm Hh. apply preserves_try_except; [exact Hm|].
  intros e. destruct (is_TypeError e); [exact Hh|apply preserves_raise].
Qed.

End Preservation.

Lemma guard_inv_refl (ui : widgets) (w : world) : guard_inv ui w w.
Proof.
  split; [reflexivity|]. exists []. rewrite app_nil_r. split; [reflexivity|constructor].
Qed.

Lemma guard_append_log (ui : widgets) (w0 : world) (msg : pystr) :
  preserves (guard_inv ui w0) (append_log msg).
Proof. intros w Hw. exact Hw. Qed.

Lemma guard_emit (ui : widgets) (w0 : world) (ev : event) :
  live_post_guarded ui (linkedin_key (session w0)) ev ->
  preserves (guard_inv ui w0) (emit ev).
Proof.
  intros Hev w [Hk (evs & Ht & Hall)]. split; [exact Hk|].
  exists (evs ++ [ev]). cbn [emit snd trace]. rewrite Ht, <- app_assoc.
  split; [reflexivity|]. apply Forall_app. split; [exact Hall|].
  constructor; [exact Hev|constructor].
Qed.

Lemma guard_get_linkedin_org_id (E : env) (ui : widgets) (w0 : world)
    (headers : header_set) :
  preserves (guard_inv ui w0) (get_linkedin_org_id E headers).
Proof.
  unfold get_linkedin_org_id.
  apply preserves_bind; [apply guard_emit; exact I|]. intros _.
  apply preserves_bind; [apply preserves_lift|]. intros resp.
  apply preserves_lift.
Qed.

(** *** The guard on the live POST *)

Lemma assoc_head {V} (k : pystr) (v : V) (rest : list (pystr * V)) :
  assoc k ((k, v) :: rest) = Some v.
Proof.
  cbn [assoc]. unfold pystr_eqb. rewrite bool_decide_eq_true_2; reflexivity.
Qed.

Lemma guard_post_to_linkedin_api (E : env) (ui : widgets) (w0 : world)
    (payload : pyval) (timeout : Z) :
  ui_dry_run ui = false ->
  preserves (guard_inv ui w0)
    (post_to_linkedin_api E payload (linkedin_key (session w0)) timeout).
Proof.
  intros Hlive. unfold post_to_linkedin_api.
  apply preserves_bind.
  { apply guard_emit. cbn [live_post_guarded].
    split; [exact Hlive|]. split; [reflexivity|]. apply assoc_head. }
  intros _. apply preserves_bind; [apply preserves_lift|]. intros resp.
  apply preserves_bind; [apply preserves_lift|]. intros _.
  destruct (resp_json resp); apply preserves_ret.
Qed.

Lemma guard_publish_with_backend (E : env) (ui : widgets) (w0 : world)
    (entry : post_entry) (article : pystr) :
  preserves (guard_inv ui w0) (publish_with_backend E ui entry article).
Proof.
  unfold publish_with_backend.
  apply preserves_bind; [apply guard_append_log|]. intros _.
  apply preserves_with_session. intros s.
  apply preserves_bind.
  { apply preserves_except_TypeError.
    - apply preserves_bind; [apply guard_emit; exact I|]. intros _.
      apply preserves_lift.
    - apply preserves_bind; [apply guard_emit; exact I|]. intros _.
      apply preserves_lift. }
  intros response.
  apply preserves_bind; [apply guard_append_log|]. intros _.
  apply preserves_bind; [apply preserves_lift|]. intros dumped.
  apply preserves_bind; [apply guard_append_log|]. intros _.
  apply guard_emit. exact I.
Qed.

Lemma guard_resolve_org_id (E : env) (ui : widgets) (w0 : world)
    (headers : header_set) :
  preserves (guard_inv ui w0) (resolve_org_id E ui headers).
Proof.
  unfold resolve_org_id.
  destruct (str_truthy (ui_org_id_override ui)); [apply preserves_ret|].
  apply preserves_try_except.
  - apply preserves_bind; [apply guard_get_linkedin_org_id|].
    intros [org_id|]; [|apply preserves_raise].
    destruct (str_truthy org_id); [|apply preserves_raise].
    apply preserves_bind; [apply guard_append_log|]. intros _.
    apply preserves_ret.
  - intros e. apply preserves_bind; [apply guard_append_log|]. intros _.
    apply preserves_raise.
Qed.

Lemma guard_publish_directly (E : env) (ui : widgets) (w0 : world)
    (article : pystr) :
  preserves (guard_inv ui w0) (publish_directly E ui article).
Proof.
  unfold publish_directly.
  apply preserves_with_session. intros s.
  apply preserves_bind; [apply guard_resolve_org_id|]. intros org_id.
  destruct (ui_dry_run ui) eqn:Hdry.
  - apply preserves_bind; [apply guard_append_log|]. intros _.
    apply preserves_bind; [apply guard_append_log|]. intros _.
    apply guard_emit. exact I.
  - apply preserves_bind; [apply guard_append_log|]. intros _.
    apply preserves_get_session. intros w Hw.
    rewrite (proj1 Hw). revert w Hw.
    apply preserves_bind; [apply guard_post_to_linkedin_api; exact Hdry|].
    intros resp.
    apply preserves_bind; [apply guard_append_log|]. intros _.
    apply preserves_bind; [apply guard_append_log|]. intros _.
    apply guard_emit. exact I.
Qed.

Lemma guard_report_publish_error (ui : widgets) (w0 : world) (e : exn) :
  preserves (guard_inv ui w0) (report_publish_error e).
Proof.
  unfold report_publish_error.
  destruct (is_HTTPError e); apply guard_append_log.
Qed.

Lemma guard_publish_stage (E : env) (ui : widgets) (w0 : world)
    (article : pystr) :
  preserves (guard_inv ui w0)
    (try_except
       (match BACKEND_MODULE E, backend_post_to_linkedin E with
        | true, Some entry => publish_with_backend E ui entry article
        | _, _ => publish_directly E ui article
        end)
       report_publish_error).
Proof.
  apply preserves_try_except.
  - destruct (BACKEND_MODULE E), (backend_post_to_linkedin E);
      first [apply guard_publish_with_backend | apply guard_publish_directly].
  - intros e. apply guard_report_publish_error.
Qed.

Lemma publish_handler_passes (E : env) (ui : widgets) (w : world) :
  generated_article (session w) <> [] ->
  str_or (ui_linkedin_key ui) (linkedin_key (session w)) <> [] ->
  publish_handler E ui w
  = try_except
      (match BACKEND_MODULE E, backend_post_to_linkedin E with
       | true, Some entry =>
           publish_with_backend E ui entry (generated_article (session w))
       | _, _ => publish_directly E ui (generated_article (session w))
       end)
      report_publish_error
      (mk_world
         (mk_session (generated_article (session w))
            (logs (session w) ++ [py "[info] Publishing started..."])
            (gemini_key (session w))
            (str_or (ui_linkedin_key ui) (linkedin_key (session w))))
         (files w) (trace w)).
Proof.
  destruct w as [[article lg gk lk] fs tr]. simp_world. intros Hart Hkey.
  unfold publish_handler, append_log, set_linkedin_key, get_session,
    put_session, mbind, prog_bind.
  simp_world.
  destruct article as [|c article]; [contradiction|]. simp_world.
  destruct (str_or (ui_linkedin_key ui) lk) as [|k0 key]; [contradiction|].
  reflexivity.
Qed.

(** The publish handler either refuses, leaving the trace as it was, or
    passes both checks and then runs from a world whose platform key is
    not empty, through guarded calls only. *)
Lemma publish_handler_cases (E : env) (ui : widgets) (w : world) :
  trace (publish_handler E ui w).2 = trace w
  \/ exists w2,
       linkedin_key (session w2) <> []
       /\ trace w2 = trace w
       /\ guard_inv ui w2 (publish_handler E ui w).2.
Proof.
  destruct (generated_article (session w)) as [|c article] eqn:Hart.
  { left. rewrite (publish_handler_no_article E ui w Hart). reflexivity. }
  assert (Hart' : generated_article (session w) <> []) by (rewrite Hart; discriminate).
  destruct (str_or (ui_linkedin_key ui) (linkedin_key (session w)))
    as [|k0 key] eqn:Hkey.
  { left. rewrite (publish_handler_no_key E ui w Hart' Hkey). reflexivity. }
  assert (Hkey' : str_or (ui_linkedin_key ui) (linkedin_key (session w)) <> [])
    by (rewrite Hkey; discriminate).
  right. rewrite (publish_handler_passes E ui w Hart' Hkey').
  eexists. split; [|split]; [| |apply guard_publish_stage; apply guard_inv_refl].
  - simp_world. exact Hkey'.
  - reflexivity.
Qed.

Lemma publish_directly_dry_run (E : env) (ui : widgets) (w : world)
    (article org_id : pystr) :
  ui_dry_run ui = true ->
  resolved_org E ui (linkedin_key (session w)) org_id ->
  exists earlier,
    logs (session (publish_directly E ui article w).2)
    = logs (session w) ++ earlier
      ++ dry_run_lines E (build_ugc_payload org_id article)
    /\ (publish_directly E ui article w).1 = Return tt.
Proof.
  intros Hdry Hres. destruct w as [[art lg gk lk] fs tr].
  cbn [session linkedin_key] in Hres.
  destruct Hres as [[Hov ->] | (Hov & Hne & resp & Hget & Hscan)].
  - exists []. run_prog. unfold get_linkedin_org_id.
    destruct (ui_org_id_override ui) as [|c o]; [contradiction|].
    run_prog. rewrite Hdry. simp_world. unfold dry_run_lines.
    rewrite <- !app_assoc. split; reflexivity.
  - exists [py "[info] Auto-detected org id: " ++ org_id].
    run_prog. unfold get_linkedin_org_id. run_prog.
    rewrite Hov. simp_world. rewrite Hget, Hscan.
    destruct org_id as [|c o]; [contradiction|].
    simp_world. rewrite Hdry. simp_world. unfold dry_run_lines.
    rewrite <- !app_assoc. split; reflexivity.
Qed.

(** The guard on the live POST, for the body of the publish handler
    (lines 297-346) taken by itself: a POST to the content-creation
    endpoint is issued only when dry run is off and the platform key
    held in the session is not empty, and that key is its bearer token;
    so under dry run no such POST is issued.  The dry-run branch of
    lines 332-335 logs the payload preview when the body gets to build
    the payload: an article and a platform key are present, no backend
    module with a publish entry point is registered, and an
    organization id is typed in or resolved. *)
Theorem publish_live_post_guard (E : env) (ui : widgets) (w : world) :
  (exists evs,
     trace (publish_handler E ui w).2 = trace w ++ evs
     /\ (forall url hs payload timeout,
           In (EvPost url hs payload timeout) evs ->
           ui_dry_run ui = false
           /\ linkedin_key (session (publish_handler E ui w).2) <> []
           /\ url = UGC_POSTS_ENDPOINT
           /\ assoc (py "Authorization") hs
              = Some (py "Bearer "
                      ++ linkedin_key (session (publish_handler E ui w).2)))
     /\ (ui_dry_run ui = true ->
         forall url hs payload timeout, ~ In (EvPost url hs payload timeout) evs))
  /\ (ui_dry_run ui = true ->
      generated_article (session w) <> [] ->
      str_or (ui_linkedin_key ui) (linkedin_key (session w)) <> [] ->
      BACKEND_MODULE E = false \/ backend_post_to_linkedin E = None ->
      forall org_id,
        resolved_org E ui (str_or (ui_linkedin_key ui) (linkedin_key (session w)))
          org_id ->
        exists earlier,
          logs (session (publish_handler E ui w).2)
          = logs (session w) ++ earlier
            ++ dry_run_lines E
                 (build_ugc_payload org_id (generated_article (session w)))).
Proof.
  split.
  - assert (Hposts : exists evs,
      trace (publish_handler E ui w).2 = trace w ++ evs
      /\ forall url hs payload timeout,
           In (EvPost url hs payload timeout) evs ->
           ui_dry_run ui = false
           /\ linkedin_key (session (publish_handler E ui w).2) <> []
           /\ url = UGC_POSTS_ENDPOINT
           /\ assoc (py "Authorization") hs
              = Some (py "Bearer "
                      ++ linkedin_key (session (publish_handler E ui w).2))).
    { destruct (publish_handler_cases E ui w)
        as [Hsame | (w2 & Hkey & Htr & Hk & evs & Hevs & Hall)].
      - exists []. rewrite app_nil_r. split; [exact Hsame|]. intros ? ? ? ? [].
      - exists evs. rewrite Hevs, Htr. split; [reflexivity|].
        intros url hs payload timeout Hin.
        pose proof (proj1 (List.Forall_forall _ _) Hall _ Hin) as Hev.
        cbn [live_post_guarded] in Hev. destruct Hev as (Hdry & Hurl & Hauth).
        rewrite Hk. auto. }
    destruct Hposts as (evs & Htrace & Hguard).
    exists evs. split; [exact Htrace|]. split; [exact Hguard|].
    intros Hdry url hs payload timeout Hin.
    destruct (Hguard _ _ _ _ Hin) as [Hlive _]. congruence.
  - intros Hdry Hart Hkey Hback org_id Hres.
    rewrite (publish_handler_passes E ui w Hart Hkey).
    assert (Hbranch :
      match BACKEND_MODULE E, backend_post_to_linkedin E with
      | true, Some entry =>
          publish_with_backend E ui entry (generated_article (session w))
      | _, _ => publish_directly E ui (generated_article (session w))
      end = publish_directly E ui (generated_article (session w))).
    { destruct Hback as [-> | ->]; [reflexivity|].
      destruct (BACKEND_MODULE E); reflexivity. }
    rewrite Hbranch. unfold try_except.
    match goal with
    | |- context [publish_directly E ui ?a ?w1] =>
        destruct (publish_directly_dry_run E ui w1 a org_id Hdry Hres)
          as (earlier & Hlogs & Hret);
        destruct (publish_directly E ui a w1) as [r w'] eqn:Hrun
    end.
    cbn [fst snd] in Hlogs, Hret. subst r. cbn [snd]. rewrite Hlogs.
    exists (py "[info] Publishing started..." :: earlier).
    cbn [session logs]. rewrite <- !app_assoc. reflexivity.
Qed.

Lemma publish_live_post_guard_witness :
  (forall url hs payload timeout,
     ~ In (EvPost url hs payload timeout)
          (trace (publish_handler (env_answering acl_response) ui_dry_run_token
                    world_with_article).2))
  /\ (exists earlier,
        logs (session (publish_handler (env_answering acl_response)
                         ui_dry_run_token world_with_article).2)
        = earlier
          ++ dry_run_lines (env_answering acl_response)
               (build_ugc_payload (py "12345") (py "Hello world")))
  /\ (In expected_post (trace (publish_handler env_live ui_live_token
                                 world_with_article).2)
      /\ ui_dry_run ui_live_token = false
      /\ linkedin_key (session (publish_handler env_live ui_live_token
                                  world_with_article).2) <> []).
Proof.
  split; [|split].
  - destruct (publish_live_post_guard (env_answering acl_response)
                ui_dry_run_token world_with_article)
      as [(evs & Htr & _ & Hnone) _].
    rewrite Htr. exact (Hnone eq_refl).
  - destruct (publish_live_post_guard (env_answering acl_response)
                ui_dry_run_token world_with_article) as [_ Hlog].
    destruct (Hlog eq_refl) with (org_id := py "12345") as (earlier & Hl).
    + discriminate.
    + discriminate.
    + left. reflexivity.
    + right. split; [reflexivity|]. split; [discriminate|].
      exists acl_response. split; [reflexivity|]. vm_compute. reflexivity.
    + exists earlier. exact Hl.
  - destruct (publish_live_post_guard env_live ui_live_token world_with_article)
      as [(evs & Htr & Hguard & _) _].
    assert (Hin : In expected_post
                    (trace (publish_handler env_live ui_live_token
                              world_with_article).2)).
    { vm_compute. right. left. reflexivity. }
    split; [exact Hin|].
    rewrite Htr in Hin. cbn [world_with_article trace app] in Hin.
    destruct (Hguard _ _ _ _ Hin) as (Hlive & Hkey & _). auto.
Defined.

(** In the script itself the publish handler does not run while dry run
    is ticked: the button that starts it is disabled (lines 105-106),
    so the dry-run branch of lines 332-335 is never reached. *)
Lemma run_script_dry_run (E : env) (ui : widgets) (generate_clicked
    publish_clicked : bool) (w : world) :
  ui_dry_run ui = true ->
  run_script E ui generate_clicked publish_clicked w
  = run_script E ui generate_clicked false w.
Proof.
  intros Hdry. unfold run_script, publish_disabled. rewrite Hdry.
  cbn [orb negb]. rewrite andb_false_r. reflexivity.
Qed.


(* ================================================================= *)
(** * Further properties *)

(** ** Truncation at any limit *)

Lemma slice_to_nonneg {A} (k : Z) (s : list A) :
  0 <= k -> slice_to k s = take (Z.to_nat k) s.
Proof.
  intros Hk. unfold slice_to.
  destruct (Z.ltb_spec k 0); [lia|reflexivity].
Qed.

Lemma safe_truncate_cut (text : pystr) (max_len : Z) :
  max_len < len text ->
  safe_truncate text max_len
  = rstrip (slice_to (max_len - 3) text) ++ py "...".
Proof.
  intros H. unfold safe_truncate.
  destruct (Z.leb_spec (len text) max_len); [lia|reflexivity].
Qed.

Lemma safe_truncate_length_le (text : pystr) (max_len : Z) :
  3 <= max_len -> len (safe_truncate text max_len) <= max_len.
Proof.
  intros Hm. destruct (Z.le_gt_cases (len text) max_len) as [Hle|Hgt].
  - unfold safe_truncate.
    destruct (Z.leb_spec (len text) max_len); [exact Hle|lia].
  - rewrite (safe_truncate_cut text max_len Hgt).
    rewrite slice_to_nonneg by lia.
    unfold len. rewrite length_app.
    pose proof (rstrip_length (take (Z.to_nat (max_len - 3)) text)) as Hr.
    rewrite length_take in Hr. change (length (py "...")) with 3%nat. lia.
Qed.

(** X1.  For a limit of at least 3, the result of [safe_truncate] never
    has more units than the limit, and it is either the text itself or
    a prefix of the text followed by the marker "...". *)
Theorem safe_truncate_within_limit (text : pystr) (max_len : Z) :
  3 <= max_len ->
  len (safe_truncate text max_len) <= max_len
  /\ (safe_truncate text max_len = text
      \/ exists kept dropped,
           text = kept ++ dropped
           /\ safe_truncate text max_len = kept ++ py "...").
Proof.
  intros Hm. split; [exact (safe_truncate_length_le text max_len Hm)|].
  destruct (Z.le_gt_cases (len text) max_len) as [Hle|Hgt].
  - left. unfold safe_truncate.
    destruct (Z.leb_spec (len text) max_len); [reflexivity|lia].
  - right. rewrite (safe_truncate_cut text max_len Hgt).
    rewrite slice_to_nonneg by lia.
    destruct (rstrip_prefix (take (Z.to_nat (max_len - 3)) text)) as (ws & Hws).
    exists (rstrip (take (Z.to_nat (max_len - 3)) text)).
    exists (ws ++ drop (Z.to_nat (max_len - 3)) text).
    split; [|reflexivity].
    rewrite app_assoc, <- Hws. symmetry. apply take_drop.
Qed.

Lemma safe_truncate_within_limit_witness :
  len (safe_truncate six_letters 5) <= 5.
Proof.
  destruct (safe_truncate_within_limit six_letters 5) as [H _]; [lia|exact H].
Defined.

(** X2.  For a limit of at least 3, truncating twice is truncating
    once. *)
Theorem safe_truncate_idempotent (text : pystr) (max_len : Z) :
  3 <= max_len ->
  safe_truncate (safe_truncate text max_len) max_len
  = safe_truncate text max_len.
Proof.
  intros Hm. pose proof (safe_truncate_length_le text max_len Hm) as Hle.
  unfold safe_truncate at 1.
  destruct (Z.leb_spec (len (safe_truncate text max_len)) max_len); [reflexivity|lia].
Qed.

Lemma safe_truncate_idempotent_witness :
  safe_truncate (safe_truncate six_letters 5) 5 = safe_truncate six_letters 5.
Proof. apply safe_truncate_idempotent. lia. Defined.

(** X3.  For a limit below 3 the marker alone is longer than the limit:
    every text longer than the limit comes back longer than the limit. *)
Theorem safe_truncate_small_limit (text : pystr) (max_len : Z) :
  max_len < 3 ->
  max_len < len text ->
  max_len < len (safe_truncate text max_len)
  /\ ends_with (safe_truncate text max_len) (py "...").
Proof.
  intros Hm Hlong. rewrite (safe_truncate_cut text max_len Hlong). split.
  - unfold len. rewrite length_app. change (length (py "...")) with 3%nat. lia.
  - eexists. reflexivity.
Qed.

Lemma safe_truncate_small_limit_witness :
  2 < len (safe_truncate six_letters 2).
Proof.
  destruct (safe_truncate_small_limit six_letters 2) as [H _];
    [lia|vm_compute; reflexivity|exact H].
Defined.

(** ** The payload *)

(** X4.  The payload names the organization by its URN under "author",
    and its commentary text is the article truncated: never more than
    3000 units, and the article itself when that has at most 3000. *)
Theorem payload_author_and_text (org_id text : pystr) :
  subscript (build_ugc_payload org_id text) "author"
  = VStr (py "urn:li:organization:" ++ org_id)
  /\ exists t,
       commentary_text (build_ugc_payload org_id text) = VStr t
       /\ len t <= 3000
       /\ (len text <= 3000 -> t = text).
Proof.
  split; [reflexivity|].
  exists (safe_truncate text MAX_LINKEDIN_COMMENTARY_LENGTH).
  split; [reflexivity|]. split.
  - apply safe_truncate_length_le. unfold MAX_LINKEDIN_COMMENTARY_LENGTH. lia.
  - apply safe_truncate_within.
Qed.

Lemma split_on_app_sep (sep : pychar) (a q : pystr) :
  split_on sep (a ++ sep :: q) = split_on sep a ++ split_on sep q.
Proof.
  induction a as [|c a IH]; cbn [app split_on].
  - rewrite N.eqb_refl. reflexivity.
  - destruct (c =? sep)%N; [rewrite IH; reflexivity|].
    rewrite IH. pose proof (split_on_nonempty sep a) as Hn.
    destruct (split_on sep a) as [|p ps]; [contradiction|reflexivity].
Qed.

Lemma split_on_free (sep : pychar) (q : pystr) :
  ~ In sep q -> split_on sep q = [q].
Proof.
  induction q as [|c q IH]; [reflexivity|]. intros Hfree. cbn [split_on].
  destruct (N.eqb_spec c sep) as [->|Hne]; [exfalso; apply Hfree; left; reflexivity|].
  rewrite IH; [reflexivity|]. intros Hin. apply Hfree. right. exact Hin.
Qed.

Lemma last_segment_after_colon (prefix q : pystr) :
  ~ In 58%N q -> last_segment (VStr (prefix ++ 58%N :: q)) = Return q.
Proof.
  intros Hfree. unfold last_segment.
  rewrite split_on_app_sep, last_app, (split_on_free _ _ Hfree). reflexivity.
Qed.

(** X5.  The resolver undoes the author URN: for an organization id
    without a colon, the last segment of the payload's "author" is that
    id, and an answer listing that URN as "organizationalTarget"
    resolves to it. *)
Theorem author_urn_round_trip (org_id text : pystr) :
  ~ In 58%N org_id ->
  last_segment (subscript (build_ugc_payload org_id text) "author")
  = Return org_id
  /\ scan_elements
       [ VDict [ (py "organizationalTarget",
                  subscript (build_ugc_payload org_id text) "author") ] ]
     = Return (Some org_id).
Proof.
  intros Hfree.
  assert (Hurn : subscript (build_ugc_payload org_id text) "author"
                 = VStr (py "urn:li:organization" ++ 58%N :: org_id))
    by reflexivity.
  rewrite Hurn.
  split; [exact (last_segment_after_colon _ _ Hfree)|].
  rewrite scan_element_target.
  assert (Ht : org_target
                 [ (py "organizationalTarget",
                    VStr (py "urn:li:organization" ++ 58%N :: org_id)) ]
               = VStr (py "urn:li:organization" ++ 58%N :: org_id))
    by reflexivity.
  rewrite Ht.
  assert (Htr : truthy (VStr (py "urn:li:organization" ++ 58%N :: org_id)) = true)
    by reflexivity.
  rewrite Htr, (last_segment_after_colon (py "urn:li:organization") _ Hfree).
  reflexivity.
Qed.

Lemma author_urn_round_trip_witness :
  last_segment (subscript (build_ugc_payload (py "12345") (py "Hello world"))
                  "author")
  = Return (py "12345").
Proof.
  destruct (author_urn_round_trip (py "12345") (py "Hello world")) as [H _];
    [|exact H].
  intros Hin. vm_compute in Hin.
  repeat (destruct Hin as [Hin|Hin]; [discriminate Hin|]). exact Hin.
Defined.

(** ** The resolver and the publisher: failures *)

Lemma get_linkedin_org_id_run (E : env) (headers : header_set) (w : world) :
  get_linkedin_org_id E headers w
  = (match requests_get E ORGS_ENDPOINT headers with
     | Return resp => org_id_of_response resp
     | Raise e => Raise e
     end,
     record_events w [EvGet ORGS_ENDPOINT headers 10]).
Proof.
  unfold get_linkedin_org_id, mbind, prog_bind, emit, lift, record_events.
  destruct (requests_get E ORGS_ENDPOINT headers); reflexivity.
Qed.

Lemma raise_for_status_error (resp : http_response) :
  error_status resp -> raise_for_status resp = Raise (http_error_of resp).
Proof.
  unfold error_status, raise_for_status. intros H.
  destruct (Z.leb_spec 400 (status_code resp)); [|lia].
  destruct (Z.ltb_spec (status_code resp) 600); [reflexivity|lia].
Qed.

Lemma raise_for_status_ok (resp : http_response) :
  ~ error_status resp -> raise_for_status resp = Return tt.
Proof.
  unfold error_status, raise_for_status. intros H.
  destruct (Z.leb_spec 400 (status_code resp)); [|reflexivity].
  destruct (Z.ltb_spec (status_code resp) 600); [lia|reflexivity].
Qed.

(** X6.  Whatever the platform answers, the resolver issues exactly one
    GET, with a timeout of 10, and changes nothing else.  A transport
    error comes out unchanged; an error status (400 to 599) comes out as
    the HTTP error with the response text attached, whatever the body;
    a body that is not JSON comes out as a [ValueError]. *)
Theorem resolver_single_request (E : env) (headers : header_set) (w : world) :
  (get_linkedin_org_id E headers w).2
  = record_events w [EvGet ORGS_ENDPOINT headers 10]
  /\ (forall e,
        requests_get E ORGS_ENDPOINT headers = Raise e ->
        (get_linkedin_org_id E headers w).1 = Raise e)
  /\ (forall resp,
        requests_get E ORGS_ENDPOINT headers = Return resp ->
        error_status resp ->
        (get_linkedin_org_id E headers w).1 = Raise (http_error_of resp))
  /\ (forall resp,
        requests_get E ORGS_ENDPOINT headers = Return resp ->
        ~ error_status resp ->
        resp_json resp = None ->
        exists e, (get_linkedin_org_id E headers w).1 = Raise e
                  /\ exn_cls e = ValueError).
Proof.
  rewrite get_linkedin_org_id_run. cbn [fst snd].
  split; [reflexivity|]. split; [|split].
  - intros e ->. reflexivity.
  - intros resp -> Herr. unfold org_id_of_response.
    rewrite (raise_for_status_error _ Herr). reflexivity.
  - intros resp -> Hok Hbody. unfold org_id_of_response, response_json.
    rewrite (raise_for_status_ok _ Hok), Hbody. eexists. split; reflexivity.
Qed.

Lemma resolver_single_request_witness :
  (get_linkedin_org_id (env_answering forbidden_response)
     (bearer_headers (py "token")) fresh_world).1
  = Raise (http_error_of forbidden_response)
  /\ (exists e,
        (get_linkedin_org_id (env_answering created_without_body)
           (bearer_headers (py "token")) fresh_world).1 = Raise e
        /\ exn_cls e = ValueError)
  /\ (get_linkedin_org_id bare_env (bearer_headers (py "token")) fresh_world).1
     = Raise (exception OtherException "connection refused").
Proof.
  split; [|split].
  - destruct (resolver_single_request (env_answering forbidden_response)
                (bearer_headers (py "token")) fresh_world) as (_ & _ & H & _).
    apply (H forbidden_response); [reflexivity|].
    unfold error_status. simpl. lia.
  - destruct (resolver_single_request (env_answering created_without_body)
                (bearer_headers (py "token")) fresh_world) as (_ & _ & _ & H).
    apply (H created_without_body); [reflexivity| |reflexivity].
    unfold error_status. simpl. lia.
  - destruct (resolver_single_request bare_env
                (bearer_headers (py "token")) fresh_world) as (_ & H & _).
    apply H. reflexivity.
Defined.

Lemma org_id_of_json_object (resp : http_response) (d : pydict) :
  ~ error_status resp ->
  resp_json resp = Some (VDict d) ->
  org_id_of_response resp
  = (els ← iterate (match assoc (py "elements") d with
                    | Some v => v
                    | None => VList []
                    end);
     scan_elements els).
Proof.
  intros Hok Hbody. unfold org_id_of_response, response_json.
  rewrite (raise_for_status_ok _ Hok), Hbody. reflexivity.
Qed.

Lemma last_segment_not_text (v : pyval) :
  (forall s, v <> VStr s) ->
  exists e, last_segment v = Raise e /\ exn_cls e = AttributeError.
Proof.
  intros Hv. destruct v; try (eexists; split; reflexivity).
  exfalso. exact (Hv _ eq_refl).
Qed.

(** X7.  The resolver takes the shape of a successful answer on trust.
    When "elements" is [null], a number or a boolean, iterating it
    raises a [TypeError]; when the first true reference is not a string
    (the expanded organization under "organizationalTarget~", say),
    splitting it raises an [AttributeError]; when an element reached by
    the scan is not an object, reading it raises an [AttributeError].
    None of these is turned into absence. *)
Theorem resolver_shape_errors (resp : http_response) (d : pydict) :
  ~ error_status resp ->
  resp_json resp = Some (VDict d) ->
  (forall v,
     assoc (py "elements") d = Some v ->
     v = VNone \/ (exists b, v = VBool b) \/ (exists z, v = VInt z) ->
     exists e, org_id_of_response resp = Raise e /\ exn_cls e = TypeError)
  /\ (forall skipped el rest,
        assoc (py "elements") d
        = Some (VList (map VDict skipped ++ VDict el :: rest)) ->
        Forall (fun x => truthy (org_target x) = false) skipped ->
        truthy (org_target el) = true ->
        (forall s, org_target el <> VStr s) ->
        exists e, org_id_of_response resp = Raise e
                  /\ exn_cls e = AttributeError)
  /\ (forall skipped v rest,
        assoc (py "elements") d
        = Some (VList (map VDict skipped ++ v :: rest)) ->
        Forall (fun x => truthy (org_target x) = false) skipped ->
        (forall x, v <> VDict x) ->
        exists e, org_id_of_response resp = Raise e
                  /\ exn_cls e = AttributeError).
Proof.
  intros Hok Hbody. rewrite (org_id_of_json_object resp d Hok Hbody).
  split; [|split].
  - intros v -> Hv.
    destruct Hv as [-> | [(b & ->) | (z & ->)]]; eexists; split; reflexivity.
  - intros skipped el rest -> Hskip Htrue Hshape.
    cbn [iterate mbind outcome_bind].
    rewrite (scan_skips _ _ Hskip), scan_element_target, Htrue.
    destruct (last_segment_not_text _ Hshape) as (e & He & Hcls).
    exists e. rewrite He. split; [reflexivity|exact Hcls].
  - intros skipped v rest -> Hskip Hshape.
    cbn [iterate mbind outcome_bind]. rewrite (scan_skips _ _ Hskip).
    destruct v; try (eexists; split; reflexivity).
    exfalso. exact (Hshape _ eq_refl).
Qed.

Lemma resolver_shape_errors_witness :
  (exists e, org_id_of_response null_elements_response = Raise e
             /\ exn_cls e = TypeError)
  /\ (exists e, org_id_of_response expansion_response = Raise e
                /\ exn_cls e = AttributeError).
Proof.
  split.
  - destruct (resolver_shape_errors null_elements_response null_elements_body)
      as (H & _ & _).
    + unfold error_status. simpl. lia.
    + reflexivity.
    + apply (H VNone); [reflexivity|left; reflexivity].
  - destruct (resolver_shape_errors expansion_response expansion_body)
      as (_ & H & _).
    + unfold error_status. simpl. lia.
    + reflexivity.
    + apply (H [] element_with_expansion []).
      * reflexivity.
      * constructor.
      * reflexivity.
      * intros s Hs. discriminate Hs.
Defined.

Lemma post_to_linkedin_api_run (E : env) (payload : pyval) (token : pystr)
    (timeout : Z) (w : world) :
  post_to_linkedin_api E payload token timeout w
  = (match requests_post E UGC_POSTS_ENDPOINT (post_headers token) payload with
     | Raise e => Raise e
     | Return resp =>
         match raise_for_status resp with
         | Raise e => Raise e
         | Return _ =>
             Return (match resp_json resp with
                     | Some v => v
                     | None => status_and_headers resp
                     end)
         end
     end,
     record_events w
       [EvPost UGC_POSTS_ENDPOINT (post_headers token) payload timeout]).
Proof.
  unfold post_to_linkedin_api, mbind, prog_bind, emit, lift, record_events,
    post_headers, status_and_headers.
  destruct (requests_post E UGC_POSTS_ENDPOINT _ payload) as [resp|e];
    [|reflexivity].
  destruct (raise_for_status resp); [|reflexivity].
  destruct (resp_json resp); reflexivity.
Qed.

(** X8.  The publisher issues exactly one POST, whatever the answer, and
    never a second one.  A transport error comes out unchanged; an
    error status comes out as the HTTP error with the response text
    attached; otherwise the JSON body is returned, and for a body that
    is not JSON the status code and the headers. *)
Theorem publisher_single_request (E : env) (payload : pyval) (token : pystr)
    (timeout : Z) (w : world) :
  (post_to_linkedin_api E payload token timeout w).2
  = record_events w
      [EvPost UGC_POSTS_ENDPOINT (post_headers token) payload timeout]
  /\ (forall e,
        requests_post E UGC_POSTS_ENDPOINT (post_headers token) payload = Raise e ->
        (post_to_linkedin_api E payload token timeout w).1 = Raise e)
  /\ (forall resp,
        requests_post E UGC_POSTS_ENDPOINT (post_headers token) payload
        = Return resp ->
        (error_status resp ->
         (post_to_linkedin_api E payload token timeout w).1
         = Raise (http_error_of resp))
        /\ (~ error_status resp ->
            forall v, resp_json resp = Some v ->
            (post_to_linkedin_api E payload token timeout w).1 = Return v)
        /\ (~ error_status resp ->
            resp_json resp = None ->
            (post_to_linkedin_api E payload token timeout w).1
            = Return (status_and_headers resp))).
Proof.
  rewrite post_to_linkedin_api_run. cbn [fst snd].
  split; [reflexivity|]. split.
  - intros e ->. reflexivity.
  - intros resp ->. split; [|split].
    + intros Herr. rewrite (raise_for_status_error _ Herr). reflexivity.
    + intros Hok v Hv. rewrite (raise_for_status_ok _ Hok), Hv. reflexivity.
    + intros Hok Hv. rewrite (raise_for_status_ok _ Hok), Hv. reflexivity.
Qed.

Lemma publisher_single_request_witness :
  (post_to_linkedin_api (env_posting forbidden_response)
     (build_ugc_payload (py "12345") (py "Hello world")) (py "token") 15
     fresh_world).1
  = Raise (http_error_of forbidden_response)
  /\ (post_to_linkedin_api (env_posting created_without_body)
        (build_ugc_payload (py "12345") (py "Hello world")) (py "token") 15
        fresh_world).1
     = Return (status_and_headers created_without_body).
Proof.
  split.
  - destruct (publisher_single_request (env_posting forbidden_response)
                (build_ugc_payload (py "12345") (py "Hello world")) (py "token")
                15 fresh_world) as (_ & _ & H).
    destruct (H forbidden_response eq_refl) as (Herr & _).
    apply Herr. unfold error_status. simpl. lia.
  - destruct (publisher_single_request (env_posting created_without_body)
                (build_ugc_payload (py "12345") (py "Hello world")) (py "token")
                15 fresh_world) as (_ & _ & H).
    destruct (H created_without_body eq_refl) as (_ & _ & Hplain).
    apply Hplain; [|reflexivity]. unfold error_status. simpl. lia.
Defined.

(** ** The generation client: bounds *)

Lemma attempt_generation_world (E : env) (prompt model : pystr) (k : Z)
    (w : world) :
  (attempt_generation E prompt model k w).2
  = record_events w [EvGenerate model prompt k].
Proof.
  unfold attempt_generation, mbind, prog_bind, emit, lift, record_events.
  destruct (genai_generate E model prompt k) as [resp|e]; [|reflexivity].
  destruct (extract_text_from_gemini_response resp) as [[s|]|e];
    try reflexivity.
  destruct (str_truthy s); reflexivity.
Qed.

Lemma retry_loop_exit (E : env) (prompt model : pystr) (max_retries attempt : Z) :
  max_retries < attempt ->
  retry_loop E prompt model max_retries attempt
  = raise (exception RuntimeError "Unexpected generation failure.").
Proof.
  intros H. rewrite retry_loop_equation_1.
  destruct (decide (attempt <= max_retries)) as [Hle|Hgt]; [lia|].
  reflexivity.
Qed.

Lemma record_events_nil (w : world) : record_events w [] = w.
Proof. destruct w. unfold record_events. cbn. rewrite app_nil_r. reflexivity. Qed.

(** The loop entered after [attempt] attempts makes at most
    [max_retries - attempt + 1] more, sleeps at most [max_retries]
    seconds at a time, and touches nothing but the trace. *)
Lemma retry_loop_bounded (E : env) (prompt model : pystr) (max_retries : Z)
    (n : nat) :
  forall (attempt : Z) (w : world),
    0 <= attempt ->
    max_retries + 1 - attempt <= Z.of_nat n ->
    exists evs,
      (retry_loop E prompt model max_retries attempt w).2 = record_events w evs
      /\ 0 <= count_attempts evs <= Z.of_nat n
      /\ Forall (fun t => 1 <= t <= max_retries) (sleeps_of evs)
      /\ Forall generation_event evs.
Proof.
  induction n as [|n IH]; intros attempt w Hpos Hn.
  - exists []. rewrite retry_loop_exit by lia.
    rewrite record_events_nil. cbn. repeat split; try lia; constructor.
  - destruct (Z.le_gt_cases attempt max_retries) as [Hle|Hgt].
    2:{ exists []. rewrite retry_loop_exit by lia.
        rewrite record_events_nil. cbn. repeat split; try lia; constructor. }
    rewrite retry_loop_step by lia. unfold try_except.
    pose proof (attempt_generation_world E prompt model (attempt + 1) w) as Hw.
    destruct (attempt_generation E prompt model (attempt + 1) w) as [[t|e] w1].
    + cbn [snd] in *. subst w1. eexists. split; [reflexivity|].
      cbn [count_attempts sleeps_of]. repeat split; try lia; repeat constructor.
    + cbn [snd] in Hw. subst w1.
      destruct (Z.gtb_spec (attempt + 1) max_retries) as [Hlast|Hmore].
      * eexists. split; [reflexivity|].
        cbn [count_attempts sleeps_of]. repeat split; try lia; repeat constructor.
      * unfold mbind, prog_bind, emit.
        match goal with
        | |- context [retry_loop E prompt model max_retries (attempt + 1) ?w2] =>
            destruct (IH (attempt + 1) w2) as (evs & Hrun & Hcount & Hsleep & Hgen);
              [lia|lia|]
        end.
        rewrite Hrun.
        exists (EvGenerate model prompt (attempt + 1) :: EvSleep (attempt + 1) :: evs).
        split.
        { unfold record_events. cbn [session files trace].
          rewrite <- !app_assoc. reflexivity. }
        cbn [count_attempts sleeps_of]. repeat split; try lia.
        { constructor; [lia|exact Hsleep]. }
        { constructor; [exact I|]. constructor; [exact I|exact Hgen]. }
Qed.

(** X9.  Whatever the generation service does, the client makes at most
    [max_retries + 1] attempts, never sleeps longer than [max_retries]
    seconds at a time, and changes neither the session nor the files:
    the only outside calls are the configuration, the attempts and the
    sleeps. *)
Theorem generation_never_exceeds_budget (E : env) (prompt model : pystr)
    (api_key : option pystr) (max_retries : Z) (w : world) :
  exists evs,
    (generate_article_with_gemini E prompt model api_key max_retries w).2
    = record_events w evs
    /\ 0 <= count_attempts evs <= Z.max 0 (max_retries + 1)
    /\ Forall (fun t => 1 <= t <= max_retries) (sleeps_of evs)
    /\ Forall generation_event evs.
Proof.
  destruct (GENAI_AVAILABLE E) eqn:Hav.
  - rewrite (generate_article_with_gemini_loop _ _ _ _ _ _ Hav).
    destruct (retry_loop_bounded E prompt model max_retries
                (Z.to_nat (Z.max 0 (max_retries + 1))) 0
                (record_events w (configure_events api_key)))
      as (evs & Hrun & Hcount & Hsleep & Hgen); [lia|lia|].
    exists (configure_events api_key ++ evs). rewrite Hrun, record_events_app.
    split; [reflexivity|].
    rewrite count_attempts_app, count_attempts_configure,
      sleeps_of_app, sleeps_of_configure.
    split; [lia|]. split; [exact Hsleep|].
    apply Forall_app. split; [|exact Hgen].
    destruct api_key as [k|]; [destruct k|]; repeat constructor.
  - exists []. unfold generate_article_with_gemini. rewrite Hav.
    cbn [negb raise snd]. rewrite record_events_nil.
    cbn. repeat split; try lia; constructor.
Qed.

(** X10.  The client makes no attempt at all in two cases, and raises a
    [RuntimeError] in both: when the client library is not installed
    (nothing is called), and when the retry budget is negative (the
    loop is not entered; only the configuration call is made). *)
Theorem generation_without_attempt (E : env) (prompt model : pystr)
    (api_key : option pystr) (max_retries : Z) (w : world) :
  (GENAI_AVAILABLE E = false ->
   generate_article_with_gemini E prompt model api_key max_retries w
   = (Raise (exception RuntimeError "Gemini client not installed."), w))
  /\ (GENAI_AVAILABLE E = true ->
      max_retries < 0 ->
      generate_article_with_gemini E prompt model api_key max_retries w
      = (Raise (exception RuntimeError "Unexpected generation failure."),
         record_events w (configure_events api_key))).
Proof.
  split.
  - intros Hav. unfold generate_article_with_gemini. rewrite Hav. reflexivity.
  - intros Hav Hneg. rewrite (generate_article_with_gemini_loop _ _ _ _ _ _ Hav).
    rewrite retry_loop_exit by lia. reflexivity.
Qed.

Lemma generation_without_attempt_witness :
  generate_article_with_gemini bare_env (py "X") DEFAULT_MODEL (Some (py "key"))
    2 fresh_world
  = (Raise (exception RuntimeError "Gemini client not installed."), fresh_world)
  /\ generate_article_with_gemini env_down (py "X") DEFAULT_MODEL
       (Some (py "key")) (-1) fresh_world
     = (Raise (exception RuntimeError "Unexpected generation failure."),
        record_events fresh_world [EvConfigure (py "key")]).
Proof.
  split.
  - destruct (generation_without_attempt bare_env (py "X") DEFAULT_MODEL
                (Some (py "key")) 2 fresh_world) as [H _].
    apply H. reflexivity.
  - destruct (generation_without_attempt env_down (py "X") DEFAULT_MODEL
                (Some (py "key")) (-1) fresh_world) as [_ H].
    apply H; [reflexivity|lia].
Defined.

(** ** What the handlers leave alone *)

Lemma handler_frame_refl (allowed : event -> Prop) (w : world) :
  handler_frame allowed w w.
Proof.
  repeat split; try reflexivity.
  - exists []. rewrite app_nil_r. reflexivity.
  - exists []. rewrite app_nil_r. split; [reflexivity|constructor].
Qed.

Lemma frame_append_log (allowed : event -> Prop) (w0 : world) (msg : pystr) :
  preserves (handler_frame allowed w0) (append_log msg).
Proof.
  intros w (Hf & Ha & Hg & Hl & (new & Hlog) & Htr).
  unfold handler_frame, append_log, mbind, prog_bind, get_session, put_session.
  simp_world. repeat split; try assumption.
  exists (new ++ [msg]). rewrite Hlog, <- app_assoc. reflexivity.
Qed.

Lemma frame_emit (allowed : event -> Prop) (w0 : world) (ev : event) :
  allowed ev -> preserves (handler_frame allowed w0) (emit ev).
Proof.
  intros Hev w (Hf & Ha & Hg & Hl & Hlog & evs & Htr & Hall).
  unfold handler_frame, emit. simp_world. repeat split; try assumption.
  exists (evs ++ [ev]). rewrite Htr, <- app_assoc. split; [reflexivity|].
  apply Forall_app. split; [exact Hall|]. constructor; [exact Hev|constructor].
Qed.

Lemma handler_frame_weaken (P Q : event -> Prop) (w0 w : world) :
  (forall ev, P ev -> Q ev) -> handler_frame P w0 w -> handler_frame Q w0 w.
Proof.
  intros HPQ (Hf & Ha & Hg & Hl & Hlog & evs & Htr & Hall).
  repeat split; try assumption.
  exists evs. split; [exact Htr|]. eapply Forall_impl; eauto.
Qed.

Section GenerationStage.

Variable Inv : world -> Prop.
Variable E : env.
Variable ui : widgets.
Hypothesis Hlog : forall msg, preserves Inv (append_log msg).
Hypothesis Hemit : forall ev, generation_event ev -> preserves Inv (emit ev).

Lemma stage_attempt_generation (prompt model : pystr) (k : Z) :
  preserves Inv (attempt_generation E prompt model k).
Proof.
  unfold attempt_generation.
  apply preserves_bind; [apply Hemit; exact I|]. intros _.
  apply preserves_bind; [apply preserves_lift|]. intros resp.
  apply preserves_bind; [apply preserves_lift|]. intros [s|].
  - destruct (str_truthy s); [apply preserves_ret|apply preserves_raise].
  - apply preserves_raise.
Qed.

Lemma stage_retry_loop (prompt model : pystr) (max_retries : Z) (n : nat) :
  forall attempt,
    max_retries + 1 - attempt <= Z.of_nat n ->
    preserves Inv (retry_loop E prompt model max_retries attempt).
Proof.
  induction n as [|n IH]; intros attempt Hn.
  - rewrite retry_loop_exit by lia. apply preserves_raise.
  - destruct (Z.le_gt_cases attempt max_retries) as [Hle|Hgt].
    2:{ rewrite retry_loop_exit by lia. apply preserves_raise. }
    rewrite retry_loop_step by lia.
    apply preserves_try_except; [apply stage_attempt_generation|].
    intros exc. destruct (attempt + 1 >? max_retries); [apply preserves_raise|].
    apply preserves_bind; [apply Hemit; exact I|]. intros _.
    apply IH. lia.
Qed.

Lemma stage_generate_article_with_gemini (prompt model : pystr)
    (api_key : option pystr) (max_retries : Z) :
  preserves Inv (generate_article_with_gemini E prompt model api_key max_retries).
Proof.
  unfold generate_article_with_gemini, configure_gemini_session.
  destruct (GENAI_AVAILABLE E); cbn [negb]; [|apply preserves_raise].
  apply preserves_bind.
  - destruct api_key as [k|]; [|apply preserves_ret].
    destruct (str_truthy k); [apply Hemit; exact I|apply preserves_ret].
  - intros _.
    apply (stage_retry_loop prompt model max_retries
             (Z.to_nat (Z.max 0 (max_retries + 1)))). lia.
Qed.

Lemma stage_generate_with_backend (entry : generate_entry) :
  preserves Inv (generate_with_backend ui entry).
Proof.
  unfold generate_with_backend.
  apply preserves_bind; [apply Hlog|]. intros _.
  apply preserves_with_session. intros s.
  apply preserves_bind.
  { apply preserves_except_TypeError.
    - apply preserves_bind; [apply Hemit; exact I|]. intros _.
      apply preserves_lift.
    - apply preserves_bind; [apply Hemit; exact I|]. intros _.
      apply preserves_lift. }
  intros a. apply preserves_bind; [apply Hlog|]. intros _. apply preserves_ret.
Qed.

Lemma stage_generate_without_backend :
  preserves Inv (generate_without_backend E ui).
Proof.
  unfold generate_without_backend.
  apply preserves_with_session. intros s.
  destruct (GENAI_AVAILABLE E && str_truthy (gemini_key s)).
  - apply preserves_bind; [apply Hlog|]. intros _.
    apply preserves_try_except.
    + apply preserves_bind; [apply stage_generate_article_with_gemini|].
      intros a. apply preserves_bind; [apply Hlog|]. intros _.
      apply preserves_ret.
    + intros e. apply preserves_bind; [apply Hlog|]. intros _.
      apply preserves_ret.
  - apply preserves_bind; [apply Hlog|]. intros _. apply preserves_ret.
Qed.

Lemma stage_obtain_article : preserves Inv (obtain_article E ui).
Proof.
  unfold obtain_article.
  destruct (BACKEND_MODULE E), (backend_generate_article E);
    first [apply stage_generate_with_backend
          | apply stage_generate_without_backend].
Qed.

End GenerationStage.

Lemma generate_handler_unfold (E : env) (ui : widgets) (w : world) :
  generate_handler E ui w
  = try_except
      (article_text ← obtain_article E ui;
       set_generated_article article_text;;
       emit (EvPreview (slice_to 3000 article_text));;
       save_article E ui article_text)
      (fun e => append_log (py "[error] Generation failed: " ++ exn_str e))
      (generation_started ui w).
Proof. destruct w as [[a lg gk lk] fs tr]. reflexivity. Qed.

(** The generate handler always returns, and ends in one of the four
    ways of [generate_handler_end] from a world that differs from the
    start of its [try] by log lines and generation calls only. *)
Lemma generate_handler_shape (E : env) (ui : widgets) (w : world) :
  exists w2 w',
    generate_handler E ui w = (Return tt, w')
    /\ handler_frame generation_event (generation_started ui w) w2
    /\ generate_handler_end E ui w2 w'.
Proof.
  rewrite generate_handler_unfold.
  pose proof (stage_obtain_article
                (handler_frame generation_event (generation_started ui w)) E ui
                (frame_append_log _ _) (fun ev H => frame_emit _ _ ev H)
                (generation_started ui w) (handler_frame_refl _ _)) as Hframe.
  unfold try_except, mbind at 1, prog_bind at 1.
  destruct (obtain_article E ui (generation_started ui w)) as [[a|e] w2];
    cbn [snd] in Hframe.
  - exists w2. destruct w2 as [[a2 lg2 gk2 lk2] fs2 tr2].
    unfold save_article.
    destruct (ui_save_path ui) as [|c path] eqn:Hpath.
    + eexists. split; [reflexivity|]. split; [exact Hframe|].
      right. exists a. left. split; [exact Hpath|reflexivity].
    + run_prog.
      destruct (open_write E (c :: path) a) as [|e|e left_behind] eqn:Hopen.
      * eexists. split; [reflexivity|]. split; [exact Hframe|].
        right. exists a. right. left. rewrite Hpath. split; [discriminate|].
        split; [exact Hopen|].
        unfold with_log, with_article. simp_world.
        rewrite <- app_assoc. reflexivity.
      * eexists. split; [reflexivity|]. split; [exact Hframe|].
        right. exists a. right. right. left. rewrite Hpath.
        split; [discriminate|]. exists e. split; [exact Hopen|].
        unfold with_log, with_article. simp_world.
        rewrite <- app_assoc. reflexivity.
      * eexists. split; [reflexivity|]. split; [exact Hframe|].
        right. exists a. right. right. right. rewrite Hpath.
        split; [discriminate|]. exists e, left_behind. split; [exact Hopen|].
        unfold with_log, with_article. simp_world.
        rewrite <- app_assoc. reflexivity.
  - exists w2. eexists. split; [reflexivity|]. split; [exact Hframe|].
    left. exists e. destruct w2 as [[a2 lg2 gk2 lk2] fs2 tr2]. reflexivity.
Qed.

Tactic Notation "simp_world_in" hyp(H) :=
  cbn [session files trace generated_article logs gemini_key linkedin_key
       fst snd negb andb str_truthy str_or] in H.

Lemma generate_handler_summary (E : env) (ui : widgets) (w : world) :
  (generate_handler E ui w).1 = Return tt
  /\ gemini_key (session (generate_handler E ui w).2)
     = str_or (ui_gemini_key ui) (gemini_key (session w))
  /\ linkedin_key (session (generate_handler E ui w).2)
     = str_or (ui_linkedin_key ui) (linkedin_key (session w))
  /\ (exists new,
        logs (session (generate_handler E ui w).2)
        = logs (session w) ++ py "[info] Generation started..." :: new)
  /\ (exists evs,
        trace (generate_handler E ui w).2 = trace w ++ evs
        /\ Forall generate_handler_event evs)
  /\ (files (generate_handler E ui w).2 = files w
      \/ (ui_save_path ui <> []
          /\ match open_write E (ui_save_path ui)
                     (generated_article (session (generate_handler E ui w).2)) with
             | Written =>
                 files (generate_handler E ui w).2
                 = <[ui_save_path ui
                     := generated_article (session (generate_handler E ui w).2)]>
                   (files w)
             | NotOpened _ => False
             | Interrupted _ left_behind =>
                 files (generate_handler E ui w).2
                 = <[ui_save_path ui := left_behind]> (files w)
             end)).
Proof.
  destruct (generate_handler_shape E ui w)
    as (w2 & w' & Hrun & (Hf & Ha & Hg & Hl & (new & Hlog) & evs & Htr & Hall)
        & Hend).
  rewrite Hrun. cbn [fst snd].
  unfold generation_started in *. simp_world_in Hf. simp_world_in Hg.
  simp_world_in Hl. simp_world_in Hlog. simp_world_in Htr.
  assert (Hall' : Forall generate_handler_event evs).
  { eapply Forall_impl; [exact Hall|]. intros ev Hev. destruct ev; first [exact Hev | exact I]. }
  split; [reflexivity|].
  destruct Hend
    as [(e & ->)
       | (a & [(Hp & ->)
              | [(Hp & Hopen & ->)
                | [(Hp & e & Hopen & ->) | (Hp & e & lb & Hopen & ->)]]])];
    unfold with_log, with_article; simp_world.
  - split; [exact Hg|]. split; [exact Hl|]. split.
    { eexists. rewrite Hlog, <- !app_assoc. reflexivity. }
    split; [exists evs; split; [exact Htr|exact Hall']|]. left. exact Hf.
  - split; [exact Hg|]. split; [exact Hl|]. split.
    { eexists. rewrite Hlog, <- !app_assoc. reflexivity. }
    split; [|left; exact Hf].
    eexists. rewrite Htr, <- app_assoc. split; [reflexivity|].
    apply Forall_app. split; [exact Hall'|repeat constructor].
  - split; [exact Hg|]. split; [exact Hl|]. split.
    { eexists. rewrite Hlog, <- !app_assoc. reflexivity. }
    split; [|right; split; [exact Hp|rewrite Hopen, Hf; reflexivity]].
    eexists. rewrite Htr, <- app_assoc. split; [reflexivity|].
    apply Forall_app. split; [exact Hall'|repeat constructor].
  - split; [exact Hg|]. split; [exact Hl|]. split.
    { eexists. rewrite Hlog, <- !app_assoc. reflexivity. }
    split; [|left; exact Hf].
    eexists. rewrite Htr, <- app_assoc. split; [reflexivity|].
    apply Forall_app. split; [exact Hall'|repeat constructor].
  - split; [exact Hg|]. split; [exact Hl|]. split.
    { eexists. rewrite Hlog, <- !app_assoc. reflexivity. }
    split; [|right; split; [exact Hp|rewrite Hopen, Hf; reflexivity]].
    eexists. rewrite Htr, <- app_assoc. split; [reflexivity|].
    apply Forall_app. split; [exact Hall'|repeat constructor].
Qed.

Section PublishStage.

Variable Inv : world -> Prop.
Variable allowed : event -> Prop.
Variable E : env.
Variable ui : widgets.
Variable article : pystr.
Hypothesis Hlog : forall msg, preserves Inv (append_log msg).
Hypothesis Hemit : forall ev, allowed ev -> preserves Inv (emit ev).
Hypothesis Hget : forall headers, allowed (EvGet ORGS_ENDPOINT headers 10).
Hypothesis Hpost : forall org_id token,
  allowed (EvPost UGC_POSTS_ENDPOINT (post_headers token)
             (build_ugc_payload org_id article) 15).
Hypothesis Hbackend : forall org_id key, allowed (EvBackendPost article org_id key).
Hypothesis Hnotice : forall msg, allowed (EvSuccess msg).

Lemma stage_get_linkedin_org_id (headers : header_set) :
  preserves Inv (get_linkedin_org_id E headers).
Proof.
  unfold get_linkedin_org_id.
  apply preserves_bind; [apply Hemit; apply Hget|]. intros _.
  apply preserves_bind; [apply preserves_lift|]. intros resp.
  apply preserves_lift.
Qed.

Lemma stage_post_to_linkedin_api (org_id token : pystr) :
  preserves Inv
    (post_to_linkedin_api E (build_ugc_payload org_id article) token 15).
Proof.
  unfold post_to_linkedin_api.
  apply preserves_bind; [apply Hemit; apply Hpost|]. intros _.
  apply preserves_bind; [apply preserves_lift|]. intros resp.
  apply preserves_bind; [apply preserves_lift|]. intros _.
  destruct (resp_json resp); apply preserves_ret.
Qed.

Lemma stage_publish_with_backend (entry : post_entry) :
  preserves Inv (publish_with_backend E ui entry article).
Proof.
  unfold publish_with_backend.
  apply preserves_bind; [apply Hlog|]. intros _.
  apply preserves_with_session. intros s.
  apply preserves_bind.
  { apply preserves_except_TypeError.
    - apply preserves_bind; [apply Hemit; apply Hbackend|]. intros _.
      apply preserves_lift.
    - apply preserves_bind; [apply Hemit; apply Hbackend|]. intros _.
      apply preserves_lift. }
  intros response.
  apply preserves_bind; [apply Hlog|]. intros _.
  apply preserves_bind; [apply preserves_lift|]. intros dumped.
  apply preserves_bind; [apply Hlog|]. intros _.
  apply Hemit. apply Hnotice.
Qed.

Lemma stage_resolve_org_id (headers : header_set) :
  preserves Inv (resolve_org_id E ui headers).
Proof.
  unfold resolve_org_id.
  destruct (str_truthy (ui_org_id_override ui)); [apply preserves_ret|].
  apply preserves_try_except.
  - apply preserves_bind; [apply stage_get_linkedin_org_id|].
    intros [org_id|]; [|apply preserves_raise].
    destruct (str_truthy org_id); [|apply preserves_raise].
    apply preserves_bind; [apply Hlog|]. intros _. apply preserves_ret.
  - intros e. apply preserves_bind; [apply Hlog|]. intros _.
    apply preserves_raise.
Qed.

Lemma stage_publish_directly :
  preserves Inv (publish_directly E ui article).
Proof.
  unfold publish_directly.
  apply preserves_with_session. intros s.
  apply preserves_bind; [apply stage_resolve_org_id|]. intros org_id.
  destruct (ui_dry_run ui).
  - apply preserves_bind; [apply Hlog|]. intros _.
    apply preserves_bind; [apply Hlog|]. intros _.
    apply Hemit. apply Hnotice.
  - apply preserves_bind; [apply Hlog|]. intros _.
    apply preserves_with_session. intros s'.
    apply preserves_bind; [apply stage_post_to_linkedin_api|]. intros resp.
    apply preserves_bind; [apply Hlog|]. intros _.
    apply preserves_bind; [apply Hlog|]. intros _.
    apply Hemit. apply Hnotice.
Qed.

Lemma stage_publish_attempt :
  preserves Inv
    (try_except
       (match BACKEND_MODULE E, backend_post_to_linkedin E with
        | true, Some entry => publish_with_backend E ui entry article
        | _, _ => publish_directly E ui article
        end)
       report_publish_error).
Proof.
  apply preserves_try_except.
  - destruct (BACKEND_MODULE E), (backend_post_to_linkedin E);
      first [apply stage_publish_with_backend | apply stage_publish_directly].
  - intros e. unfold report_publish_error.
    destruct (is_HTTPError e); apply Hlog.
Qed.

End PublishStage.

Lemma try_except_returns (m : prog unit) (h : exn -> prog unit) (w : world) :
  (forall e w1, (h e w1).1 = Return tt) ->
  (try_except m h w).1 = Return tt.
Proof.
  intros Hh. unfold try_except.
  destruct (m w) as [[[]|e] w1]; [reflexivity|apply Hh].
Qed.

Lemma report_publish_error_returns (e : exn) (w : world) :
  (report_publish_error e w).1 = Return tt.
Proof. unfold report_publish_error. destruct (is_HTTPError e); reflexivity. Qed.

Lemma publish_handler_summary (E : env) (ui : widgets) (w : world) :
  (publish_handler E ui w).1 = Return tt
  /\ files (publish_handler E ui w).2 = files w
  /\ generated_article (session (publish_handler E ui w).2)
     = generated_article (session w)
  /\ gemini_key (session (publish_handler E ui w).2) = gemini_key (session w)
  /\ linkedin_key (session (publish_handler E ui w).2)
     = (if str_truthy (generated_article (session w))
        then str_or (ui_linkedin_key ui) (linkedin_key (session w))
        else linkedin_key (session w))
  /\ (exists new,
        logs (session (publish_handler E ui w).2)
        = logs (session w) ++ py "[info] Publishing started..." :: new)
  /\ (exists evs,
        trace (publish_handler E ui w).2 = trace w ++ evs
        /\ Forall publish_event evs).
Proof.
  destruct (generated_article (session w)) as [|c article] eqn:Hart.
  { rewrite (publish_handler_no_article E ui w Hart). simp_world.
    repeat split; try reflexivity.
    - eexists. reflexivity.
    - exists []. rewrite app_nil_r. split; [reflexivity|constructor]. }
  assert (Hart' : generated_article (session w) <> [])
    by (rewrite Hart; discriminate).
  simp_world.
  destruct (str_or (ui_linkedin_key ui) (linkedin_key (session w)))
    as [|k0 key] eqn:Hkey.
  { rewrite (publish_handler_no_key E ui w Hart' Hkey). simp_world.
    repeat split; try reflexivity; try exact Hart.
    - eexists. reflexivity.
    - exists []. rewrite app_nil_r. split; [reflexivity|constructor]. }
  assert (Hkey' : str_or (ui_linkedin_key ui) (linkedin_key (session w)) <> [])
    by (rewrite Hkey; discriminate).
  rewrite (publish_handler_passes E ui w Hart' Hkey').
  split.
  { apply try_except_returns. apply report_publish_error_returns. }
  match goal with
  | |- context [try_except ?m ?h ?w1] =>
      pose proof (stage_publish_attempt (handler_frame publish_event w1)
                    publish_event E ui (generated_article (session w))
                    (frame_append_log _ _) (fun ev H => frame_emit _ _ ev H)
                    (fun _ => I) (fun _ _ => I) (fun _ _ => I) (fun _ => I)
                    w1 (handler_frame_refl _ _))
        as (Hf & Ha & Hg & Hl & (new & Hlog) & evs & Htr & Hall)
  end.
  simp_world_in Hf. simp_world_in Ha. simp_world_in Hg. simp_world_in Hl.
  simp_world_in Hlog. simp_world_in Htr.
  split; [exact Hf|]. split; [rewrite Ha; exact Hart|]. split; [exact Hg|].
  split; [rewrite Hl; exact Hkey|]. split.
  - exists new. rewrite Hlog, <- app_assoc. reflexivity.
  - exists evs. split; [exact Htr|exact Hall].
Qed.

(** X11.  The generate handler never raises, whatever the outside does:
    a failure of the backend module ends as a log line.  The log only
    grows: it is the log before, then the start line, then further
    lines. *)
Theorem generate_handler_returns (E : env) (ui : widgets) (w : world) :
  (generate_handler E ui w).1 = Return tt
  /\ exists new,
       logs (session (generate_handler E ui w).2)
       = logs (session w) ++ py "[info] Generation started..." :: new.
Proof.
  destruct (generate_handler_summary E ui w) as (Hret & _ & _ & Hlog & _).
  split; assumption.
Qed.

(** X12.  After the generate handler each key held in the session is the
    one typed in, or, when the field is empty, the one held before: an
    empty field never erases a key. *)
Theorem generate_handler_keeps_keys (E : env) (ui : widgets) (w : world) :
  gemini_key (session (generate_handler E ui w).2)
  = (if str_truthy (ui_gemini_key ui) then ui_gemini_key ui
     else gemini_key (session w))
  /\ linkedin_key (session (generate_handler E ui w).2)
     = (if str_truthy (ui_linkedin_key ui) then ui_linkedin_key ui
        else linkedin_key (session w)).
Proof.
  destruct (generate_handler_summary E ui w) as (_ & Hg & Hl & _).
  split; assumption.
Qed.

(** X13.  The generate handler changes no file other than the save
    path.  The file at the save path is left as it was (no save path,
    no article obtained, or the file could not be opened), or holds the
    article just stored in the session (the write succeeded), or holds
    what an interrupted write left behind: the file is truncated when
    it is opened, so a write that fails afterwards loses the old
    content. *)
Theorem generate_handler_files (E : env) (ui : widgets) (w : world) :
  (forall p, p <> ui_save_path ui ->
             files (generate_handler E ui w).2 !! p = files w !! p)
  /\ (ui_save_path ui = [] -> files (generate_handler E ui w).2 = files w)
  /\ (files (generate_handler E ui w).2 = files w
      \/ match open_write E (ui_save_path ui)
                 (generated_article (session (generate_handler E ui w).2)) with
         | Written =>
             files (generate_handler E ui w).2
             = <[ui_save_path ui
                 := generated_article (session (generate_handler E ui w).2)]>
               (files w)
         | NotOpened _ => False
         | Interrupted _ left_behind =>
             files (generate_handler E ui w).2
             = <[ui_save_path ui := left_behind]> (files w)
         end).
Proof.
  destruct (generate_handler_summary E ui w) as (_ & _ & _ & _ & _ & Hfiles).
  split; [|split].
  - intros p Hp. destruct Hfiles as [-> | [_ H]]; [reflexivity|].
    destruct (open_write E (ui_save_path ui)
                (generated_article (session (generate_handler E ui w).2)));
      [|contradiction|]; rewrite H; apply lookup_insert_ne; congruence.
  - intros Hpath. destruct Hfiles as [H | [Hne _]]; [exact H|contradiction].
  - destruct Hfiles as [H | [_ H]]; [left|right]; exact H.
Qed.

Lemma generate_handler_files_witness :
  files (generate_handler env_disk_full ui_saving world_with_article).2
  = <[py "article.txt" := []]> (files world_with_article)
  /\ files (generate_handler env_disk_full ui_saving world_with_article).2
     !! py "notes.txt" = None.
Proof.
  destruct (generate_handler_files env_disk_full ui_saving world_with_article)
    as (Hother & _ & Hsaved).
  split.
  - destruct Hsaved as [H | H]; [|exact H].
    exfalso.
    apply (f_equal (fun m => m !! py "article.txt")) in H.
    vm_compute in H. discriminate H.
  - rewrite (Hother (py "notes.txt")); [reflexivity|discriminate].
Defined.

(** X14.  The generate handler never contacts the platform: the calls it
    makes are the configuration, the attempts and the sleeps of the
    generation client, the backend module's generation entry point, the
    preview and the opening of the save file; there is no GET, no POST
    and no call of a publish entry point among them. *)
Theorem generate_handler_calls (E : env) (ui : widgets) (w : world) :
  exists evs,
    trace (generate_handler E ui w).2 = trace w ++ evs
    /\ Forall generate_handler_event evs
    /\ Forall (fun ev => ~ publish_event ev) evs.
Proof.
  destruct (generate_handler_summary E ui w)
    as (_ & _ & _ & _ & (evs & Htr & Hall) & _).
  exists evs. split; [exact Htr|]. split; [exact Hall|].
  eapply Forall_impl; [exact Hall|].
  intros ev Hev Hpub. destruct ev; first [exact Hev | exact Hpub].
Qed.

(** X15.  The publish handler never raises, whatever the platform or the
    backend module does: every failure ends as a log line.  The log
    only grows: it is the log before, then the start line, then further
    lines. *)
Theorem publish_handler_returns (E : env) (ui : widgets) (w : world) :
  (publish_handler E ui w).1 = Return tt
  /\ exists new,
       logs (session (publish_handler E ui w).2)
       = logs (session w) ++ py "[info] Publishing started..." :: new.
Proof.
  destruct (publish_handler_summary E ui w) as (Hret & _ & _ & _ & _ & Hlog & _).
  split; assumption.
Qed.

(** X16.  The publish handler leaves the files, the article and the
    generation key as they were.  The platform key held in the session
    is untouched when no article is present; otherwise it becomes the
    key typed in, or stays the one held before when the field is
    empty. *)
Theorem publish_handler_frame (E : env) (ui : widgets) (w : world) :
  files (publish_handler E ui w).2 = files w
  /\ generated_article (session (publish_handler E ui w).2)
     = generated_article (session w)
  /\ gemini_key (session (publish_handler E ui w).2) = gemini_key (session w)
  /\ linkedin_key (session (publish_handler E ui w).2)
     = (if str_truthy (generated_article (session w))
        then (if str_truthy (ui_linkedin_key ui) then ui_linkedin_key ui
              else linkedin_key (session w))
        else linkedin_key (session w)).
Proof.
  destruct (publish_handler_summary E ui w) as (_ & Hf & Ha & Hg & Hl & _).
  repeat split; assumption.
Qed.

(** X17.  The calls the publish handler makes are GETs, POSTs, calls of
    the backend module's publish entry point and success notices: it
    never calls the generation service, never sleeps and never opens a
    file. *)
Theorem publish_handler_calls (E : env) (ui : widgets) (w : world) :
  exists evs,
    trace (publish_handler E ui w).2 = trace w ++ evs
    /\ Forall publish_event evs
    /\ Forall (fun ev => ~ generate_handler_event ev) evs.
Proof.
  destruct (publish_handler_summary E ui w)
    as (_ & _ & _ & _ & _ & _ & evs & Htr & Hall).
  exists evs. split; [exact Htr|]. split; [exact Hall|].
  eapply Forall_impl; [exact Hall|].
  intros ev Hev Hgen. destruct ev; first [exact Hev | exact Hgen].
Qed.

(** X18.  In the script the publish handler runs only with dry run off
    and a key typed into the field: while dry run is ticked, or the
    field is empty even though the session holds a key, a click on
    publish does nothing, and whatever was clicked no GET, no POST and
    no publish entry point is called. *)
Theorem script_publish_gate (E : env) (ui : widgets)
    (generate_clicked publish_clicked : bool) (w : world) :
  ui_dry_run ui = true \/ ui_linkedin_key ui = [] ->
  run_script E ui generate_clicked publish_clicked w
  = run_script E ui generate_clicked false w
  /\ run_script E ui false publish_clicked w = (Return tt, w)
  /\ exists evs,
       trace (run_script E ui generate_clicked publish_clicked w).2
       = trace w ++ evs
       /\ Forall (fun ev => ~ publish_event ev) evs.
Proof.
  intros Hgate.
  assert (Hdis : publish_disabled ui = true).
  { unfold publish_disabled. destruct Hgate as [-> | ->]; [reflexivity|].
    apply orb_true_r. }
  assert (Hrun : forall g,
            run_script E ui g publish_clicked w = run_script E ui g false w).
  { intros g. unfold run_script. rewrite Hdis. cbn [negb].
    rewrite andb_false_r. reflexivity. }
  split; [apply Hrun|]. split; [rewrite Hrun; reflexivity|].
  rewrite Hrun. unfold run_script. cbn [andb].
  destruct generate_clicked.
  - destruct (generate_handler_summary E ui w)
      as (Hret & _ & _ & _ & (evs & Htr & Hall) & _).
    unfold mbind, prog_bind.
    destruct (generate_handler E ui w) as [r w'].
    cbn [fst snd] in Hret, Htr. subst r. cbn [mret prog_ret snd].
    exists evs. split; [exact Htr|].
    eapply Forall_impl; [exact Hall|].
    intros ev Hev Hpub. destruct ev; first [exact Hev | exact Hpub].
  - exists []. cbn. rewrite app_nil_r. split; [reflexivity|constructor].
Qed.

Lemma script_publish_gate_witness :
  run_script env_live ui_dry_run_token false true world_with_article
  = (Return tt, world_with_article)
  /\ run_script env_live
       (mk_widgets (py "X") DEFAULT_MODEL [] [] [] [] false) false true
       (mk_world (mk_session (py "Hello world") [] [] (py "token")) ∅ [])
     = (Return tt,
        mk_world (mk_session (py "Hello world") [] [] (py "token")) ∅ []).
Proof.
  split.
  - destruct (script_publish_gate env_live ui_dry_run_token false true
                world_with_article) as (_ & H & _); [left; reflexivity|exact H].
  - destruct (script_publish_gate env_live
                (mk_widgets (py "X") DEFAULT_MODEL [] [] [] [] false) false true
                (mk_world (mk_session (py "Hello world") [] [] (py "token")) ∅ []))
      as (_ & H & _); [right; reflexivity|exact H].
Defined.

(** ** The generate handler, path by path *)

(** Once the article text is obtained, the handler stores it, previews
    its first 3000 units and, with a save path, tries the file. *)
Lemma generate_handler_after_obtain (E : env) (ui : widgets) (w w2 : world)
    (a : pystr) :
  obtain_article E ui (generation_started ui w) = (Return a, w2) ->
  generated_article (session (generate_handler E ui w).2) = a
  /\ (exists more,
        logs (session (generate_handler E ui w).2) = logs (session w2) ++ more)
  /\ exists tail,
       trace (generate_handler E ui w).2
       = trace w2 ++ EvPreview (slice_to 3000 a) :: tail
       /\ (tail = [] \/ tail = [EvOpenWrite (ui_save_path ui)]).
Proof.
  intros Hobtain. rewrite generate_handler_unfold.
  unfold try_except, mbind, prog_bind. rewrite Hobtain.
  destruct w2 as [[a2 lg2 gk2 lk2] fs2 tr2]. unfold save_article.
  destruct (ui_save_path ui) as [|c path] eqn:Hpath.
  - run_prog. split; [reflexivity|]. split.
    + exists []. rewrite app_nil_r. reflexivity.
    + exists []. split; [reflexivity|left; reflexivity].
  - run_prog.
    destruct (open_write E (c :: path) a) as [|e|e left_behind]; simp_world;
      (split; [reflexivity|]); (split; [eexists; reflexivity|]);
      eexists; rewrite <- app_assoc; (split; [reflexivity|right; reflexivity]).
Qed.

(** When obtaining the article text fails, the handler logs the failure
    and stops: nothing is stored, previewed or saved. *)
Lemma generate_handler_after_failure (E : env) (ui : widgets) (w w2 : world)
    (e : exn) :
  obtain_article E ui (generation_started ui w) = (Raise e, w2) ->
  generate_handler E ui w
  = (Return tt,
     mk_world (with_log (session w2) (py "[error] Generation failed: " ++ exn_str e))
       (files w2) (trace w2)).
Proof.
  intros Hobtain. rewrite generate_handler_unfold.
  unfold try_except, mbind at 1, prog_bind at 1. rewrite Hobtain.
  destruct w2 as [[a2 lg2 gk2 lk2] fs2 tr2]. reflexivity.
Qed.

Lemma obtain_article_without_backend (E : env) (ui : widgets) :
  BACKEND_MODULE E = false \/ backend_generate_article E = None ->
  obtain_article E ui = generate_without_backend E ui.
Proof.
  unfold obtain_article. intros [-> | ->]; [reflexivity|].
  destruct (BACKEND_MODULE E); reflexivity.
Qed.

Lemma generate_without_backend_client (E : env) (ui : widgets) (w : world) :
  GENAI_AVAILABLE E = true ->
  gemini_key (session w) <> [] ->
  generate_without_backend E ui w
  = try_except
      (article_text ←
         generate_article_with_gemini E (ui_prompt ui) (ui_model ui)
           (Some (gemini_key (session w))) 2;
       append_log (py "[info] Gemini generation succeeded.");;
       mret article_text)
      (fun e =>
         append_log (py "[warn] Gemini generation failed: " ++ exn_str e
                     ++ py ". Falling back to mock.");;
         mret (mock_generation (ui_prompt ui)))
      (mk_world (with_log (session w) (py "[info] Generating via Gemini (remote)."))
         (files w) (trace w)).
Proof.
  intros Hav Hkey. destruct w as [[a lg gk lk] fs tr].
  cbn [session gemini_key] in *. apply str_truthy_nonempty in Hkey.
  unfold generate_without_backend, mbind at 1, prog_bind at 1, get_session.
  cbn [session gemini_key]. rewrite Hav, Hkey. reflexivity.
Qed.

(** X19.  Fallback of the generate handler.  Without backend module,
    with the client library and a generation key, when all three
    attempts fail the handler does not fail: it logs a warning naming
    the error of the third attempt and stores the prompt header followed
    by the fixed placeholder article.  Three attempts were made, with
    sleeps of 1 and 2 seconds. *)
Theorem generate_handler_fallback (E : env) (ui : widgets) (w : world) :
  BACKEND_MODULE E = false \/ backend_generate_article E = None ->
  GENAI_AVAILABLE E = true ->
  str_or (ui_gemini_key ui) (gemini_key (session w)) <> [] ->
  (forall k, 1 <= k <= 3 ->
             exists e, attempt_fails_with E (ui_prompt ui) (ui_model ui) k e) ->
  generated_article (session (generate_handler E ui w).2)
  = mock_generation (ui_prompt ui)
  /\ (exists e,
        attempt_fails_with E (ui_prompt ui) (ui_model ui) 3 e
        /\ In (py "[warn] Gemini generation failed: " ++ exn_str e
               ++ py ". Falling back to mock.")
              (logs (session (generate_handler E ui w).2)))
  /\ exists evs,
       trace (generate_handler E ui w).2 = trace w ++ evs
       /\ count_attempts evs = 3
       /\ sleeps_of evs = [1; 2].
Proof.
  intros Hback Hav Hkey Hfail.
  destruct (Hfail 3) as [e He]; [lia|].
  assert (Hobtain :
    obtain_article E ui (generation_started ui w)
    = (Return (mock_generation (ui_prompt ui)),
       mk_world
         (with_log
            (with_log (session (generation_started ui w))
               (py "[info] Generating via Gemini (remote)."))
            (py "[warn] Gemini generation failed: " ++ exn_str e
             ++ py ". Falling back to mock."))
         (files w)
         (trace w
          ++ (configure_events
                (Some (str_or (ui_gemini_key ui) (gemini_key (session w))))
              ++ retry_events (ui_model ui) (ui_prompt ui) 0 2
              ++ [EvGenerate (ui_model ui) (ui_prompt ui) 3])))).
  { rewrite (obtain_article_without_backend E ui Hback).
    rewrite generate_without_backend_client; [|exact Hav|exact Hkey].
    unfold try_except, mbind at 1, prog_bind at 1.
    rewrite (generate_article_with_gemini_loop _ _ _ _ _ _ Hav).
    rewrite (retry_loop_exhausts E (ui_prompt ui) (ui_model ui) 2 e 2 0);
      [|lia|intros k Hk; apply Hfail; lia|exact He].
    unfold generation_started, record_events, with_log, append_log, mbind,
      prog_bind, get_session, put_session, mret, prog_ret.
    simp_world. rewrite <- !app_assoc. reflexivity. }
  destruct (generate_handler_after_obtain E ui w _ _ Hobtain)
    as (Hart & (more & Hlogs) & tail & Htr & Htail).
  split; [exact Hart|]. split.
  - exists e. split; [exact He|]. rewrite Hlogs. apply in_or_app. left.
    unfold with_log. cbn [logs session]. apply in_or_app. right. left.
    reflexivity.
  - eexists. rewrite Htr. cbn [trace]. rewrite <- app_assoc.
    split; [reflexivity|].
    rewrite !count_attempts_app, !sleeps_of_app, count_attempts_configure,
      sleeps_of_configure, count_attempts_retries, sleeps_of_retries.
    destruct Htail as [-> | ->]; split; reflexivity.
Qed.

Lemma generate_handler_fallback_witness :
  generated_article (session (generate_handler env_down ui_with_gemini_key
                                fresh_world).2)
  = mock_generation (py "X").
Proof.
  destruct (generate_handler_fallback env_down ui_with_gemini_key fresh_world)
    as (H & _).
  - left. reflexivity.
  - reflexivity.
  - discriminate.
  - intros k Hk. eexists. left. reflexivity.
  - exact H.
Defined.

(** X20.  Success of the generate handler through the client.  Without
    backend module, with the client library and a generation key, when
    attempt [N + 1 <= 3] is the first to succeed, with text [t], the
    handler stores exactly [t] as the article and logs the success. *)
Theorem generate_handler_client_success (E : env) (ui : widgets) (w : world)
    (N : nat) (t : pystr) :
  BACKEND_MODULE E = false \/ backend_generate_article E = None ->
  GENAI_AVAILABLE E = true ->
  str_or (ui_gemini_key ui) (gemini_key (session w)) <> [] ->
  (N <= 2)%nat ->
  (forall k, 1 <= k <= Z.of_nat N ->
             exists e, attempt_fails_with E (ui_prompt ui) (ui_model ui) k e) ->
  attempt_succeeds E (ui_prompt ui) (ui_model ui) (Z.of_nat N + 1) t ->
  generated_article (session (generate_handler E ui w).2) = t
  /\ In (py "[info] Gemini generation succeeded.")
        (logs (session (generate_handler E ui w).2))
  /\ exists evs,
       trace (generate_handler E ui w).2 = trace w ++ evs
       /\ count_attempts evs = Z.of_nat N + 1.
Proof.
  intros Hback Hav Hkey HN Hfail Hok.
  assert (Hobtain :
    obtain_article E ui (generation_started ui w)
    = (Return t,
       mk_world
         (with_log
            (with_log (session (generation_started ui w))
               (py "[info] Generating via Gemini (remote)."))
            (py "[info] Gemini generation succeeded."))
         (files w)
         (trace w
          ++ (configure_events
                (Some (str_or (ui_gemini_key ui) (gemini_key (session w))))
              ++ retry_events (ui_model ui) (ui_prompt ui) 0 N
              ++ [EvGenerate (ui_model ui) (ui_prompt ui) (Z.of_nat N + 1)])))).
  { rewrite (obtain_article_without_backend E ui Hback).
    rewrite generate_without_backend_client; [|exact Hav|exact Hkey].
    unfold try_except, mbind at 1, prog_bind at 1.
    rewrite (generate_article_with_gemini_loop _ _ _ _ _ _ Hav).
    rewrite (retry_loop_succeeds E (ui_prompt ui) (ui_model ui) 2 t N 0);
      [|lia|intros k Hk; apply Hfail; lia|exact Hok].
    unfold generation_started, record_events, with_log, append_log, mbind,
      prog_bind, get_session, put_session, mret, prog_ret.
    simp_world. rewrite <- !app_assoc. reflexivity. }
  destruct (generate_handler_after_obtain E ui w _ _ Hobtain)
    as (Hart & (more & Hlogs) & tail & Htr & Htail).
  split; [exact Hart|]. split.
  - rewrite Hlogs. apply in_or_app. left.
    unfold with_log. cbn [logs session]. apply in_or_app. right. left.
    reflexivity.
  - eexists. rewrite Htr. cbn [trace]. rewrite <- app_assoc.
    split; [reflexivity|].
    rewrite !count_attempts_app, count_attempts_configure,
      count_attempts_retries.
    destruct Htail as [-> | ->]; cbn [count_attempts]; lia.
Qed.

Lemma generate_handler_client_success_witness :
  generated_article (session (generate_handler env_flaky ui_with_gemini_key
                                fresh_world).2)
  = py "Hello".
Proof.
  destruct (generate_handler_client_success env_flaky ui_with_gemini_key
              fresh_world 2 (py "Hello")) as (H & _).
  - left. reflexivity.
  - reflexivity.
  - discriminate.
  - lia.
  - intros k Hk. eexists. left. simpl.
    destruct (Z.ltb_spec k 3) as [_|Hge]; [reflexivity|simpl in Hk; lia].
  - eexists. split; reflexivity.
  - exact H.
Defined.

(** X21.  The backend module's generation entry point is first called
    with the key as a named argument; when that call raises a
    [TypeError] it is called once more without the key.  The text of
    the second call becomes the article; an exception of the second
    call, of whatever class, is logged and leaves the article as it
    was. *)
Theorem backend_generation_second_call (E : env) (ui : widgets) (w : world)
    (entry : generate_entry) (e0 : exn) :
  BACKEND_MODULE E = true ->
  backend_generate_article E = Some entry ->
  generate_keyed entry (ui_prompt ui) (ui_model ui)
    (str_or (ui_gemini_key ui) (gemini_key (session w))) = Raise e0 ->
  is_TypeError e0 = true ->
  (forall a,
     generate_plain entry (ui_prompt ui) (ui_model ui) = Return a ->
     generated_article (session (generate_handler E ui w).2) = a
     /\ exists tail,
          trace (generate_handler E ui w).2
          = trace w
            ++ [ EvBackendGenerate (ui_prompt ui) (ui_model ui)
                   (Some (str_or (ui_gemini_key ui) (gemini_key (session w))));
                 EvBackendGenerate (ui_prompt ui) (ui_model ui) None ]
            ++ tail)
  /\ (forall e,
        generate_plain entry (ui_prompt ui) (ui_model ui) = Raise e ->
        generate_handler E ui w
        = (Return tt,
           mk_world
             (mk_session (generated_article (session w))
                (logs (session w)
                 ++ [ py "[info] Generation started...";
                      py "[info] Using external backend module for generation.";
                      py "[error] Generation failed: " ++ exn_str e ])
                (str_or (ui_gemini_key ui) (gemini_key (session w)))
                (str_or (ui_linkedin_key ui) (linkedin_key (session w))))
             (files w)
             (trace w
              ++ [ EvBackendGenerate (ui_prompt ui) (ui_model ui)
                     (Some (str_or (ui_gemini_key ui) (gemini_key (session w))));
                   EvBackendGenerate (ui_prompt ui) (ui_model ui) None ]))).
Proof.
  intros Hmod Hentry Hkeyed Hcls.
  assert (Hobtain : forall r,
    generate_plain entry (ui_prompt ui) (ui_model ui) = r ->
    obtain_article E ui (generation_started ui w)
    = match r with
      | Return a =>
          (Return a,
           mk_world
             (with_log
                (with_log (session (generation_started ui w))
                   (py "[info] Using external backend module for generation."))
                (py "[info] Generation completed using backend module."))
             (files w)
             (trace w
              ++ [ EvBackendGenerate (ui_prompt ui) (ui_model ui)
                     (Some (str_or (ui_gemini_key ui) (gemini_key (session w))));
                   EvBackendGenerate (ui_prompt ui) (ui_model ui) None ]))
      | Raise e =>
          (Raise e,
           mk_world
             (with_log (session (generation_started ui w))
                (py "[info] Using external backend module for generation."))
             (files w)
             (trace w
              ++ [ EvBackendGenerate (ui_prompt ui) (ui_model ui)
                     (Some (str_or (ui_gemini_key ui) (gemini_key (session w))));
                   EvBackendGenerate (ui_prompt ui) (ui_model ui) None ]))
      end).
  { intros r Hr. unfold obtain_article. rewrite Hmod, Hentry.
    destruct w as [[a0 lg gk lk] fs tr]. cbn [session gemini_key] in Hkeyed.
    unfold generation_started, with_log. run_prog.
    rewrite Hkeyed, Hcls, Hr. destruct r; simp_world;
      rewrite <- !app_assoc; reflexivity. }
  split.
  - intros a Ha.
    destruct (generate_handler_after_obtain E ui w _ _ (Hobtain _ Ha))
      as (Hart & _ & tail & Htr & _).
    split; [exact Hart|]. eexists. rewrite Htr. cbn [trace].
    rewrite <- app_assoc. reflexivity.
  - intros e He.
    rewrite (generate_handler_after_failure E ui w _ _ (Hobtain _ He)).
    unfold generation_started, with_log. simp_world.
    rewrite <- !app_assoc. reflexivity.
Qed.

Lemma backend_generation_second_call_witness :
  generated_article (session (generate_handler env_positional_backend
                                ui_prompt_X fresh_world).2)
  = py "Article about X".
Proof.
  destruct (backend_generation_second_call env_positional_backend ui_prompt_X
              fresh_world positional_entry
              (exception TypeError "unexpected keyword argument 'gemini_api_key'")
              eq_refl eq_refl eq_refl eq_refl) as [Hok _].
  destruct (Hok (py "Article about X") eq_refl) as [H _]. exact H.
Defined.

(** ** The publish handler, path by path *)

Lemma publish_attempt_direct (E : env) (ui : widgets) (article : pystr) :
  BACKEND_MODULE E = false \/ backend_post_to_linkedin E = None ->
  match BACKEND_MODULE E, backend_post_to_linkedin E with
  | true, Some entry => publish_with_backend E ui entry article
  | _, _ => publish_directly E ui article
  end = publish_directly E ui article.
Proof.
  intros [-> | ->]; [reflexivity|]. destruct (BACKEND_MODULE E); reflexivity.
Qed.

(** X22.  When the backend module has a publish entry point, the publish
    handler does not look at the dry-run box: ticked or not, it does the
    same. *)
Theorem backend_publish_ignores_dry_run (E : env) (ui : widgets) (w : world)
    (entry : post_entry) :
  BACKEND_MODULE E = true ->
  backend_post_to_linkedin E = Some entry ->
  publish_handler E (with_dry_run ui true) w
  = publish_handler E (with_dry_run ui false) w.
Proof.
  intros Hmod Hentry.
  destruct (generated_article (session w)) as [|c article] eqn:Hart.
  { rewrite !(publish_handler_no_article E _ w Hart). reflexivity. }
  assert (Hart' : generated_article (session w) <> [])
    by (rewrite Hart; discriminate).
  destruct (str_or (ui_linkedin_key ui) (linkedin_key (session w)))
    as [|k0 key] eqn:Hkey.
  { rewrite (publish_handler_no_key E (with_dry_run ui true) w Hart' Hkey),
      (publish_handler_no_key E (with_dry_run ui false) w Hart' Hkey).
    reflexivity. }
  assert (Hkey' : forall b,
            str_or (ui_linkedin_key (with_dry_run ui b)) (linkedin_key (session w))
            <> []).
  { intros b. cbn [with_dry_run ui_linkedin_key]. rewrite Hkey. discriminate. }
  rewrite (publish_handler_passes E _ w Hart' (Hkey' true)),
    (publish_handler_passes E _ w Hart' (Hkey' false)).
  rewrite Hmod, Hentry. reflexivity.
Qed.

Lemma backend_publish_ignores_dry_run_witness :
  publish_handler env_shipped (with_dry_run ui_dry_run_token true)
    world_with_article
  = publish_handler env_shipped (with_dry_run ui_dry_run_token false)
      world_with_article.
Proof.
  apply (backend_publish_ignores_dry_run env_shipped ui_dry_run_token
           world_with_article linkedin_poster_core.post_entry_point);
    reflexivity.
Defined.

Lemma publish_handler_direct (E : env) (ui : widgets) (w : world) :
  BACKEND_MODULE E = false \/ backend_post_to_linkedin E = None ->
  generated_article (session w) <> [] ->
  str_or (ui_linkedin_key ui) (linkedin_key (session w)) <> [] ->
  publish_handler E ui w
  = try_except (publish_directly E ui (generated_article (session w)))
      report_publish_error (published ui w [] []).
Proof.
  intros Hback Hart Hkey.
  rewrite (publish_handler_passes E ui w Hart Hkey),
    (publish_attempt_direct E ui _ Hback).
  unfold published. rewrite app_nil_r. reflexivity.
Qed.

Ltac run_publish :=
  unfold try_except, publish_directly, resolve_org_id, get_linkedin_org_id,
    post_to_linkedin_api, report_publish_error, published;
  run_prog.

(** X23.  Live publishing with an organization id typed in (no backend
    module, dry run off, article and key present).  The handler resolves
    nothing and issues one POST carrying the payload built from the id
    and the article, with the session key as bearer token and a timeout
    of 15.  An answer that is not an error is logged and a success
    notice shown; an error status is logged as an HTTP error line with
    the response text; a transport error is logged as a failure line.
    In the last two cases no success notice is shown and nothing is
    retried. *)
Theorem live_publish_outcomes (E : env) (ui : widgets) (w : world) :
  BACKEND_MODULE E = false \/ backend_post_to_linkedin E = None ->
  ui_dry_run ui = false ->
  generated_article (session w) <> [] ->
  str_or (ui_linkedin_key ui) (linkedin_key (session w)) <> [] ->
  ui_org_id_override ui <> [] ->
  forall post,
    post = EvPost UGC_POSTS_ENDPOINT
             (post_headers (str_or (ui_linkedin_key ui) (linkedin_key (session w))))
             (build_ugc_payload (ui_org_id_override ui)
                (generated_article (session w))) 15 ->
    forall answer,
      answer = requests_post E UGC_POSTS_ENDPOINT
                 (post_headers (str_or (ui_linkedin_key ui)
                                  (linkedin_key (session w))))
                 (build_ugc_payload (ui_org_id_override ui)
                    (generated_article (session w))) ->
      (forall resp,
         answer = Return resp -> ~ error_status resp ->
         publish_handler E ui w
         = (Return tt,
            published ui w
              [ py "[info] Sending post to LinkedIn API.";
                py "[success] Posted to LinkedIn. Response (truncated):";
                slice_to 1000
                  (json_dumps E (match resp_json resp with
                                 | Some v => v
                                 | None => status_and_headers resp
                                 end)) ]
              [post; EvSuccess (py "Published to LinkedIn.")]))
      /\ (forall resp,
            answer = Return resp -> error_status resp ->
            publish_handler E ui w
            = (Return tt,
               published ui w
                 [ py "[info] Sending post to LinkedIn API.";
                   py "[http-error] " ++ resp_error resp ++ py " -- "
                   ++ resp_text resp ]
                 [post]))
      /\ (forall e,
            answer = Raise e ->
            publish_handler E ui w
            = (Return tt,
               published ui w
                 [ py "[info] Sending post to LinkedIn API.";
                   publish_error_line e ]
                 [post])).
Proof.
  intros Hback Hdry Hart Hkey Horg post -> answer Hanswer.
  rewrite (publish_handler_direct E ui w Hback Hart Hkey).
  destruct w as [[a lg gk lk] fs tr]. simp_world. cbn [session generated_article
    linkedin_key] in Hanswer.
  destruct (ui_org_id_override ui) as [|c org] eqn:Hov; [contradiction|].
  split; [|split].
  - intros resp Hresp Hok. rewrite Hresp in Hanswer.
    run_publish. rewrite Hov, Hdry. run_prog.
    unfold post_headers in Hanswer. rewrite <- Hanswer.
    rewrite (raise_for_status_ok _ Hok).
    destruct (resp_json resp); run_prog; rewrite <- !app_assoc; reflexivity.
  - intros resp Hresp Herr. rewrite Hresp in Hanswer.
    run_publish. rewrite Hov, Hdry. run_prog.
    unfold post_headers in Hanswer. rewrite <- Hanswer.
    rewrite (raise_for_status_error _ Herr).
    unfold http_error_of. cbn [is_HTTPError exn_cls exn_str exn_response_text
      default]. run_prog. rewrite <- !app_assoc. reflexivity.
  - intros e He. rewrite He in Hanswer.
    run_publish. rewrite Hov, Hdry. run_prog.
    unfold post_headers in Hanswer. rewrite <- Hanswer.
    unfold publish_error_line. destruct (is_HTTPError e); run_prog;
      rewrite <- !app_assoc; reflexivity.
Qed.

Lemma live_publish_outcomes_witness :
  publish_handler (env_posting forbidden_response) ui_live_org world_with_article
  = (Return tt,
     published ui_live_org world_with_article
       [ py "[info] Sending post to LinkedIn API.";
         py "[http-error] " ++ resp_error forbidden_response ++ py " -- "
         ++ resp_text forbidden_response ]
       [expected_post]).
Proof.
  destruct (live_publish_outcomes (env_posting forbidden_response) ui_live_org
              world_with_article) with (post := expected_post)
                                       (answer := @Return http_response
                                                    forbidden_response)
    as (_ & Herr & _).
  - left. reflexivity.
  - reflexivity.
  - discriminate.
  - discriminate.
  - discriminate.
  - reflexivity.
  - reflexivity.
  - apply (Herr forbidden_response eq_refl). unfold error_status. simpl. lia.
Defined.

Lemma resolver_answer_run (E : env) (k : pystr) (w : world) :
  get_linkedin_org_id E (bearer_headers k) w
  = (resolver_answer E k,
     record_events w [EvGet ORGS_ENDPOINT (bearer_headers k) 10]).
Proof. apply get_linkedin_org_id_run. Qed.

(** The organization look-up of the publish handler, when no id is typed
    in: one GET, then the id logged, or the failure logged and raised
    again. *)
Lemma resolve_org_id_lookup (E : env) (ui : widgets) (k : pystr) (w : world) :
  ui_org_id_override ui = [] ->
  resolve_org_id E ui (bearer_headers k) w
  = match resolver_answer E k with
    | Return (Some (c :: o)) =>
        (Return (c :: o),
         mk_world
           (with_log (session w) (py "[info] Auto-detected org id: " ++ c :: o))
           (files w)
           (trace w ++ [EvGet ORGS_ENDPOINT (bearer_headers k) 10]))
    | Return _ =>
        (Raise (exception RuntimeError "No organization found for token."),
         mk_world
           (with_log (session w)
              (py "[error] Could not auto-detect org id: "
               ++ py "No organization found for token."))
           (files w)
           (trace w ++ [EvGet ORGS_ENDPOINT (bearer_headers k) 10]))
    | Raise e =>
        (Raise e,
         mk_world
           (with_log (session w)
              (py "[error] Could not auto-detect org id: " ++ exn_str e))
           (files w)
           (trace w ++ [EvGet ORGS_ENDPOINT (bearer_headers k) 10]))
    end.
Proof.
  intros Hov. unfold resolve_org_id. rewrite Hov. cbn [str_truthy].
  unfold try_except, mbind at 1, prog_bind at 1.
  rewrite resolver_answer_run.
  destruct w as [[a lg gk lk] fs tr].
  destruct (resolver_answer E k) as [[[|c o]|]|e]; reflexivity.
Qed.

(** X24.  When no organization id is typed in and the look-up fails (the
    request fails, the answer has an error status or an unexpected
    shape, or no organization is found), the publish handler gives up
    after that one GET, with dry run on or off: nothing is posted, and
    the failure is logged twice, once as a look-up failure and once by
    the handler's own [except] clause. *)
Theorem publish_without_organization (E : env) (ui : widgets) (w : world)
    (e : exn) :
  BACKEND_MODULE E = false \/ backend_post_to_linkedin E = None ->
  generated_article (session w) <> [] ->
  str_or (ui_linkedin_key ui) (linkedin_key (session w)) <> [] ->
  ui_org_id_override ui = [] ->
  resolution_fails_with
    (resolver_answer E (str_or (ui_linkedin_key ui) (linkedin_key (session w))))
    e ->
  publish_handler E ui w
  = (Return tt,
     published ui w
       [ py "[error] Could not auto-detect org id: " ++ exn_str e;
         publish_error_line e ]
       [ EvGet ORGS_ENDPOINT
           (bearer_headers
              (str_or (ui_linkedin_key ui) (linkedin_key (session w))))
           10 ]).
Proof.
  intros Hback Hart Hkey Hov Hfail.
  rewrite (publish_handler_direct E ui w Hback Hart Hkey).
  unfold try_except, publish_directly, mbind at 1, prog_bind at 1, get_session.
  unfold mbind at 1, prog_bind at 1.
  change [ (py "Authorization",
            py "Bearer " ++ linkedin_key (session (published ui w [] [])));
           (py "X-Restli-Protocol-Version", py "2.0.0") ]
    with (bearer_headers (str_or (ui_linkedin_key ui) (linkedin_key (session w)))).
  rewrite (resolve_org_id_lookup E ui _ _ Hov).
  destruct w as [[a lg gk lk] fs tr]. simp_world_in Hfail.
  unfold published, with_log, report_publish_error, publish_error_line.
  simp_world.
  destruct Hfail as [-> | [[-> | ->] ->]].
  - destruct (is_HTTPError e); run_prog; rewrite <- !app_assoc; reflexivity.
  - cbn [is_HTTPError exception exn_cls]. run_prog.
    rewrite <- !app_assoc. reflexivity.
  - cbn [is_HTTPError exception exn_cls]. run_prog.
    rewrite <- !app_assoc. reflexivity.
Qed.

Lemma publish_without_organization_witness :
  publish_handler (env_answering empty_acl_response) ui_live_token
    world_with_article
  = (Return tt,
     published ui_live_token world_with_article
       [ py "[error] Could not auto-detect org id: "
         ++ py "No organization found for token.";
         py "[error] Publishing failed: " ++ py "No organization found for token." ]
       [ EvGet ORGS_ENDPOINT (bearer_headers (py "token")) 10 ]).
Proof.
  apply (publish_without_organization (env_answering empty_acl_response)
           ui_live_token world_with_article
           (exception RuntimeError "No organization found for token.")).
  - left. reflexivity.
  - discriminate.
  - discriminate.
  - reflexivity.
  - right. split; [left; reflexivity|reflexivity].
Defined.

(** X25.  Dry run on the application's own path (no backend module,
    article and key present).  With an organization id typed in the
    handler reaches nothing outside: it logs the payload preview and
    shows a notice.  Without one it still queries the platform: the
    first call is the GET of the resolver with the session key as
    bearer token, and nothing but a notice can follow it. *)
Theorem dry_run_calls (E : env) (ui : widgets) (w : world) :
  BACKEND_MODULE E = false \/ backend_post_to_linkedin E = None ->
  ui_dry_run ui = true ->
  generated_article (session w) <> [] ->
  str_or (ui_linkedin_key ui) (linkedin_key (session w)) <> [] ->
  (ui_org_id_override ui <> [] ->
   publish_handler E ui w
   = (Return tt,
      published ui w
        (dry_run_lines E
           (build_ugc_payload (ui_org_id_override ui)
              (generated_article (session w))))
        [EvSuccess (py "Dry-run: payload prepared (not posted)")]))
  /\ (ui_org_id_override ui = [] ->
      exists tail,
        trace (publish_handler E ui w).2
        = trace w
          ++ EvGet ORGS_ENDPOINT
               (bearer_headers
                  (str_or (ui_linkedin_key ui) (linkedin_key (session w))))
               10
             :: tail
        /\ (tail = []
            \/ tail = [EvSuccess (py "Dry-run: payload prepared (not posted)")])).
Proof.
  intros Hback Hdry Hart Hkey.
  rewrite (publish_handler_direct E ui w Hback Hart Hkey). split.
  - intros Hov. destruct w as [[a lg gk lk] fs tr]. simp_world.
    destruct (ui_org_id_override ui) as [|c org] eqn:Horg; [contradiction|].
    run_publish. rewrite Horg, Hdry. run_prog. unfold dry_run_lines.
    rewrite <- !app_assoc. reflexivity.
  - intros Hov.
    unfold try_except, publish_directly, mbind at 1, prog_bind at 1, get_session.
    unfold mbind at 1, prog_bind at 1.
    change [ (py "Authorization",
              py "Bearer " ++ linkedin_key (session (published ui w [] [])));
             (py "X-Restli-Protocol-Version", py "2.0.0") ]
      with (bearer_headers
              (str_or (ui_linkedin_key ui) (linkedin_key (session w)))).
    rewrite (resolve_org_id_lookup E ui _ _ Hov), Hdry.
    destruct w as [[a lg gk lk] fs tr].
    unfold published, with_log, report_publish_error. simp_world.
    destruct (resolver_answer E (str_or (ui_linkedin_key ui) lk))
      as [[[|c o]|]|e].
    + exists []. cbn [is_HTTPError exception exn_cls]. run_prog.
      rewrite app_nil_r. split; [reflexivity|left; reflexivity].
    + eexists. run_prog. rewrite app_nil_r, <- app_assoc.
      split; [reflexivity|right; reflexivity].
    + exists []. cbn [is_HTTPError exception exn_cls]. run_prog.
      rewrite app_nil_r. split; [reflexivity|left; reflexivity].
    + exists []. destruct (is_HTTPError e); run_prog; rewrite app_nil_r;
        (split; [reflexivity|left; reflexivity]).
Qed.

Lemma dry_run_calls_witness :
  trace (publish_handler bare_env ui_dry_org world_with_article).2
  = [EvSuccess (py "Dry-run: payload prepared (not posted)")]
  /\ exists tail,
       trace (publish_handler bare_env ui_dry_run_token world_with_article).2
       = EvGet ORGS_ENDPOINT (bearer_headers (py "token")) 10 :: tail.
Proof.
  assert (Hart : generated_article (session world_with_article) <> [])
    by discriminate.
  split.
  - assert (Hkey : str_or (ui_linkedin_key ui_dry_org)
                     (linkedin_key (session world_with_article)) <> [])
      by discriminate.
    destruct (dry_run_calls bare_env ui_dry_org world_with_article
                (or_introl eq_refl) eq_refl Hart Hkey) as [H _].
    rewrite H; [reflexivity|discriminate].
  - assert (Hkey : str_or (ui_linkedin_key ui_dry_run_token)
                     (linkedin_key (session world_with_article)) <> [])
      by discriminate.
    destruct (dry_run_calls bare_env ui_dry_run_token world_with_article
                (or_introl eq_refl) eq_refl Hart Hkey) as [_ H].
    destruct (H eq_refl) as (tail & Htr & _). exists tail. exact Htr.
Defined.

(** X26.  Whatever the environment, every POST of the publish handler
    goes to the content-creation endpoint with a timeout of 15 and
    carries a payload built from the article held in the session, whose
    commentary text has at most 3000 units; and the backend module's
    publish entry point is given that article, untruncated. *)
Theorem publish_handler_posts_article (E : env) (ui : widgets) (w : world) :
  exists evs,
    trace (publish_handler E ui w).2 = trace w ++ evs
    /\ (forall url hs payload timeout,
          In (EvPost url hs payload timeout) evs ->
          url = UGC_POSTS_ENDPOINT /\ timeout = 15
          /\ exists org_id text,
               payload = build_ugc_payload org_id (generated_article (session w))
               /\ commentary_text payload = VStr text
               /\ len text <= 3000)
    /\ (forall a org_id key,
          In (EvBackendPost a org_id key) evs ->
          a = generated_article (session w)).
Proof.
  assert (Hcalls : calls_carry (generated_article (session w)) w
                     (publish_handler E ui w).2).
  { destruct (generated_article (session w)) as [|c article] eqn:Hart.
    { rewrite (publish_handler_no_article E ui w Hart).
      exists []. cbn [trace]. rewrite app_nil_r. split; [reflexivity|constructor]. }
    assert (Hart' : generated_article (session w) <> [])
      by (rewrite Hart; discriminate).
    destruct (str_or (ui_linkedin_key ui) (linkedin_key (session w)))
      as [|k0 token0] eqn:Hkey.
    { rewrite (publish_handler_no_key E ui w Hart' Hkey).
      exists []. cbn [trace]. rewrite app_nil_r. split; [reflexivity|constructor]. }
    assert (Hkey' : str_or (ui_linkedin_key ui) (linkedin_key (session w)) <> [])
      by (rewrite Hkey; discriminate).
    rewrite (publish_handler_passes E ui w Hart' Hkey'), Hart.
    match goal with
    | |- context [try_except ?m ?h ?w1] =>
        apply (stage_publish_attempt (calls_carry (c :: article) w)
                 (carries_article (c :: article)) E ui (c :: article))
    end.
    - intros msg w1 Hw1. exact Hw1.
    - intros ev Hev w1 (evs & Htr & Hall). exists (evs ++ [ev]).
      cbn [emit snd trace]. rewrite Htr, <- app_assoc. split; [reflexivity|].
      apply Forall_app. split; [exact Hall|repeat constructor; exact Hev].
    - intros headers. exact I.
    - intros org_id token. cbn [carries_article].
      repeat split; eexists; reflexivity.
    - intros org_id key. reflexivity.
    - intros msg. exact I.
    - exists []. cbn [trace]. rewrite app_nil_r. split; [reflexivity|constructor]. }
  destruct Hcalls as (evs & Htr & Hall). exists evs. split; [exact Htr|].
  split.
  - intros url hs payload timeout Hin.
    pose proof (proj1 (List.Forall_forall _ _) Hall _ Hin) as Hev.
    cbn [carries_article] in Hev.
    destruct Hev as (Hurl & Htime & _ & org_id & Hpayload).
    split; [exact Hurl|]. split; [exact Htime|].
    exists org_id.
    exists (safe_truncate (generated_article (session w))
              MAX_LINKEDIN_COMMENTARY_LENGTH).
    split; [exact Hpayload|]. rewrite Hpayload. split; [reflexivity|].
    apply safe_truncate_length_le. unfold MAX_LINKEDIN_COMMENTARY_LENGTH. lia.
  - intros a org_id key Hin.
    exact (proj1 (List.Forall_forall _ _) Hall _ Hin).
Qed.

(** X27.  Publishing through the backend module (article and key
    present).  The entry point is called with the article, the
    organization id typed in (or none) and the key as a named argument;
    when that call raises a [TypeError] it is called once more without
    the key.  An answer that [json.dumps] accepts is logged after the
    success line and a notice is shown.  An answer it rejects (an
    object) leaves the success line in the log, followed by the failure
    line of the handler's [except] clause, and no notice is shown.  An
    exception other than a [TypeError], or any exception of the second
    call, is logged by the handler's [except] clauses and no notice is
    shown. *)
Theorem backend_publish_outcomes (E : env) (ui : widgets) (w : world)
    (entry : post_entry) :
  BACKEND_MODULE E = true ->
  backend_post_to_linkedin E = Some entry ->
  generated_article (session w) <> [] ->
  str_or (ui_linkedin_key ui) (linkedin_key (session w)) <> [] ->
  forall first second,
    first = EvBackendPost (generated_article (session w)) (org_argument ui)
              (Some (str_or (ui_linkedin_key ui) (linkedin_key (session w)))) ->
    second = EvBackendPost (generated_article (session w)) (org_argument ui)
               None ->
    forall answer,
      answer = post_keyed entry (generated_article (session w)) (org_argument ui)
                 (str_or (ui_linkedin_key ui) (linkedin_key (session w))) ->
      (forall v,
         answer = Return v ->
         (json_serialisable v = true ->
          publish_handler E ui w
          = (Return tt,
             published ui w
               [ py "[info] Using external backend module for posting.";
                 py "[success] Published using backend module. Response (truncated):";
                 slice_to 1000 (json_dumps E v) ]
               [first; EvSuccess (py "Published to LinkedIn (backend module).")]))
         /\ (json_serialisable v = false ->
             exists e,
               exn_cls e = TypeError
               /\ publish_handler E ui w
                  = (Return tt,
                     published ui w
                       [ py "[info] Using external backend module for posting.";
                         py "[success] Published using backend module. Response (truncated):";
                         publish_error_line e ]
                       [first])))
      /\ (forall e,
            answer = Raise e -> is_TypeError e = false ->
            publish_handler E ui w
            = (Return tt,
               published ui w
                 [ py "[info] Using external backend module for posting.";
                   publish_error_line e ]
                 [first]))
      /\ (forall e v,
            answer = Raise e -> is_TypeError e = true ->
            post_plain entry (generated_article (session w)) (org_argument ui)
            = Return v ->
            (json_serialisable v = true ->
             publish_handler E ui w
             = (Return tt,
                published ui w
                  [ py "[info] Using external backend module for posting.";
                    py "[success] Published using backend module. Response (truncated):";
                    slice_to 1000 (json_dumps E v) ]
                  [ first; second;
                    EvSuccess (py "Published to LinkedIn (backend module).") ]))
            /\ (json_serialisable v = false ->
                exists e',
                  exn_cls e' = TypeError
                  /\ publish_handler E ui w
                     = (Return tt,
                        published ui w
                          [ py "[info] Using external backend module for posting.";
                            py "[success] Published using backend module. Response (truncated):";
                            publish_error_line e' ]
                          [first; second])))
      /\ (forall e e',
            answer = Raise e -> is_TypeError e = true ->
            post_plain entry (generated_article (session w)) (org_argument ui)
            = Raise e' ->
            publish_handler E ui w
            = (Return tt,
               published ui w
                 [ py "[info] Using external backend module for posting.";
                   publish_error_line e' ]
                 [first; second])).
Proof.
  intros Hmod Hentry Hart Hkey first second -> -> answer Hanswer.
  rewrite (publish_handler_passes E ui w Hart Hkey), Hmod, Hentry.
  destruct w as [[a lg gk lk] fs tr].
  cbn [session generated_article linkedin_key] in Hanswer.
  unfold org_argument in *. unfold publish_error_line, published.
  split; [|split; [|split]].
  - intros v Hv. rewrite Hv in Hanswer. split; intros Hser.
    + run_prog. rewrite <- Hanswer. unfold try_json_dumps. rewrite Hser.
      run_prog. rewrite <- !app_assoc. reflexivity.
    + exists (exception TypeError "Object of type object is not JSON serializable").
      split; [reflexivity|].
      run_prog. rewrite <- Hanswer. unfold try_json_dumps. rewrite Hser.
      cbn [is_HTTPError exception exn_cls]. run_prog.
      rewrite <- !app_assoc. reflexivity.
  - intros e He Hcls. rewrite He in Hanswer. run_prog. rewrite <- Hanswer, Hcls.
    destruct (is_HTTPError e); run_prog; rewrite <- !app_assoc; reflexivity.
  - intros e v He Hcls Hplain. rewrite He in Hanswer.
    cbn [session generated_article] in Hplain. split; intros Hser.
    + run_prog. rewrite <- Hanswer, Hcls, Hplain. unfold try_json_dumps.
      rewrite Hser. run_prog. rewrite <- !app_assoc. reflexivity.
    + exists (exception TypeError "Object of type object is not JSON serializable").
      split; [reflexivity|].
      run_prog. rewrite <- Hanswer, Hcls, Hplain. unfold try_json_dumps.
      rewrite Hser. cbn [is_HTTPError exception exn_cls]. run_prog.
      rewrite <- !app_assoc. reflexivity.
  - intros e e' He Hcls Hplain. rewrite He in Hanswer.
    cbn [session generated_article] in Hplain.
    run_prog. rewrite <- Hanswer, Hcls, Hplain.
    destruct (is_HTTPError e'); run_prog; rewrite <- !app_assoc; reflexivity.
Qed.

Lemma backend_publish_outcomes_witness :
  trace (publish_handler env_positional_post ui_live_token
           world_with_article).2
  = [ EvBackendPost (py "Hello world") None (Some (py "token"));
      EvBackendPost (py "Hello world") None None;
      EvSuccess (py "Published to LinkedIn (backend module).") ]
  /\ trace (publish_handler env_object_post ui_live_token world_with_article).2
     = [ EvBackendPost (py "Hello world") None (Some (py "token")) ].
Proof.
  assert (Hart : generated_article (session world_with_article) <> [])
    by discriminate.
  assert (Hkey : str_or (ui_linkedin_key ui_live_token)
                   (linkedin_key (session world_with_article)) <> [])
    by discriminate.
  split.
  - destruct (backend_publish_outcomes env_positional_post ui_live_token
                world_with_article positional_post_entry eq_refl eq_refl Hart
                Hkey _ _ eq_refl eq_refl _ eq_refl) as (_ & _ & H & _).
    destruct (H _ _ eq_refl eq_refl eq_refl) as [Hok _].
    rewrite (Hok eq_refl). reflexivity.
  - destruct (backend_publish_outcomes env_object_post ui_live_token
                world_with_article object_post_entry eq_refl eq_refl Hart
                Hkey _ _ eq_refl eq_refl _ eq_refl) as (H & _).
    destruct (H _ eq_refl) as [_ Hbad].
    destruct (Hbad eq_refl) as (e & _ & Hrun).
    rewrite Hrun. reflexivity.
Defined.

(** ** The extractor on values without attributes *)

(** X28.  Only reading an attribute can fault: on every value that is
    not an object with attributes the body of the extractor returns
    without raising, and unless the value is a mapping it returns
    absence (a bare string or a list of texts is not used as the
    text). *)
Theorem extract_body_without_attributes (resp : pyval) :
  (forall attrs, resp <> VObj attrs) ->
  exists r,
    extract_body resp = Return r
    /\ ((forall d, resp <> VDict d) -> r = None).
Proof.
  intros Hobj. destruct resp as [| | | | | |d|attrs].
  7:{ unfold extract_body, extract_text_attr.
      rewrite dict_has_no_attribute. cbn [mbind outcome_bind].
      destruct (extract_from_dict (VDict d)) as [s|].
      - exists (Some s). split; [reflexivity|].
        intros Hd. exfalso. exact (Hd d eq_refl).
      - exists None. split; [reflexivity|]. intros _. reflexivity. }
  7:{ exfalso. exact (Hobj attrs eq_refl). }
  all: exists None; split; [reflexivity|intros _; reflexivity].
Qed.

Lemma extract_body_without_attributes_witness :
  extract_body (VStr (py "A finished article.")) = Return None.
Proof.
  destruct (extract_body_without_attributes (VStr (py "A finished article.")))
    as (r & Hr & Hnone).
  - intros attrs H. discriminate H.
  - rewrite Hr, Hnone; [reflexivity|]. intros d H. discriminate H.
Defined.

(** ** The log area *)

(** X29.  After [append_log] the log area shows at most the last hundred
    lines of the log, in order, and the line just appended is the last
    one shown; as long as the log has at most a hundred lines, all of
    it is shown. *)
Theorem log_area_after_append (msg : pystr) (w : world) :
  (length (log_area_lines (session (append_log msg w).2)) <= 100)%nat
  /\ last (log_area_lines (session (append_log msg w).2)) = Some msg
  /\ (exists older,
        logs (session w) ++ [msg]
        = older ++ log_area_lines (session (append_log msg w).2))
  /\ ((length (logs (session w)) < 100)%nat ->
      log_area_lines (session (append_log msg w).2) = logs (session w) ++ [msg]).
Proof.
  destruct w as [[a lg gk lk] fs tr].
  unfold log_area_lines, append_log, mbind, prog_bind, get_session, put_session.
  simp_world. unfold slice_last. rewrite length_app. cbn [length].
  split; [rewrite length_drop, length_app; cbn [length]; lia|]. split.
  - rewrite drop_app_le by lia. apply last_snoc.
  - split.
    + exists (take (length lg + 1 - 100) (lg ++ [msg])). symmetry.
      apply take_drop.
    + intros Hshort. replace (length lg + 1 - 100)%nat with 0%nat by lia.
      reflexivity.
Qed.

Lemma log_area_after_append_witness :
  length (log_area_lines (session (append_log (py "[info] Publishing started...")
                                     long_log_world).2)) = 100%nat
  /\ log_area_lines (session (append_log (py "hello") fresh_world).2)
     = [py "hello"].
Proof.
  split; [vm_compute; reflexivity|].
  destruct (log_area_after_append (py "hello") fresh_world) as (_ & _ & _ & H).
  apply H. simpl. lia.
Defined.
